(** * bayesquad.gps: Gaussian-process posteriors under the WSABI-L warp

    A shallow embedding of [bayesquad/gps.py]: the wrapper [GP] around a GPy
    model, the warped model [WsabiLGP] with its adaptive offset [alpha] and its
    retractable fantasy data, and the validator
    [_validate_and_transform_for_gpy_update].

    The code computes on numpy arrays of binary64 numbers.  Arrays are modelled
    as a shape and row-major data; the arithmetic is an interface ([Number])
    with two instances: [binary64], the IEEE numbers the code runs on (every
    definition evaluates on it), and [real], the exact arithmetic in which the
    algebraic identities of the hessian formulas hold.

    The file has three parts: the embedding of the code with the vocabulary of
    the properties, the inputs of the worked examples, and the properties. *)

From Stdlib Require Import List Arith Bool Lia ZArith PArith.
From Stdlib Require Import Floats.
From Stdlib Require Import Reals Lra.
Import ListNotations.

Set Implicit Arguments.

(** ** Numbers *)

(** The operations the source applies to array elements.  [n08] and [n2] are the
    literals [0.8] and [2] of the source; [n0] is the empty sum of [np.einsum].
    The only comparison the source makes between numbers is [<] (inside Python's
    [min]). *)
Class Number : Type := {
  num : Type;
  nadd : num -> num -> num;
  nsub : num -> num -> num;
  nmul : num -> num -> num;
  ndiv : num -> num -> num;
  nsqrt : num -> num;
  nltb : num -> num -> bool;
  n0 : num;
  n2 : num;
  n08 : num
}.

(** [a] is not above [b]: the comparison [b < a] fails.  On the reals this is
    [a <= b]; on binary64 it also holds when one side is not a number. *)
Definition nle {N : Number} (a b : num) : Prop := nltb b a = false.

(** [a] is [b] or strictly below it. *)
Definition lower_or_same {N : Number} (a b : num) : Prop :=
  a = b \/ nltb a b = true.

(** [<] is a strict order.  It is one on binary64 (not-a-number compares false
    with everything) and on the reals. *)
Class StrictOrderLaws (N : Number) : Prop := {
  nltb_irrefl : forall a : num, nltb a a = false;
  nltb_trans : forall a b c : num,
      nltb a b = true -> nltb b c = true -> nltb a c = true
}.

(** Scaling by the literal [0.8] reflects [<]. *)
Class ScalingLaw (N : Number) : Prop := {
  n08_reflects : forall a b : num,
      nltb (nmul n08 a) (nmul n08 b) = true -> nltb a b = true
}.

(** The laws of a commutative semiring with subtraction, as far as the hessian
    formulas use them.  They hold in exact arithmetic, and in binary64 only up
    to rounding. *)
Class RingLaws (N : Number) : Prop := {
  nadd_comm : forall a b : num, nadd a b = nadd b a;
  nmul_comm : forall a b : num, nmul a b = nmul b a;
  nmul_assoc : forall a b c : num, nmul (nmul a b) c = nmul a (nmul b c);
  nmul_0_r : forall a : num, nmul a n0 = n0;
  nmul_add_distr_l : forall a b c : num,
      nmul a (nadd b c) = nadd (nmul a b) (nmul a c)
}.

(** [+] and [*] are commutative.  They are on binary64, where rounding does not
    depend on the order of the operands, and on the reals. *)
Class CommutativeLaws (N : Number) : Prop := {
  nadd_commutes : forall a b : num, nadd a b = nadd b a;
  nmul_commutes : forall a b : num, nmul a b = nmul b a
}.

(** IEEE binary64, the element type of the numpy arrays of the source. *)
#[export] Instance binary64 : Number := {|
  num := float;
  nadd := PrimFloat.add;
  nsub := PrimFloat.sub;
  nmul := PrimFloat.mul;
  ndiv := PrimFloat.div;
  nsqrt := PrimFloat.sqrt;
  nltb := PrimFloat.ltb;
  n0 := 0%float;
  n2 := 2%float;
  n08 := 0x1.999999999999ap-1%float
|}.

(** Exact real arithmetic. *)
#[export] Instance real : Number := {|
  num := R;
  nadd := Rplus;
  nsub := Rminus;
  nmul := Rmult;
  ndiv := Rdiv;
  nsqrt := sqrt;
  nltb := fun a b => if Rlt_dec a b then true else false;
  n0 := 0%R;
  n2 := 2%R;
  n08 := (8 / 10)%R
|}.

(** ** Python outcomes *)

(** The exceptions the modelled code can raise. *)
Inductive exn : Type :=
| PointCountError (x_points y_points : nat)
    (* the ValueError of [_validate_and_transform_for_gpy_update] *)
| ShapeError
    (* the ValueError numpy raises on arrays whose shapes do not fit *)
| TypeError
    (* [min] called on no argument, or on one argument that is not iterable *)
| DimensionError.
    (* [validate_dimensions]: the query has the wrong dimensionality *)

Inductive outcome (A : Type) : Type :=
| Return (a : A)
| Raise (e : exn).
Arguments Return {A} a.
Arguments Raise {A} e.

Definition bind {A B : Type} (m : outcome A) (k : A -> outcome B) : outcome B :=
  match m with
  | Return a => k a
  | Raise e => Raise e
  end.

Declare Scope outcome_scope.
Delimit Scope outcome_scope with outcome.
Notation "x <- m ;; k" := (bind m (fun x => k))
  (at level 61, m at next level, right associativity) : outcome_scope.
Notation "' p <- m ;; k" := (bind m (fun p => k))
  (at level 61, p pattern, m at next level, right associativity) : outcome_scope.
Open Scope outcome_scope.

(** The outcome is the point-count error of the validator. *)
Definition is_point_count_error {A : Type} (o : outcome A) : Prop :=
  exists a b, o = Raise (PointCountError a b).

(** ** numpy arrays *)

Section Arrays.
Context {N : Number}.

(** An [ndarray]: its shape and its elements in row-major order. *)
Record ndarray : Type := mk_ndarray { shape : list nat; data : list num }.

Definition prod (sh : list nat) : nat := fold_right Nat.mul 1 sh.

Fixpoint shape_eqb (sh sh' : list nat) : bool :=
  match sh, sh' with
  | [], [] => true
  | d :: r, d' :: r' => (d =? d') && shape_eqb r r'
  | _, _ => false
  end.

Definition well_formed (a : ndarray) : Prop := length (data a) = prod (shape a).

(** The number of elements, [a.size]. *)
Definition size (a : ndarray) : nat := length (data a).

(** [np.size(a, axis=0)], for an array of at least one axis. *)
Definition size_axis0 (a : ndarray) : nat := hd 0 (shape a).

(** [np.atleast_1d] and [np.atleast_2d]. *)
Definition atleast_1d (a : ndarray) : ndarray :=
  match shape a with
  | [] => mk_ndarray [1] (data a)
  | _ => a
  end.

Definition atleast_2d (a : ndarray) : ndarray :=
  match shape a with
  | [] => mk_ndarray [1; 1] (data a)
  | [d] => mk_ndarray [1; d] (data a)
  | _ => a
  end.

(** [a.reshape(-1, 1)]: one column holding every element. *)
Definition reshape_column (a : ndarray) : ndarray :=
  mk_ndarray [size a; 1] (data a).

(** [np.squeeze(a)] drops every axis of length one; [np.squeeze(a, axis=-1)]
    drops the last axis and raises unless its length is one. *)
Definition squeeze (a : ndarray) : ndarray :=
  mk_ndarray (filter (fun d => negb (d =? 1)) (shape a)) (data a).

Definition squeeze_last (a : ndarray) : outcome ndarray :=
  match rev (shape a) with
  | 1 :: sh => Return (mk_ndarray (rev sh) (data a))
  | _ => Raise ShapeError
  end.

(** [np.concatenate] along the first axis: the arrays must have at least one
    axis and agree on the others. *)
Definition concatenate2 (a b : ndarray) : outcome ndarray :=
  match shape a, shape b with
  | n :: sh, m :: sh' =>
      if shape_eqb sh sh'
      then Return (mk_ndarray (n + m :: sh) (data a ++ data b))
      else Raise ShapeError
  | _, _ => Raise ShapeError
  end.

Fixpoint concatenate_onto (acc : ndarray) (l : list ndarray) : outcome ndarray :=
  match l with
  | [] => Return acc
  | b :: l' => acc' <- concatenate2 acc b ;; concatenate_onto acc' l'
  end.

Definition concatenate (l : list ndarray) : outcome ndarray :=
  match l with
  | [] => Raise ShapeError
  | a :: l' =>
      match shape a with
      | [] => Raise ShapeError
      | _ => concatenate_onto a l'
      end
  end.

(** Elementwise operations: with a scalar, and between two arrays.  numpy would
    try to broadcast two arrays of unequal shapes; the arrays the collaborators
    document have equal shapes there, and the model raises otherwise. *)
Definition amap (f : num -> num) (a : ndarray) : ndarray :=
  mk_ndarray (shape a) (map f (data a)).

Fixpoint map2 (f : num -> num -> num) (l1 l2 : list num) : list num :=
  match l1, l2 with
  | v1 :: l1', v2 :: l2' => f v1 v2 :: map2 f l1' l2'
  | _, _ => []
  end.

Definition amap2 (f : num -> num -> num) (a b : ndarray) : outcome ndarray :=
  if shape_eqb (shape a) (shape b)
  then Return (mk_ndarray (shape a) (map2 f (data a) (data b)))
  else Raise ShapeError.

(** Indexing.  [offset sh idx] is the row-major position of the index [idx] in
    an array of shape [sh]; [get a [i; j; k]] is [a[i, j, k]]. *)
Fixpoint offset (sh idx : list nat) : nat :=
  match sh, idx with
  | _ :: sh', i :: idx' => i * prod sh' + offset sh' idx'
  | _, _ => 0
  end.

Definition get (a : ndarray) (idx : list nat) : num :=
  nth (offset (shape a) idx) (data a) n0.

(** The indices of an array of shape [sh], in row-major order, and the array
    whose element at each index is given by [f]. *)
Fixpoint indices (sh : list nat) : list (list nat) :=
  match sh with
  | [] => [[]]
  | d :: sh' => flat_map (fun i => map (cons i) (indices sh')) (seq 0 d)
  end.

Definition tabulate (sh : list nat) (f : list nat -> num) : ndarray :=
  mk_ndarray sh (map f (indices sh)).

(** [idx] is an index of an array of shape [sh]. *)
Fixpoint in_bounds (sh idx : list nat) : Prop :=
  match sh, idx with
  | [], [] => True
  | d :: sh', i :: idx' => i < d /\ in_bounds sh' idx'
  | _, _ => False
  end.

(** [np.swapaxes(a, -1, -2)]. *)
Definition swap_last2 (l : list nat) : list nat :=
  match rev l with
  | a :: b :: l' => rev (b :: a :: l')
  | _ => l
  end.

Definition swapaxes_last2 (a : ndarray) : outcome ndarray :=
  match shape a with
  | [] | [_] => Raise ShapeError
  | sh => Return (tabulate (swap_last2 sh) (fun idx => get a (swap_last2 idx)))
  end.

(** The sum of [f 0], ..., [f (n - 1)], as [np.einsum] contracts an axis.
    [optimize=True] leaves the order of the additions to numpy; the sums below
    are the mathematical ones.  Axes that share a letter must have one length
    (numpy would also stretch an axis of length one). *)
Fixpoint sum_upto (n : nat) (f : nat -> num) : num :=
  match n with
  | 0 => n0
  | S n' => nadd (sum_upto n' f) (f n')
  end.

(** [np.einsum('ijkl,jm,m->ikl', a, b, c)]. *)
Definition einsum_ijkl_jm_m__ikl (a b c : ndarray) : outcome ndarray :=
  match shape a, shape b, shape c with
  | [ni; nj; nk; nl], [nj'; nm], [nm'] =>
      if (nj =? nj') && (nm =? nm') then
        Return (tabulate [ni; nk; nl] (fun idx =>
          match idx with
          | [i; k; l] =>
              sum_upto nj (fun j => sum_upto nm (fun m =>
                nmul (nmul (get a [i; j; k; l]) (get b [j; m])) (get c [m])))
          | _ => n0
          end))
      else Raise ShapeError
  | _, _, _ => Raise ShapeError
  end.

(** [np.einsum('iljk,lm,im->ijk', a, b, c)]. *)
Definition einsum_iljk_lm_im__ijk (a b c : ndarray) : outcome ndarray :=
  match shape a, shape b, shape c with
  | [ni; nl; nj; nk], [nl'; nm], [ni'; nm'] =>
      if (nl =? nl') && (nm =? nm') && (ni =? ni') then
        Return (tabulate [ni; nj; nk] (fun idx =>
          match idx with
          | [i; j; k] =>
              sum_upto nl (fun l => sum_upto nm (fun m =>
                nmul (nmul (get a [i; l; j; k]) (get b [l; m])) (get c [i; m])))
          | _ => n0
          end))
      else Raise ShapeError
  | _, _, _ => Raise ShapeError
  end.

(** [np.einsum('ilj,lm,imk->ijk', a, b, c)]. *)
Definition einsum_ilj_lm_imk__ijk (a b c : ndarray) : outcome ndarray :=
  match shape a, shape b, shape c with
  | [ni; nl; nj], [nl'; nm], [ni'; nm'; nk] =>
      if (nl =? nl') && (nm =? nm') && (ni =? ni') then
        Return (tabulate [ni; nj; nk] (fun idx =>
          match idx with
          | [i; j; k] =>
              sum_upto nl (fun l => sum_upto nm (fun m =>
                nmul (nmul (get a [i; l; j]) (get b [l; m])) (get c [i; m; k])))
          | _ => n0
          end))
      else Raise ShapeError
  | _, _, _ => Raise ShapeError
  end.


Definition symmetric4 (a : ndarray) (n Nt d : nat) : Prop :=
  forall i l j k, i < n -> l < Nt -> j < d -> k < d ->
    get a [i; l; j; k] = get a [i; l; k; j].

End Arrays.

Arguments ndarray {N}, N.

(** ** The collaborators *)

(** *** GPy

    A GPy regression model with one output: the training inputs [X], an array
    of shape (N, d), and the training targets [Y], an array of shape (N, 1)
    held here as its column of N numbers.  [set_XY] replaces both. *)
Module GPy.
Section GPy.
Context {N : Number} {kernel : Type}.

Record gp : Type := mk_gp {
  input_dim : nat;
  kern : kernel;
  X : ndarray;
  Y : list num
}.

Definition set_XY (g : gp) (X' : ndarray) (Y' : list num) : gp :=
  mk_gp (input_dim g) (kern g) X' Y'.

(** GPy's inference, outside the repository: [predict], [predictive_gradients],
    the kernel's covariance [kern.K] and [posterior.woodbury_inv]. *)
Class Inference : Type := {
  predict : gp -> ndarray -> ndarray * ndarray;
  predictive_gradients : gp -> ndarray -> ndarray * ndarray;
  K : kernel -> ndarray -> ndarray -> ndarray;
  woodbury_inv : gp -> ndarray
}.

End GPy.
Arguments gp : clear implicits.
Arguments Inference : clear implicits.
End GPy.

(** The array holding a column of targets, of shape (n, 1). *)
Definition column_array {N : Number} (c : list num) : ndarray :=
  mk_ndarray [length c; 1] c.

(** Modelled from the spec: the module [kernel_gradients] of the repository is
    not among the sources.  By sections 4.1 and 6 of the specification it gives
    the jacobian (shape [n, N, d]) and the hessian (shape [n, N, d, d]) of the
    cross-covariance between n query points and N training points with respect
    to the query coordinates, and the hessian (shape [n, d, d]) of the prior
    self-covariance of each query point. *)
Class KernelGradients (N : Number) (kernel : Type) : Type := {
  jacobian : kernel -> ndarray -> ndarray -> ndarray;
  hessian : kernel -> ndarray -> ndarray -> ndarray;
  diagonal_hessian : kernel -> ndarray -> ndarray
}.

(** Modelled from the spec: [_util.validate_dimensions] is not among the
    sources.  By sections 4.1 and 7 of the specification a query whose
    dimensionality differs from the model's fails with a dimension error. *)
Definition validate_dimensions {N : Number} (x : ndarray) (dimensions : nat)
  : outcome unit :=
  match rev (shape x) with
  | d :: _ => if d =? dimensions then Return tt else Raise DimensionError
  | [] => Raise DimensionError
  end.

(** Modelled from the spec: [decorators.flexible_array_dimensions] is not among
    the sources.  By section 4.1 of the specification a decorated method takes a
    batch of points (a 2D array) or a single point (a 1D array), and for a
    single point returns each result with one axis less, the values being those
    of the batch of that one point. *)
Definition drop_axis0 {N : Number} (a : ndarray) : ndarray :=
  mk_ndarray (tl (shape a)) (data a).

Definition flexible_array_dimensions {N : Number} {A : Type}
  (squeeze_result : A -> A) (func : ndarray -> outcome A) (x : ndarray)
  : outcome A :=
  match shape x with
  | [d] => r <- func (mk_ndarray [1; d] (data x)) ;; Return (squeeze_result r)
  | _ => func x
  end.

Definition both {A B : Type} (f : A -> B) (p : A * A) : B * B :=
  (f (fst p), f (snd p)).

(** A query of one point, and the batch a decorated method works on. *)
Definition single_point {N : Number} (x : ndarray) : bool :=
  match shape x with
  | [_] => true
  | _ => false
  end.

Definition as_batch {N : Number} (x : ndarray) : ndarray :=
  match shape x with
  | [d] => mk_ndarray [1; d] (data x)
  | _ => x
  end.

(** The entry (j, k) of a hessian returned for the query [x], at its point i:
    the array returned for a single point has no axis for the points. *)
Definition at_point {N : Number} (x : ndarray) (a : ndarray) (i j k : nat) : num :=
  if single_point x then get a [j; k] else get a [i; j; k].


(** ** [_validate_and_transform_for_gpy_update] *)

(** The [y] a caller passes: an [ndarray], or a Python float. *)
Inductive py_y {N : Number} : Type :=
| YArray (a : ndarray)
| YFloat (v : num).

(** [np.array(y)] on a float: the array of no axis holding it. *)
Definition np_array {N : Number} (v : num) : ndarray := mk_ndarray [] [v].

(** [y] itself when it is an [ndarray], and [np.array(y)] otherwise. *)
Definition as_ndarray {N : Number} (y : py_y) : ndarray :=
  match y with
  | YArray a => a
  | YFloat v => np_array v
  end.

(** The point counts the validator compares: the length of the first axis of
    [np.atleast_2d(x)], and the number of elements of [y]. *)
Definition x_points {N : Number} (x : ndarray) : nat := size_axis0 (atleast_2d x).
Definition y_points {N : Number} (y : py_y) : nat := size (as_ndarray y).

(** Ensure that x and y have the right dimensionality and size to be passed to
    [GPy.core.gp.GP.set_XY].  The column returned stands for the array
    [y.reshape(-1, 1)]. *)
Definition _validate_and_transform_for_gpy_update {N : Number}
  (x : ndarray) (y : py_y) : outcome (ndarray * list num) :=
  let x := atleast_2d x in
  let y := as_ndarray y in
  let y := reshape_column y in
  let x_points := size_axis0 x in
  let y_points := size_axis0 y in
  if negb (x_points =? y_points)
  then Raise (PointCountError x_points y_points)
  else Return (x, data y).

(** ** class GP

    The wrapper around a GPy model.  [last_value_cache], whose module is not
    among the sources, keeps the latest result of a method for its latest
    argument and is emptied whenever the model changes: a cached result is the
    one the body computes, and the methods are modelled by their bodies. *)
Module GP.
Section GP.
Context {N : Number} {kernel : Type}.
Context {gpy : GPy.Inference N kernel} {kg : KernelGradients N kernel}.

Record t : Type := mk {
  _gpy_gp : GPy.gp N kernel;
  dimensions : nat
}.

Definition __init__ (gpy_gp : GPy.gp N kernel) : t :=
  mk gpy_gp (GPy.input_dim gpy_gp).

(** Attributes the wrapper passes through to the GPy model. *)
Definition X (self : t) : ndarray := GPy.X (_gpy_gp self).
Definition Y (self : t) : list num := GPy.Y (_gpy_gp self).
Definition kern (self : t) : kernel := GPy.kern (_gpy_gp self).

Definition set_XY (self : t) (X' : ndarray) (Y' : list num) : t :=
  mk (GPy.set_XY (_gpy_gp self) X' Y') (dimensions self).

Definition posterior_mean_and_variance (self : t)
  : ndarray -> outcome (ndarray * ndarray) :=
  flexible_array_dimensions (both drop_axis0) (fun x =>
    _ <- validate_dimensions x (dimensions self) ;;
    let (mean, variance) := GPy.predict (_gpy_gp self) x in
    mean' <- squeeze_last mean ;;
    variance' <- squeeze_last variance ;;
    Return (mean', variance')).

Definition posterior_jacobians (self : t)
  : ndarray -> outcome (ndarray * ndarray) :=
  flexible_array_dimensions (both drop_axis0) (fun x =>
    _ <- validate_dimensions x (dimensions self) ;;
    let (mean_jacobian, variance_jacobian) :=
      GPy.predictive_gradients (_gpy_gp self) x in
    mean_jacobian' <- squeeze_last mean_jacobian ;;
    Return (mean_jacobian', variance_jacobian)).

Definition _kernel_jacobian (self : t) (x : ndarray) : ndarray :=
  jacobian (kern self) x (X self).

Definition _kernel_hessian (self : t) (x : ndarray) : ndarray :=
  hessian (kern self) x (X self).

Definition _diagonal_hessian (self : t) (x : ndarray) : ndarray :=
  diagonal_hessian (kern self) x.

Definition posterior_hessians (self : t)
  : ndarray -> outcome (ndarray * ndarray) :=
  flexible_array_dimensions (both drop_axis0) (fun x =>
    _ <- validate_dimensions x (dimensions self) ;;
    let kernel_jacobian := _kernel_jacobian self x in
    let kernel_hessian := _kernel_hessian self x in
    let X_D := X self in
    let Y_D := atleast_1d (squeeze (column_array (Y self))) in
    let K_D_inv := GPy.woodbury_inv (_gpy_gp self) in
    let K_star := atleast_1d (GPy.K (kern self) x X_D) in
    mean_hessian <- einsum_ijkl_jm_m__ikl kernel_hessian K_D_inv Y_D ;;
    let diagonal_hessian := _diagonal_hessian self x in
    half1 <- einsum_iljk_lm_im__ijk kernel_hessian K_D_inv K_star ;;
    half2 <- einsum_ilj_lm_imk__ijk kernel_jacobian K_D_inv kernel_jacobian ;;
    data_dependent_hessian_half <- amap2 nadd half1 half2 ;;
    swapped <- swapaxes_last2 data_dependent_hessian_half ;;
    data_dependent_hessian <- amap2 nadd data_dependent_hessian_half swapped ;;
    variance_hessian <- amap2 nsub diagonal_hessian data_dependent_hessian ;;
    Return (mean_hessian, variance_hessian)).

(** Add new data to the GP. *)
Definition update (self : t) (x : ndarray) (y : py_y) : outcome t :=
  '(x, y) <- _validate_and_transform_for_gpy_update x y ;;
  X' <- concatenate [X self; x] ;;
  let Y' := Y self ++ y in
  Return (set_XY self X' Y').

(** *** What the collaborators hand to the queries *)

(** The data-dependent half of the variance hessian, as the specification
    writes it: Q[i,j,k] = sum_{l,m} H[i,l,j,k] Kinv[l,m] K*[i,m]
    + sum_{l,m} J[i,l,j] Kinv[l,m] J[i,m,k]. *)
Definition Q (H J Kinv Kstar : ndarray) (Nt : nat) (i j k : nat) : num :=
  nadd
    (sum_upto Nt (fun l => sum_upto Nt (fun m =>
       nmul (nmul (get H [i; l; j; k]) (get Kinv [l; m])) (get Kstar [i; m]))))
    (sum_upto Nt (fun l => sum_upto Nt (fun m =>
       nmul (nmul (get J [i; l; j]) (get Kinv [l; m])) (get J [i; m; k])))).

(** What the collaborators hand to [posterior_hessians] on a batch [x] of n
    points, for a model of Nt training points in d dimensions. *)
Record hessian_inputs (self : t) (x : ndarray) (n Nt d : nat) : Prop := {
  query_shape : shape x = [n; d];
  query_dimensions : d = dimensions self;
  hessian_shape : shape (_kernel_hessian self x) = [n; Nt; d; d];
  jacobian_shape : shape (_kernel_jacobian self x) = [n; Nt; d];
  woodbury_shape : shape (GPy.woodbury_inv (_gpy_gp self)) = [Nt; Nt];
  K_star_shape : shape (GPy.K (kern self) x (X self)) = [n; Nt];
  diagonal_shape : shape (_diagonal_hessian self x) = [n; d; d];
  diagonal_well_formed : well_formed (_diagonal_hessian self x);
  targets_length : length (Y self) = Nt
}.

(** What GPy hands to [posterior_mean_and_variance] and [posterior_jacobians]
    on a batch [x] of n points in d dimensions: the mean and the variance as
    columns, the jacobian of the mean with a last axis of length one. *)
Record prediction_inputs (self : t) (x : ndarray) (n d : nat) : Prop := {
  batch_shape : shape x = [n; d];
  batch_dimensions : d = dimensions self;
  mean_shape : shape (fst (GPy.predict (_gpy_gp self) x)) = [n; 1];
  variance_shape : shape (snd (GPy.predict (_gpy_gp self) x)) = [n; 1]
}.

Record gradient_inputs (self : t) (x : ndarray) (n d : nat) : Prop := {
  mean_jacobian_shape :
    shape (fst (GPy.predictive_gradients (_gpy_gp self) x)) = [n; d; 1];
  variance_jacobian_shape :
    shape (snd (GPy.predictive_gradients (_gpy_gp self) x)) = [n; d]
}.

End GP.
Arguments t : clear implicits.
End GP.

(** ** class WsabiLGP *)
Module WsabiLGP.
Section WsabiLGP.
Context {N : Number} {kernel : Type}.
Context {gpy : GPy.Inference N kernel} {kg : KernelGradients N kernel}.

(** The objects the offset can be: a [numpy.float64], or an [ndarray] of shape
    (1,), which is what a row of a column array is. *)
Inductive scalar : Type :=
| Float64 (v : num)
| Row (v : num).

Definition value (a : scalar) : num :=
  match a with
  | Float64 v => v
  | Row v => v
  end.

(** The rows [*y] unpacks from a column array. *)
Definition rows (y : list num) : list scalar := map Row y.

(** [0.8 * a]. *)
Definition times_08 (a : scalar) : scalar :=
  match a with
  | Float64 v => Float64 (nmul n08 v)
  | Row v => Row (nmul n08 v)
  end.

(** What Python's [min] returns: its first argument itself, or another object.
    [min(a, b, ...)] keeps the first of its smallest arguments: an item replaces
    the running minimum only when it compares [<] to it.  [min(a)] iterates over
    [a]: an array of shape (1,) yields its element, a [numpy.float64] is not
    iterable. *)
Inductive min_result : Type :=
| First
| Another (o : scalar).

Fixpoint min_scan (cur : num) (res : min_result) (items : list scalar)
  : min_result :=
  match items with
  | [] => res
  | item :: items' =>
      if nltb (value item) cur
      then min_scan (value item) (Another item) items'
      else min_scan cur res items'
  end.

Definition py_min (args : list scalar) : outcome min_result :=
  match args with
  | [] => Raise TypeError
  | [Row v] => Return (Another (Float64 v))
  | [Float64 _] => Raise TypeError
  | a :: items => Return (min_scan (value a) First items)
  end.

Definition picked (first : scalar) (res : min_result) : scalar :=
  match res with
  | First => first
  | Another o => o
  end.

Record t : Type := mk {
  _gp : GP.t N kernel;
  dimensions : nat;
  _alpha : scalar;
  _true_alpha : scalar;
  _unwarped_Y : list (list num);
  _all_X : list ndarray;
  _fantasy_X : list ndarray;
  _fantasy_Y : list (list num)
}.

Definition set_gp (gp : GP.t N kernel) (self : t) : t :=
  mk gp (dimensions self) (_alpha self) (_true_alpha self) (_unwarped_Y self)
     (_all_X self) (_fantasy_X self) (_fantasy_Y self).
Definition set_alpha (a : scalar) (self : t) : t :=
  mk (_gp self) (dimensions self) a (_true_alpha self) (_unwarped_Y self)
     (_all_X self) (_fantasy_X self) (_fantasy_Y self).
Definition set_true_alpha (a : scalar) (self : t) : t :=
  mk (_gp self) (dimensions self) (_alpha self) a (_unwarped_Y self)
     (_all_X self) (_fantasy_X self) (_fantasy_Y self).
Definition set_unwarped_Y (l : list (list num)) (self : t) : t :=
  mk (_gp self) (dimensions self) (_alpha self) (_true_alpha self) l
     (_all_X self) (_fantasy_X self) (_fantasy_Y self).
Definition set_all_X (l : list ndarray) (self : t) : t :=
  mk (_gp self) (dimensions self) (_alpha self) (_true_alpha self)
     (_unwarped_Y self) l (_fantasy_X self) (_fantasy_Y self).
Definition set_fantasy_X (l : list ndarray) (self : t) : t :=
  mk (_gp self) (dimensions self) (_alpha self) (_true_alpha self)
     (_unwarped_Y self) (_all_X self) l (_fantasy_Y self).
Definition set_fantasy_Y (l : list (list num)) (self : t) : t :=
  mk (_gp self) (dimensions self) (_alpha self) (_true_alpha self)
     (_unwarped_Y self) (_all_X self) (_fantasy_X self) l.

(** A method runs on the object and leaves it as it is when it returns or
    raises: what it assigned before raising stays assigned. *)
Definition method (A : Type) : Type := t -> outcome A * t.

Definition ret {A : Type} (a : A) : method A := fun self => (Return a, self).
Definition lift {A : Type} (o : outcome A) : method A := fun self => (o, self).
Definition this : method t := fun self => (Return self, self).
Definition assign (f : t -> t) : method unit := fun self => (Return tt, f self).
Definition mbind {A B : Type} (m : method A) (k : A -> method B) : method B :=
  fun self =>
    match m self with
    | (Return a, self') => k a self'
    | (Raise e, self') => (Raise e, self')
    end.

Declare Scope method_scope.
Delimit Scope method_scope with method.
Notation "x <- m ;; k" := (mbind m (fun x => k))
  (at level 61, m at next level, right associativity) : method_scope.
Notation "' p <- m ;; k" := (mbind m (fun p => k))
  (at level 61, p pattern, m at next level, right associativity) : method_scope.
Notation "m ;; k" := (mbind m (fun _ => k))
  (at level 61, right associativity) : method_scope.

(** [np.concatenate] of a list of column arrays. *)
Definition concatenate_columns (l : list (list num)) : outcome (list num) :=
  match l with
  | [] => Raise ShapeError
  | _ => Return (concat l)
  end.

Definition __init__ (gp : GP.t N kernel) : outcome t :=
  let unwarped := map (fun v => ndiv (nmul v v) n2) (GP.Y gp) in
  res <- py_min (rows unwarped) ;;
  let alpha := times_08 (picked (hd (Row n0) (rows unwarped)) res) in
  Return (mk gp (GP.dimensions gp) alpha alpha [unwarped] [GP.X gp] [] []).

Definition _warp (self : t) (y : list num) : list num :=
  map (fun v => nsqrt (nmul n2 (nsub v (value (_alpha self))))) y.

Definition gp_set_XY (all_X : ndarray) (all_warped_Y : list num) : method unit :=
  assign (fun self => set_gp (GP.set_XY (_gp self) all_X all_warped_Y) self).

Definition gp_update (x : ndarray) (warped_y : list num) : method unit :=
  fun self =>
    match GP.update (_gp self) x (YArray (column_array warped_y)) with
    | Return gp => (Return tt, set_gp gp self)
    | Raise e => (Raise e, self)
    end.

Definition _update_alpha_and_reprocess_data (alpha : scalar) : method unit :=
  (assign (set_alpha alpha) ;;
   assign (set_true_alpha alpha) ;;
   self <- this ;;
   let warped_Y := map (_warp self) (_unwarped_Y self) in
   all_warped_Y <- lift (concatenate_columns warped_Y) ;;
   all_X <- lift (concatenate (_all_X self)) ;;
   gp_set_XY all_X all_warped_Y)%method.

Definition _fantasise_alpha_and_reprocess_data (alpha : scalar) : method unit :=
  (assign (set_alpha alpha) ;;
   self <- this ;;
   let warped_Y :=
     map (_warp self) (_unwarped_Y self) ++ map (_warp self) (_fantasy_Y self) in
   all_warped_Y <- lift (concatenate_columns warped_Y) ;;
   all_X <- lift (concatenate (_all_X self ++ _fantasy_X self)) ;;
   gp_set_XY all_X all_warped_Y)%method.

(** Add new data to the GP.  If necessary, this will also update the parameter
    alpha to a value consistent with the new data. *)
Definition update (x : ndarray) (y : py_y) : method unit :=
  ('(x, y) <- lift (_validate_and_transform_for_gpy_update x y) ;;
   assign (fun self => set_all_X (_all_X self ++ [x]) self) ;;
   assign (fun self => set_unwarped_Y (_unwarped_Y self ++ [y]) self) ;;
   self <- this ;;
   new_min <- lift (py_min (_alpha self :: rows (map (nmul n08) y))) ;;
   match new_min with
   | Another new_min => _update_alpha_and_reprocess_data new_min
   | First => gp_update x (_warp self y)
   end)%method.

Definition fantasise (x : ndarray) (y : py_y) : method unit :=
  ('(x, y) <- lift (_validate_and_transform_for_gpy_update x y) ;;
   assign (fun self => set_fantasy_X (_fantasy_X self ++ [x]) self) ;;
   assign (fun self => set_fantasy_Y (_fantasy_Y self ++ [y]) self) ;;
   self <- this ;;
   new_min <- lift (py_min (_alpha self :: rows (map (nmul n08) y))) ;;
   match new_min with
   | Another new_min => _fantasise_alpha_and_reprocess_data new_min
   | First => gp_update x (_warp self y)
   end)%method.

Definition remove_fantasies : method unit :=
  (assign (fun self => set_alpha (_true_alpha self) self) ;;
   self <- this ;;
   let warped_Y := map (_warp self) (_unwarped_Y self) in
   all_warped_Y <- lift (concatenate_columns warped_Y) ;;
   all_X <- lift (concatenate (_all_X self)) ;;
   gp_set_XY all_X all_warped_Y ;;
   assign (set_fantasy_X []) ;;
   assign (set_fantasy_Y []))%method.

(** [alpha + a] for an array [a]: an offset of shape (1,) gives an array of no
    axis the shape (1,). *)
Definition add_scalar (alpha : scalar) (a : ndarray) : ndarray :=
  mk_ndarray
    match alpha, shape a with
    | Row _, [] => [1]
    | _, sh => sh
    end
    (map (nadd (value alpha)) (data a)).

Definition posterior_mean_and_variance (self : t)
  : ndarray -> outcome (ndarray * ndarray) :=
  flexible_array_dimensions (both drop_axis0) (fun x =>
    '(gp_mean, gp_variance) <- GP.posterior_mean_and_variance (_gp self) x ;;
    let gp_mean_squared := amap (fun m => nmul m m) gp_mean in
    let mean :=
      add_scalar (_alpha self) (amap (fun v => ndiv v n2) gp_mean_squared) in
    variance <- amap2 nmul gp_variance gp_mean_squared ;;
    Return (mean, variance)).


(** *** Calls and the states they reach *)

Inductive call : Type :=
| Update (x : ndarray) (y : py_y)
| Fantasise (x : ndarray) (y : py_y)
| RemoveFantasies.

Definition run (c : call) : method unit :=
  match c with
  | Update x y => update x y
  | Fantasise x y => fantasise x y
  | RemoveFantasies => remove_fantasies
  end.

(** The calls of a list in order, up to the first that raises. *)
Fixpoint run_all (calls : list call) : method unit :=
  match calls with
  | [] => ret tt
  | c :: calls' => (run c ;; run_all calls')%method
  end.

(** The states reached from the construction on [gp] by calls that return. *)
Inductive reachable (gp : GP.t N kernel) : t -> Prop :=
| reachable_init self :
    __init__ gp = Return self -> reachable gp self
| reachable_call self c self' :
    reachable gp self -> run c self = (Return tt, self') -> reachable gp self'.

(** No fantasy data is stored. *)
Definition no_fantasies (self : t) : Prop :=
  _fantasy_X self = [] /\ _fantasy_Y self = [].

(** A call is orderly when it is not an update made over stored fantasy data. *)
Definition orderly (self : t) (c : call) : Prop :=
  match c with
  | Update _ _ => no_fantasies self
  | _ => True
  end.

(** Orderly calls that return, one after the other. *)
Inductive orderly_calls : t -> t -> Prop :=
| orderly_none self : orderly_calls self self
| orderly_more self self' c self'' :
    orderly_calls self self' -> orderly self' c ->
    run c self' = (Return tt, self'') -> orderly_calls self self''.

(** The states reached from the construction on [gp] by orderly calls. *)
Definition orderly_reachable (gp : GP.t N kernel) (self : t) : Prop :=
  exists self0, __init__ gp = Return self0 /\ orderly_calls self0 self.

(** Real updates that return, one after the other. *)
Inductive updates : t -> t -> Prop :=
| updates_none self : updates self self
| updates_more self self' x y self'' :
    updates self self' -> update x y self' = (Return tt, self'') ->
    updates self self''.

(** Warp consistency: the training set of the underlying model is the warp,
    under the current alpha, of the real history followed by the fantasy
    history. *)
Definition consistent (self : t) : Prop :=
  concatenate (_all_X self ++ _fantasy_X self) = Return (GP.X (_gp self))
  /\ GP.Y (_gp self)
     = _warp self (concat (_unwarped_Y self ++ _fantasy_Y self)).

(** The number [min(alpha, 0.8 * y_1, ..., 0.8 * y_n)]. *)
Definition candidate_alpha (alpha : num) (y : list num) : num :=
  fold_left (fun m v => if nltb (nmul n08 v) m then nmul n08 v else m) y alpha.

(** *** Vocabulary of the properties *)

(** The object after the two appends of [update], and of [fantasise]. *)
Definition with_real (x : ndarray) (y : list num) (self : t) : t :=
  set_unwarped_Y (_unwarped_Y self ++ [y]) (set_all_X (_all_X self ++ [x]) self).

Definition with_fantasy (x : ndarray) (y : list num) (self : t) : t :=
  set_fantasy_Y (_fantasy_Y self ++ [y]) (set_fantasy_X (_fantasy_X self ++ [x]) self).

(** The running minimum as a number. *)
Definition least (cur : num) (items : list num) : num :=
  fold_left (fun m v => if nltb v m then v else m) items cur.

(** [_alpha] is [_true_alpha] or strictly below it. *)
Definition alpha_below_true (self : t) : Prop :=
  lower_or_same (value (_alpha self)) (value (_true_alpha self)).

(** Bounds that hold along orderly calls. *)
Definition bounded (self : t) : Prop :=
  (forall u, In u (concat (_unwarped_Y self)) ->
     nle (value (_true_alpha self)) (nmul n08 u))
  /\ alpha_below_true self
  /\ (forall f, In f (concat (_fantasy_Y self)) ->
        nle (value (_alpha self)) (nmul n08 f))
  /\ (no_fantasies self -> _alpha self = _true_alpha self).

End WsabiLGP.
Arguments t : clear implicits.
Arguments scalar : clear implicits.
Arguments call : clear implicits.
End WsabiLGP.

(** ** class WarpedGP, and the construction from any argument *)

Module WarpedGP.
Section WarpedGP.
Context {N : Number} {K : Type}.

(** What a caller may pass as [gp]: a [GP], a GPy model, or anything else. *)
Inductive argument : Type :=
| IsGP (gp : GP.t N K)
| IsGPy (gpy_gp : GPy.gp N K)
| IsNeither.

(** How a construction ends: with the object, with the [ValueError] of
    [WarpedGP.__init__] ("Argument to __init__ must be a GP."), or with an
    exception of the code that runs after it. *)
Inductive construction : Type :=
| Built (self : WsabiLGP.t N K)
| ArgumentError
| Failed (e : exn).

(** [WarpedGP.__init__]: the [GP] kept as [_gp], a GPy model being wrapped. *)
Definition __init__ (gp : argument) : option (GP.t N K) :=
  match gp with
  | IsGP gp => Some gp
  | IsGPy gpy_gp => Some (GP.__init__ gpy_gp)
  | IsNeither => None
  end.

(** [WsabiLGP(gp)]: [super().__init__(gp)], then the fields of the warp, read
    from [gp.X] and [gp.Y], which a [GP] passes through to its GPy model. *)
Definition new (gp : argument) : construction :=
  match __init__ gp with
  | None => ArgumentError
  | Some gp' =>
      match WsabiLGP.__init__ gp' with
      | Return self => Built self
      | Raise e => Failed e
      end
  end.

(** The property [kernel]: [self._gp.kern]. *)
Definition kernel (self : WsabiLGP.t N K) : K := GP.kern (WsabiLGP._gp self).

End WarpedGP.
Arguments argument : clear implicits.
Arguments construction : clear implicits.
End WarpedGP.

(** ** Vocabulary of the further properties *)

Module History.
Import WsabiLGP.
Section History.
Context {N : Number} {kernel : Type}.

(** The histories are aligned: every stored batch of points comes with as many
    observations as it has points. *)
Definition aligned (self : WsabiLGP.t N kernel) : Prop :=
  Forall2 (fun x y => size_axis0 x = length y) (_all_X self) (_unwarped_Y self)
  /\ Forall2 (fun x y => size_axis0 x = length y)
       (_fantasy_X self) (_fantasy_Y self).

(** What [set_XY] and [GP.update] leave of a [GP]: its dimensionality, its
    kernel and the input dimension of the GPy model. *)
Definition gp_frame (gp : GP.t N kernel) : nat * kernel * nat :=
  (GP.dimensions gp, GP.kern gp, GPy.input_dim (GP._gpy_gp gp)).

(** What the object holds besides the fantasies and the data of the model: the
    true offset, the real history, the dimensionality and the kernel. *)
Definition real_part (self : WsabiLGP.t N kernel)
  : scalar N * list (list num) * list ndarray * nat * (nat * kernel * nat) :=
  (_true_alpha self, _unwarped_Y self, _all_X self, dimensions self,
   gp_frame (_gp self)).

(** Calls of [fantasise], one for each batch of a list. *)
Definition fantasies (batches : list (ndarray * py_y)) : list (call N) :=
  map (fun b => Fantasise (fst b) (snd b)) batches.

(** [l] starts with [p]. *)
Definition starts_with {A : Type} (p l : list A) : Prop :=
  exists rest, l = p ++ rest.

(** The object after the calls of a list, each made on the object the previous
    one left, whether that one returned or raised. *)
Fixpoint after (calls : list (call N)) (self : WsabiLGP.t N kernel)
  : WsabiLGP.t N kernel :=
  match calls with
  | [] => self
  | c :: calls' => after calls' (snd (run c self))
  end.

(** [Y ** 2 / 2], element by element. *)
Definition half_square (v : num) : num := ndiv (nmul v v) n2.

(** The offsets are attained: the true alpha is 0.8 times a stored real
    observation, and alpha is 0.8 times a stored observation, real or
    fantasy. *)
Definition attained (self : WsabiLGP.t N kernel) : Prop :=
  (exists u, In u (concat (_unwarped_Y self))
             /\ value (_true_alpha self) = nmul n08 u)
  /\ (exists u, In u (concat (_unwarped_Y self ++ _fantasy_Y self))
                /\ value (_alpha self) = nmul n08 u).

(** The stored points are uniform: the inputs of the model and every stored
    batch of points, real or fantasy, have the trailing shape [sh], and real
    data is stored. *)
Definition trailing (sh : list nat) (x : ndarray) : Prop :=
  exists m, shape x = m :: sh.

Definition uniform (sh : list nat) (self : WsabiLGP.t N kernel) : Prop :=
  trailing sh (GP.X (_gp self))
  /\ Forall (trailing sh) (_all_X self ++ _fantasy_X self)
  /\ _all_X self <> []
  /\ _unwarped_Y self <> [].

(** Without fantasies, alpha is the true alpha. *)
Definition settled (self : WsabiLGP.t N kernel) : Prop :=
  no_fantasies self -> _alpha self = _true_alpha self.

(** A clean object: it stores real data and no fantasy, its alpha is the true
    alpha, and its model is consistent with the history. *)
Definition clean (self : WsabiLGP.t N kernel) : Prop :=
  _unwarped_Y self <> []
  /\ no_fantasies self
  /\ _alpha self = _true_alpha self
  /\ consistent self.

End History.
End History.

(** * Worked inputs *)

(** ** The inputs of the worked examples, on binary64 *)

Module Binary64Examples.
Import WsabiLGP.

Definition arr (sh : list nat) (l : list float) : ndarray binary64 :=
  mk_ndarray (N := binary64) sh l.

Definition f64 (v : float) : @num binary64 := v.

Definition float_y (v : float) : py_y (N := binary64) := YFloat (N := binary64) v.

Definition array_y (sh : list nat) (l : list float) : py_y (N := binary64) :=
  YArray (arr sh l).

(** A GPy model holding the point x = 0 with the target 2. *)
Definition gp : GP.t binary64 unit :=
  GP.__init__ (GPy.mk_gp 1 tt (arr [1; 1] [0%float]) [2%float]).

(** Objects and models written out field by field. *)
Definition state (gp : GP.t binary64 unit) (alpha true_alpha : scalar binary64)
  (unwarped_Y : list (list float)) (all_X : list (ndarray binary64))
  (fantasy_X : list (ndarray binary64)) (fantasy_Y : list (list float))
  : WsabiLGP.t binary64 unit :=
  mk gp 1 alpha true_alpha unwarped_Y all_X fantasy_X fantasy_Y.

Definition model (X : list float) (Y : list float) : GP.t binary64 unit :=
  GP.mk (GPy.mk_gp 1 tt (arr [length X; 1] X) Y) 1.

(** The object built on [gp], where alpha is 0.8 * (2^2 / 2) = 1.6, and the
    object after [update] at x = 1 with the observation 1, which lowers alpha
    to 0.8 and re-warps both observations: sqrt(2 (2 - 0.8)), sqrt(2 (1 - 0.8)). *)
Definition self0 : WsabiLGP.t binary64 unit :=
  state gp (Float64 (N := binary64) 0x1.999999999999ap+0%float)
    (Float64 (N := binary64) 0x1.999999999999ap+0%float)
    [[2%float]] [arr [1; 1] [0%float]] [] [].

Definition self1 : WsabiLGP.t binary64 unit :=
  state
    (model [0%float; 1%float]
       [0x1.8c97ef43f7248p+0%float; 0x1.43d136248490ep-1%float])
    (Row (N := binary64) 0x1.999999999999ap-1%float)
    (Row (N := binary64) 0x1.999999999999ap-1%float)
    [[2%float]; [1%float]] [arr [1; 1] [0%float]; arr [1; 1] [1%float]] [] [].

(** The object after [remove_fantasies] on [self0], which re-warps the target
    under alpha = 1.6, and after a fantasy observation 3 at x = 1 on top. *)
Definition self0_rewarped : WsabiLGP.t binary64 unit :=
  state (model [0%float] [0x1.c9f25c5bfedd8p-1%float])
    (Float64 (N := binary64) 0x1.999999999999ap+0%float)
    (Float64 (N := binary64) 0x1.999999999999ap+0%float)
    [[2%float]] [arr [1; 1] [0%float]] [] [].

Definition self0_fantasised : WsabiLGP.t binary64 unit :=
  state
    (model [0%float; 1%float]
       [0x1.c9f25c5bfedd8p-1%float; 0x1.ac5eb3f7ab2f8p+0%float])
    (Float64 (N := binary64) 0x1.999999999999ap+0%float)
    (Float64 (N := binary64) 0x1.999999999999ap+0%float)
    [[2%float]] [arr [1; 1] [0%float]] [arr [1; 1] [1%float]] [[3%float]].

(** A GPy model holding the points x = 0 and x = 1 with the targets 2 and 3:
    the alpha built on it is a row of the column, an array of shape (1,). *)
Definition gp2 : GP.t binary64 unit :=
  GP.__init__ (GPy.mk_gp 1 tt (arr [2; 1] [0%float; 1%float]) [2%float; 3%float]).

End Binary64Examples.

(** ** The inputs of the worked examples, on the reals *)

Module RealExamples.
Import WsabiLGP.

Definition arr (sh : list nat) (l : list R) : ndarray real :=
  mk_ndarray (N := real) sh l.

Definition float_y (v : R) : py_y (N := real) := YFloat (N := real) v.

(** A GPy model holding the point x = 0 with the target 2, the object built on
    it, and the object after a fantasy observation 1 at x = 1, which lowers
    alpha from 1.6 to 0.8. *)
Definition gp : GP.t real unit :=
  GP.__init__ (GPy.mk_gp 1 tt (arr [1; 1] [0%R]) [2%R]).

Definition self0 : WsabiLGP.t real unit :=
  mk gp 1
    (Float64 (N := real) (8 / 10 * (2 * 2 / 2))%R)
    (Float64 (N := real) (8 / 10 * (2 * 2 / 2))%R)
    [[(2 * 2 / 2)%R]] [arr [1; 1] [0%R]] [] [].

Definition self0_fantasised : WsabiLGP.t real unit :=
  mk (GP.mk (GPy.mk_gp 1 tt (arr [2; 1] [0%R; 1%R])
               [sqrt (2 * (2 * 2 / 2 - 8 / 10 * 1));
                sqrt (2 * (1 - 8 / 10 * 1))]) 1)
    1
    (Row (N := real) (8 / 10 * 1)%R)
    (Float64 (N := real) (8 / 10 * (2 * 2 / 2))%R)
    [[(2 * 2 / 2)%R]] [arr [1; 1] [0%R]] [arr [1; 1] [1%R]] [[1%R]].

(** A model of one training point in two dimensions, a query of the single
    point (0, 0), and what the collaborators return for it. *)
Definition engine : GP.t real unit :=
  GP.__init__ (GPy.mk_gp 2 tt (arr [1; 2] [1%R; 1%R]) [2%R]).

Definition query : ndarray real := arr [2] [0%R; 0%R].

Definition inference : GPy.Inference real unit := {|
  GPy.predict := fun _ _ => (arr [1; 1] [3%R], arr [1; 1] [(1 / 2)%R]);
  GPy.predictive_gradients :=
    fun _ _ => (arr [1; 2; 1] [1%R; 2%R], arr [1; 2] [3%R; 4%R]);
  GPy.K := fun _ _ _ => arr [1; 1] [5%R];
  GPy.woodbury_inv := fun _ => arr [1; 1] [7%R]
|}.

Definition gradients : KernelGradients real unit := {|
  jacobian := fun _ _ _ => arr [1; 1; 2] [1%R; 2%R];
  hessian := fun _ _ _ => arr [1; 1; 2; 2] [1%R; 2%R; 2%R; 3%R];
  diagonal_hessian := fun _ _ => arr [1; 2; 2] [4%R; 5%R; 5%R; 6%R]
|}.


Definition warped : WsabiLGP.t real unit :=
  mk engine 2
    (Float64 (N := real) (8 / 10 * (2 * 2 / 2))%R)
    (Float64 (N := real) (8 / 10 * (2 * 2 / 2))%R)
    [[(2 * 2 / 2)%R]] [arr [1; 2] [1%R; 1%R]] [] [].

(** The object of [self0] once [remove_fantasies] has made its model consistent
    with the history, and a GPy whose mean at any query is the column of the
    targets of the model. *)
Definition self0_rewarped : WsabiLGP.t real unit :=
  mk (GP.mk (GPy.mk_gp 1 tt (arr [1; 1] [0%R])
               [sqrt (2 * (2 * 2 / 2 - 8 / 10 * (2 * 2 / 2)))]) 1)
    1
    (Float64 (N := real) (8 / 10 * (2 * 2 / 2))%R)
    (Float64 (N := real) (8 / 10 * (2 * 2 / 2))%R)
    [[(2 * 2 / 2)%R]] [arr [1; 1] [0%R]] [] [].

Definition interpolation : GPy.Inference real unit := {|
  GPy.predict := fun g _ => (column_array (N := real) (GPy.Y g), arr [1; 1] [0%R]);
  GPy.predictive_gradients :=
    fun _ _ => (arr [1; 1; 1] [0%R], arr [1; 1] [0%R]);
  GPy.K := fun _ _ _ => arr [1; 1] [1%R];
  GPy.woodbury_inv := fun _ => arr [1; 1] [1%R]
|}.

End RealExamples.

(** * Properties *)

(** ** The laws of the two arithmetics *)

Module SF.

Ltac by_compare :=
  repeat match goal with
    | H : context [Pos.compare_cont Eq ?a ?b] |- _ =>
        change (Pos.compare_cont Eq a b) with (Pos.compare a b) in H
    | |- context [Pos.compare_cont Eq ?a ?b] =>
        change (Pos.compare_cont Eq a b) with (Pos.compare a b)
    end;
  repeat match goal with
    | H : context [Z.compare ?a ?b] |- _ => destruct (Z.compare_spec a b)
    | |- context [Z.compare ?a ?b] => destruct (Z.compare_spec a b)
    | H : context [Pos.compare ?a ?b] |- _ => destruct (Pos.compare_spec a b)
    | |- context [Pos.compare ?a ?b] => destruct (Pos.compare_spec a b)
    end;
  cbn in *; try discriminate; try reflexivity; try lia.

Lemma SFltb_irrefl (a : spec_float) : SFltb a a = false.
Proof.
  unfold SFltb.
  destruct a as [s|s| |s m e]; try destruct s; cbn; try reflexivity; by_compare.
Qed.

Lemma SFltb_trans (a b c : spec_float) :
  SFltb a b = true -> SFltb b c = true -> SFltb a c = true.
Proof.
  unfold SFltb.
  destruct a as [sa|sa| |sa ma ea], b as [sb|sb| |sb mb eb], c as [sc|sc| |sc mc ec];
    try destruct sa; try destruct sb; try destruct sc; cbn;
    try discriminate; try reflexivity; intros; by_compare.
Qed.

End SF.

#[export] Instance binary64_order : StrictOrderLaws binary64.
Proof.
  split; cbn; intros.
  - rewrite ltb_spec. apply SF.SFltb_irrefl.
  - rewrite ltb_spec in *. eapply SF.SFltb_trans; eassumption.
Qed.

#[export] Instance real_order : StrictOrderLaws real.
Proof.
  split; cbn; intros.
  - destruct (Rlt_dec a a); [lra|reflexivity].
  - destruct (Rlt_dec a b), (Rlt_dec b c), (Rlt_dec a c);
      try discriminate; try reflexivity; lra.
Qed.

#[export] Instance real_scaling : ScalingLaw real.
Proof.
  split; cbn; intros a b.
  destruct (Rlt_dec (8 / 10 * a) (8 / 10 * b)), (Rlt_dec a b);
    try discriminate; try reflexivity; lra.
Qed.

#[export] Instance real_ring : RingLaws real.
Proof.
  split; cbn; intros; ring.
Qed.

Lemma SFadd_commutes (prec emax : Z) (a b : spec_float) :
  SFadd prec emax a b = SFadd prec emax b a.
Proof.
  destruct a as [sa|sa| |sa ma ea], b as [sb|sb| |sb mb eb];
    try destruct sa; try destruct sb; try reflexivity;
    cbn [SFadd]; rewrite (Z.min_comm eb ea), Z.add_comm; reflexivity.
Qed.

Lemma SFmul_commutes (prec emax : Z) (a b : spec_float) :
  SFmul prec emax a b = SFmul prec emax b a.
Proof.
  destruct a as [sa|sa| |sa ma ea], b as [sb|sb| |sb mb eb];
    try destruct sa; try destruct sb; try reflexivity;
    cbn [SFmul xorb]; rewrite (Pos.mul_comm mb ma), (Z.add_comm eb ea);
    reflexivity.
Qed.

#[export] Instance binary64_commutative : CommutativeLaws binary64.
Proof.
  split; cbn; intros a b; apply Prim2SF_inj.
  - rewrite !add_spec. apply SFadd_commutes.
  - rewrite !mul_spec. apply SFmul_commutes.
Qed.


Lemma real_nle (a b : R) : nle (N := real) a b <-> (a <= b)%R.
Proof.
  unfold nle; cbn.
  destruct (Rlt_dec b a); split; intros; try discriminate; try reflexivity; lra.
Qed.

(** ** Arrays *)

Section ArrayFacts.
Context {N : Number}.

Lemma shape_eqb_eq (sh sh' : list nat) : shape_eqb sh sh' = true <-> sh = sh'.
Proof.
  revert sh'; induction sh as [|d r IH]; destruct sh' as [|d' r']; cbn;
    try (split; [discriminate|congruence]); [tauto|].
  rewrite andb_true_iff, Nat.eqb_eq, IH. split.
  - intros [-> ->]; reflexivity.
  - intros H; injection H; auto.
Qed.

Lemma shape_eqb_refl (sh : list nat) : shape_eqb sh sh = true.
Proof. apply shape_eqb_eq; reflexivity. Qed.

Lemma length_indices (sh : list nat) : length (indices sh) = prod sh.
Proof.
  induction sh as [|d sh IH]; [reflexivity|].
  cbn [indices prod fold_right]. fold (prod sh).
  generalize 0 as start.
  induction d as [|d IHd]; intros start; cbn [seq flat_map]; [reflexivity|].
  rewrite length_app, length_map, IH, IHd. reflexivity.
Qed.

Lemma offset_lt (sh idx : list nat) :
  in_bounds sh idx -> offset sh idx < prod sh.
Proof.
  revert idx; induction sh as [|d sh IH]; intros [|i idx]; cbn [in_bounds];
    try tauto.
  - intros _; cbn; lia.
  - intros [Hi Hidx]. specialize (IH _ Hidx).
    cbn [offset prod fold_right]. fold (prod sh). nia.
Qed.

Lemma nth_blocks {A : Type} (g : nat -> list A) (P r : nat) (d : A) :
  (forall i, length (g i) = P) -> r < P ->
  forall n start i, i < n ->
    nth (i * P + r) (flat_map g (seq start n)) d = nth r (g (start + i)) d.
Proof.
  intros Hlen Hr.
  induction n as [|n IH]; intros start i Hi; [lia|].
  cbn [seq flat_map]. destruct i as [|i].
  - cbn [Nat.mul Nat.add]. rewrite app_nth1 by (rewrite Hlen; exact Hr).
    rewrite Nat.add_0_r. reflexivity.
  - rewrite app_nth2 by (rewrite Hlen; lia).
    rewrite Hlen.
    replace (S i * P + r - P) with (i * P + r) by lia.
    rewrite IH by lia. f_equal. f_equal. lia.
Qed.

Lemma nth_indices (sh idx dflt : list nat) :
  in_bounds sh idx -> nth (offset sh idx) (indices sh) dflt = idx.
Proof.
  revert idx; induction sh as [|d sh IH]; intros [|i idx]; cbn [in_bounds];
    try tauto.
  intros [Hi Hidx].
  cbn [offset indices].
  rewrite (@nth_blocks _ (fun i => map (cons i) (indices sh)) (prod sh));
    try assumption.
  - cbn [Nat.add].
    rewrite (nth_indep _ dflt (i :: dflt))
      by (rewrite length_map, length_indices; apply offset_lt; assumption).
    rewrite map_nth, IH by assumption. reflexivity.
  - intros j. rewrite length_map. apply length_indices.
  - apply offset_lt; assumption.
Qed.

(** The element of a tabulated array at an index of its shape. *)
Lemma get_tabulate (sh : list nat) (f : list nat -> num) (idx : list nat) :
  in_bounds sh idx -> get (tabulate sh f) idx = f idx.
Proof.
  intros Hb. unfold get, tabulate; cbn [shape data].
  rewrite (nth_indep _ n0 (f []))
    by (rewrite length_map, length_indices; apply offset_lt; assumption).
  rewrite map_nth, nth_indices by assumption. reflexivity.
Qed.

Lemma tabulate_well_formed (sh : list nat) (f : list nat -> num) :
  well_formed (tabulate sh f).
Proof.
  unfold well_formed, tabulate; cbn. rewrite length_map. apply length_indices.
Qed.

Lemma nth_map2 (f : num -> num -> num) (l1 l2 : list num) (k : nat) (d : num) :
  k < length l1 -> k < length l2 ->
  nth k (map2 f l1 l2) d = f (nth k l1 d) (nth k l2 d).
Proof.
  revert l2 k; induction l1 as [|v1 l1 IH]; intros [|v2 l2] [|k]; cbn;
    try lia; intros; [reflexivity|]. apply IH; lia.
Qed.

(** The element of an elementwise combination of two well-formed arrays. *)
Lemma get_amap2 (f : num -> num -> num) (a b c : ndarray) (idx : list nat) :
  amap2 f a b = Return c -> well_formed a -> well_formed b ->
  in_bounds (shape a) idx ->
  shape c = shape a /\ get c idx = f (get a idx) (get b idx).
Proof.
  unfold amap2. destruct (shape_eqb (shape a) (shape b)) eqn:E; [|discriminate].
  apply shape_eqb_eq in E. intros [= <-] Ha Hb Hidx. split; [reflexivity|].
  unfold get; cbn [shape data]. rewrite <- E.
  pose proof (offset_lt _ _ Hidx) as Hlt.
  apply nth_map2.
  - rewrite Ha. exact Hlt.
  - rewrite Hb, <- E. exact Hlt.
Qed.

Lemma amap2_well_formed (f : num -> num -> num) (a b c : ndarray) :
  amap2 f a b = Return c -> well_formed a -> well_formed b -> well_formed c.
Proof.
  unfold amap2. destruct (shape_eqb (shape a) (shape b)) eqn:E; [|discriminate].
  apply shape_eqb_eq in E. intros [= <-] Ha Hb.
  unfold well_formed in *; cbn [shape data].
  assert (length (data a) = length (data b)) as Hl by congruence.
  rewrite <- Ha. clear Ha Hb. revert Hl. generalize (data a) (data b).
  induction l as [|v l IH]; intros [|w l']; cbn; try discriminate; auto.
Qed.

End ArrayFacts.

(** ** The validator *)

Section ValidatorFacts.
Context {N : Number}.

Lemma validate_eq (x : ndarray) (y : py_y) :
  _validate_and_transform_for_gpy_update x y
  = if x_points x =? y_points y
    then Return (atleast_2d x, data (as_ndarray y))
    else Raise (PointCountError (x_points x) (y_points y)).
Proof.
  unfold _validate_and_transform_for_gpy_update, x_points, y_points.
  cbn [size_axis0 reshape_column shape data hd].
  destruct (size_axis0 (atleast_2d x) =? size (as_ndarray y)); reflexivity.
Qed.

Lemma atleast_2d_idempotent (x : ndarray) : atleast_2d (atleast_2d x) = atleast_2d x.
Proof.
  unfold atleast_2d. destruct x as [[|d [|d' sh]] xs]; reflexivity.
Qed.

(** A batch that passed the validator passes it again, unchanged, when the GP
    validates it on its own. *)
Lemma validate_again (x : ndarray) (y : py_y) (x' : ndarray) (y' w : list num) :
  _validate_and_transform_for_gpy_update x y = Return (x', y') ->
  length w = length y' ->
  _validate_and_transform_for_gpy_update x' (YArray (column_array w))
  = Return (x', w).
Proof.
  rewrite !validate_eq.
  destruct (x_points x =? y_points y) eqn:E; [|discriminate].
  intros [= <- <-] Hw. apply Nat.eqb_eq in E.
  unfold x_points, y_points in *. rewrite atleast_2d_idempotent.
  unfold size in *. cbn [as_ndarray column_array data] in *.
  rewrite Hw, <- E, Nat.eqb_refl. reflexivity.
Qed.

Lemma concatenate_onto_raises (l : list ndarray) (a : ndarray) (e : exn) :
  concatenate_onto a l = Raise e -> e = ShapeError.
Proof.
  revert a; induction l as [|b l IH]; intros a; cbn; [discriminate|].
  unfold concatenate2.
  destruct (shape a) as [|n sh]; [cbn; congruence|].
  destruct (shape b) as [|m sh']; [cbn; congruence|].
  destruct (shape_eqb sh sh'); cbn; [apply IH|congruence].
Qed.

Lemma concatenate_raises (l : list ndarray) (e : exn) :
  concatenate l = Raise e -> e = ShapeError.
Proof.
  destruct l as [|a l]; cbn; [congruence|].
  destruct (shape a); [congruence|apply concatenate_onto_raises].
Qed.

End ValidatorFacts.

(** ** The methods of WsabiLGP, unfolded *)

Module WsabiFacts.
Import WsabiLGP.
Section WsabiFacts.
Context {N : Number} {kernel : Type}.
Abbreviation t := (WsabiLGP.t N kernel).

Lemma update_eq (x : ndarray) (y : py_y) (self : t) :
  update x y self
  = match _validate_and_transform_for_gpy_update x y with
    | Raise e => (Raise e, self)
    | Return (x', y') =>
        let self1 := with_real x' y' self in
        match py_min (_alpha self :: rows (map (nmul n08) y')) with
        | Raise e => (Raise e, self1)
        | Return (Another new_min) =>
            _update_alpha_and_reprocess_data new_min self1
        | Return First => gp_update x' (_warp self y') self1
        end
    end.
Proof.
  unfold update, mbind, lift, assign, this.
  destruct (_validate_and_transform_for_gpy_update x y) as [[x' y']|e];
    [|reflexivity].
  cbv beta iota.
  change (_alpha (set_unwarped_Y (_unwarped_Y (set_all_X (_all_X self ++ [x']) self) ++ [y'])
                    (set_all_X (_all_X self ++ [x']) self))) with (_alpha self).
  change (_alpha (set_fantasy_Y (_fantasy_Y (set_fantasy_X (_fantasy_X self ++ [x']) self) ++ [y'])
                    (set_fantasy_X (_fantasy_X self ++ [x']) self))) with (_alpha self).
  destruct (py_min (_alpha self :: rows (map (nmul n08) y'))) as [[|o]|e];
    reflexivity.
Qed.

Lemma fantasise_eq (x : ndarray) (y : py_y) (self : t) :
  fantasise x y self
  = match _validate_and_transform_for_gpy_update x y with
    | Raise e => (Raise e, self)
    | Return (x', y') =>
        let self1 := with_fantasy x' y' self in
        match py_min (_alpha self :: rows (map (nmul n08) y')) with
        | Raise e => (Raise e, self1)
        | Return (Another new_min) =>
            _fantasise_alpha_and_reprocess_data new_min self1
        | Return First => gp_update x' (_warp self y') self1
        end
    end.
Proof.
  unfold fantasise, mbind, lift, assign, this.
  destruct (_validate_and_transform_for_gpy_update x y) as [[x' y']|e];
    [|reflexivity].
  cbv beta iota.
  change (_alpha (set_unwarped_Y (_unwarped_Y (set_all_X (_all_X self ++ [x']) self) ++ [y'])
                    (set_all_X (_all_X self ++ [x']) self))) with (_alpha self).
  change (_alpha (set_fantasy_Y (_fantasy_Y (set_fantasy_X (_fantasy_X self ++ [x']) self) ++ [y'])
                    (set_fantasy_X (_fantasy_X self ++ [x']) self))) with (_alpha self).
  destruct (py_min (_alpha self :: rows (map (nmul n08) y'))) as [[|o]|e];
    reflexivity.
Qed.

Lemma update_reprocess_eq (alpha : scalar N) (self : t) :
  _update_alpha_and_reprocess_data alpha self
  = let self2 := set_true_alpha alpha (set_alpha alpha self) in
    match concatenate_columns (map (_warp self2) (_unwarped_Y self)) with
    | Raise e => (Raise e, self2)
    | Return all_warped_Y =>
        match concatenate (_all_X self) with
        | Raise e => (Raise e, self2)
        | Return all_X =>
            (Return tt, set_gp (GP.set_XY (_gp self) all_X all_warped_Y) self2)
        end
    end.
Proof.
  unfold _update_alpha_and_reprocess_data, mbind, lift, assign, this, gp_set_XY.
  cbn. destruct (concatenate_columns _); [|reflexivity].
  destruct (concatenate _); reflexivity.
Qed.

Lemma fantasise_reprocess_eq (alpha : scalar N) (self : t) :
  _fantasise_alpha_and_reprocess_data alpha self
  = let self2 := set_alpha alpha self in
    match concatenate_columns
            (map (_warp self2) (_unwarped_Y self)
             ++ map (_warp self2) (_fantasy_Y self)) with
    | Raise e => (Raise e, self2)
    | Return all_warped_Y =>
        match concatenate (_all_X self ++ _fantasy_X self) with
        | Raise e => (Raise e, self2)
        | Return all_X =>
            (Return tt, set_gp (GP.set_XY (_gp self) all_X all_warped_Y) self2)
        end
    end.
Proof.
  unfold _fantasise_alpha_and_reprocess_data, mbind, lift, assign, this, gp_set_XY.
  cbn. destruct (concatenate_columns _); [|reflexivity].
  destruct (concatenate _); reflexivity.
Qed.

Lemma remove_fantasies_eq (self : t) :
  remove_fantasies self
  = let self2 := set_alpha (_true_alpha self) self in
    match concatenate_columns (map (_warp self2) (_unwarped_Y self)) with
    | Raise e => (Raise e, self2)
    | Return all_warped_Y =>
        match concatenate (_all_X self) with
        | Raise e => (Raise e, self2)
        | Return all_X =>
            (Return tt,
             set_fantasy_Y [] (set_fantasy_X []
               (set_gp (GP.set_XY (_gp self) all_X all_warped_Y) self2)))
        end
    end.
Proof.
  unfold remove_fantasies, mbind, lift, assign, this, gp_set_XY.
  cbn. destruct (concatenate_columns _); [|reflexivity].
  destruct (concatenate _); reflexivity.
Qed.

Lemma gp_update_eq (x : ndarray) (w : list num) (self : t) :
  _validate_and_transform_for_gpy_update x (YArray (column_array w))
  = Return (x, w) ->
  gp_update x w self
  = match concatenate [GP.X (_gp self); x] with
    | Raise e => (Raise e, self)
    | Return X' =>
        (Return tt, set_gp (GP.set_XY (_gp self) X' (GP.Y (_gp self) ++ w)) self)
    end.
Proof.
  intros Hv. unfold gp_update, GP.update. rewrite Hv. cbn [bind].
  destruct (concatenate _); reflexivity.
Qed.

Lemma length_warp (self : t) (y : list num) : length (_warp self y) = length y.
Proof. apply length_map. Qed.

End WsabiFacts.
End WsabiFacts.

(** ** Failures, and what a call leaves untouched *)

Module Failures.
Import WsabiLGP WsabiFacts.
Section Failures.
Context {N : Number} {kernel : Type}.
Abbreviation t := (WsabiLGP.t N kernel).

Lemma py_min_raises (args : list (scalar N)) (e : exn) :
  py_min args = Raise e -> e = TypeError.
Proof.
  destruct args as [|[v|v] [|b l]]; cbn; congruence.
Qed.

Lemma concatenate_columns_raises (l : list (list num)) (e : exn) :
  concatenate_columns l = Raise e -> e = ShapeError.
Proof. destruct l; cbn; congruence. Qed.

Lemma update_reprocess_outcome (alpha : scalar N) (self : t) :
  ~ is_point_count_error (fst (_update_alpha_and_reprocess_data alpha self)).
Proof.
  rewrite update_reprocess_eq. cbv zeta.
  destruct (concatenate_columns _) eqn:E1.
  - destruct (concatenate _) eqn:E2; cbn; intros (p & q & H); [discriminate|].
    apply concatenate_raises in E2. congruence.
  - cbn; intros (p & q & H).
    apply concatenate_columns_raises in E1. congruence.
Qed.

Lemma fantasise_reprocess_outcome (alpha : scalar N) (self : t) :
  ~ is_point_count_error (fst (_fantasise_alpha_and_reprocess_data alpha self)).
Proof.
  rewrite fantasise_reprocess_eq. cbv zeta.
  destruct (concatenate_columns _) eqn:E1.
  - destruct (concatenate _) eqn:E2; cbn; intros (p & q & H); [discriminate|].
    apply concatenate_raises in E2. congruence.
  - cbn; intros (p & q & H).
    apply concatenate_columns_raises in E1. congruence.
Qed.

Lemma gp_update_outcome (x : ndarray) (w : list num) (self : t) :
  _validate_and_transform_for_gpy_update x (YArray (column_array w))
  = Return (x, w) ->
  ~ is_point_count_error (fst (gp_update x w self)).
Proof.
  intros Hv. rewrite (gp_update_eq _ Hv).
  destruct (concatenate _) eqn:E; cbn; intros (p & q & H); [discriminate|].
  apply concatenate_raises in E. congruence.
Qed.

(** Once the validator has accepted a batch, neither method raises the
    point-count error. *)
Lemma accepted_batch_outcome (x : ndarray) (y : py_y) (self : t) :
  x_points x = y_points y ->
  ~ is_point_count_error (fst (update x y self))
  /\ ~ is_point_count_error (fst (fantasise x y self)).
Proof.
  intros Hp. rewrite update_eq, fantasise_eq.
  destruct (_validate_and_transform_for_gpy_update x y) as [[x' y']|e] eqn:Hv.
  - pose proof (validate_again x y (_warp self y') Hv (length_warp self y')) as Hv'.
    cbv zeta.
    destruct (py_min _) as [[|o]|e] eqn:Hm.
    + split; apply gp_update_outcome; exact Hv'.
    + split; [apply update_reprocess_outcome|apply fantasise_reprocess_outcome].
    + apply py_min_raises in Hm; subst e.
      split; cbn; intros (p & q & H); discriminate.
  - rewrite validate_eq in Hv. apply Nat.eqb_eq in Hp. rewrite Hp in Hv.
    discriminate.
Qed.

End Failures.
End Failures.

(** C8.  When the point counts of [x] and [y] disagree, [update] and
    [fantasise] raise the point-count error and leave the whole object as it
    was: the real and fantasy histories, both offsets and the underlying model.
    When the point counts agree, neither raises that error. *)
Theorem point_count_mismatch_is_atomic {N : Number} {kernel : Type}
  (self : WsabiLGP.t N kernel) (x : ndarray) (y : py_y) :
  (x_points x <> y_points y ->
     WsabiLGP.update x y self
     = (Raise (PointCountError (x_points x) (y_points y)), self)
     /\ WsabiLGP.fantasise x y self
        = (Raise (PointCountError (x_points x) (y_points y)), self))
  /\ (x_points x = y_points y ->
      forall a b : nat,
        fst (WsabiLGP.update x y self) <> Raise (PointCountError a b)
        /\ fst (WsabiLGP.fantasise x y self) <> Raise (PointCountError a b)).
Proof.
  split.
  - intros Hne. apply Nat.eqb_neq in Hne.
    rewrite WsabiFacts.update_eq, WsabiFacts.fantasise_eq, validate_eq, Hne.
    split; reflexivity.
  - intros Heq a b.
    destruct (Failures.accepted_batch_outcome x y self Heq) as [Hu Hf].
    split; intros H; [apply Hu|apply Hf]; exists a, b; exact H.
Qed.

(** C9.  [fantasise] never assigns [_true_alpha], whether it returns or raises
    and whether or not it lowers [_alpha] and reprocesses all data; neither
    does [remove_fantasies]. *)
Theorem fantasise_keeps_true_alpha {N : Number} {kernel : Type}
  (self : WsabiLGP.t N kernel) (x : ndarray) (y : py_y) :
  WsabiLGP._true_alpha (snd (WsabiLGP.fantasise x y self))
  = WsabiLGP._true_alpha self
  /\ WsabiLGP._true_alpha (snd (WsabiLGP.remove_fantasies self))
     = WsabiLGP._true_alpha self.
Proof.
  split.
  - rewrite WsabiFacts.fantasise_eq.
    destruct (_validate_and_transform_for_gpy_update x y) as [[x' y']|e];
      [|reflexivity].
    cbv zeta. destruct (WsabiLGP.py_min _) as [[|o]|e]; [| |reflexivity].
    + unfold WsabiLGP.gp_update. destruct (GP.update _ _ _); reflexivity.
    + rewrite WsabiFacts.fantasise_reprocess_eq. cbv zeta.
      destruct (WsabiLGP.concatenate_columns _); [|reflexivity].
      destruct (concatenate _); reflexivity.
  - rewrite WsabiFacts.remove_fantasies_eq. cbv zeta.
    destruct (WsabiLGP.concatenate_columns _); [|reflexivity].
    destruct (concatenate _); reflexivity.
Qed.

(** C10.  The validator reshapes [y] to one column before it compares the point
    counts: whatever the shape of [y], it is accepted as soon as its number of
    elements is the number of points of [x].  So is a row vector of shape
    (1, n) for an [x] of n points, and a Python float for an [x] of one
    point. *)
Theorem validator_accepts_any_shape_of_y {N : Number} :
  (forall (x : ndarray) (y : py_y),
      y_points y = x_points x ->
      _validate_and_transform_for_gpy_update x y
      = Return (atleast_2d x, data (as_ndarray y)))
  /\ (forall (d : nat) (xs ys : list num),
        _validate_and_transform_for_gpy_update
          (mk_ndarray [length ys; d] xs) (YArray (mk_ndarray [1; length ys] ys))
        = Return (mk_ndarray [length ys; d] xs, ys))
  /\ (forall (d : nat) (xs : list num) (v : num),
        _validate_and_transform_for_gpy_update (mk_ndarray [d] xs) (YFloat v)
        = Return (mk_ndarray [1; d] xs, [v])
        /\ _validate_and_transform_for_gpy_update (mk_ndarray [1; d] xs) (YFloat v)
           = Return (mk_ndarray [1; d] xs, [v])).
Proof.
  split; [|split].
  - intros x y H. rewrite validate_eq, <- H, Nat.eqb_refl. reflexivity.
  - intros d xs ys. rewrite validate_eq.
    unfold x_points, y_points, size. cbn. rewrite Nat.eqb_refl. reflexivity.
  - intros d xs v. split; reflexivity.
Qed.

(** ** Python's [min] *)

Module MinFacts.
Import WsabiLGP.
Section MinFacts.
Context {N : Number}.

Lemma candidate_alpha_least (alpha : num) (y : list num) :
  candidate_alpha alpha y = least alpha (map (nmul n08) y).
Proof.
  unfold candidate_alpha, least. revert alpha.
  induction y as [|v y IH]; intros alpha; cbn; [reflexivity|apply IH].
Qed.

(** Once another object has been picked, the first argument is not returned. *)
Lemma min_scan_another (items : list (scalar N)) (cur : num) (o : scalar N) :
  exists o', min_scan cur (Another o) items = Another o'.
Proof.
  revert cur o; induction items as [|item items IH]; intros cur o; cbn.
  - eauto.
  - destruct (nltb (value item) cur); apply IH.
Qed.

(** [min] returns its first argument exactly when no item compares [<] to it. *)
Lemma min_scan_first (items : list (scalar N)) (cur : num) :
  min_scan cur First items = First
  <-> forall item, In item items -> nltb (value item) cur = false.
Proof.
  revert cur; induction items as [|item items IH]; intros cur; cbn.
  - split; [intros _ ? []|reflexivity].
  - destruct (nltb (value item) cur) eqn:E.
    + split.
      * destruct (min_scan_another items (value item) item) as [o' ->].
        discriminate.
      * intros H. specialize (H item (or_introl eq_refl)). congruence.
    + rewrite IH. split.
      * intros H i [<-|Hi]; auto.
      * intros H i Hi. apply H. right; exact Hi.
Qed.

(** The value of the object [min] returns is the running minimum. *)
Lemma min_scan_value (items : list (scalar N)) (first : scalar N)
  (cur : num) (res : min_result) :
  value (picked first res) = cur ->
  value (picked first (min_scan cur res items)) = least cur (map value items).
Proof.
  revert cur res; induction items as [|item items IH]; intros cur res Hres; cbn.
  - exact Hres.
  - destruct (nltb (value item) cur); apply IH; [reflexivity|exact Hres].
Qed.

(** Another object that [min] returns is a row of the batch. *)
Lemma min_scan_row (ys : list num) (cur : num) (res : min_result) (o : scalar N) :
  min_scan cur res (rows ys) = Another o ->
  res = Another o \/ exists v, o = Row v.
Proof.
  revert cur res; induction ys as [|y ys IH]; intros cur res; cbn.
  - intros ->. left; reflexivity.
  - destruct (nltb y cur); intros H; apply IH in H.
    + destruct H as [[= <-]|H]; right; eauto.
    + exact H.
Qed.

Section Order.
Context {L : StrictOrderLaws N}.

Lemma lower_or_same_refl (a : num) : lower_or_same a a.
Proof. left; reflexivity. Qed.

Lemma lower_or_same_trans (a b c : num) :
  lower_or_same a b -> lower_or_same b c -> lower_or_same a c.
Proof.
  intros [->|Hab] [->|Hbc]; [left; reflexivity|right; assumption..|].
  right. eapply nltb_trans; eassumption.
Qed.

Lemma nle_lower (a b c : num) : lower_or_same a b -> nle b c -> nle a c.
Proof.
  unfold nle. intros [->|Hab] Hbc; [exact Hbc|].
  destruct (nltb c a) eqn:E; [|reflexivity].
  rewrite (nltb_trans _ _ _ E Hab) in Hbc. discriminate.
Qed.

Lemma least_lower (items : list num) (cur : num) :
  lower_or_same (least cur items) cur.
Proof.
  revert cur; induction items as [|v items IH]; intros cur; cbn.
  - apply lower_or_same_refl.
  - destruct (nltb v cur) eqn:E.
    + eapply lower_or_same_trans; [apply IH|right; exact E].
    + apply IH.
Qed.

(** The running minimum is not above any item. *)
Lemma least_nle (items : list num) (cur v : num) :
  In v items -> nle (least cur items) v.
Proof.
  revert cur; induction items as [|w items IH]; intros cur; cbn; [intros []|].
  intros [->|Hin]; [|apply IH; exact Hin].
  destruct (nltb v cur) eqn:E.
  - eapply nle_lower; [apply least_lower|]. unfold nle. apply nltb_irrefl.
  - eapply nle_lower; [apply least_lower|]. exact E.
Qed.

(** The running minimum is strictly below the first argument exactly when
    [min] returns another object. *)
Lemma least_below_iff (items : list (scalar N)) (cur : num) :
  nltb (least cur (map value items)) cur = true
  <-> min_scan cur First items <> First.
Proof.
  rewrite min_scan_first. split.
  - intros Hlt Hall.
    assert (least cur (map value items) = cur) as Heq.
    { clear Hlt. induction items as [|item items IH]; cbn; [reflexivity|].
      rewrite (Hall item (or_introl eq_refl)).
      apply IH. intros i Hi. apply Hall. right; exact Hi. }
    rewrite Heq, nltb_irrefl in Hlt. discriminate.
  - intros Hnot.
    destruct (least_lower (map value items) cur) as [Heq|Hlt]; [|exact Hlt].
    exfalso. apply Hnot. intros item Hin.
    pose proof (least_nle (map value items) cur (value item)
                  (in_map value _ _ Hin)) as Hle.
    rewrite Heq in Hle. exact Hle.
Qed.

End Order.
End MinFacts.
End MinFacts.

(** ** Which path [update] takes *)

Module UpdatePath.
Import WsabiLGP WsabiFacts MinFacts.
Section UpdatePath.
Context {N : Number} {L : StrictOrderLaws N} {kernel : Type}.
Abbreviation t := (WsabiLGP.t N kernel).

Lemma map_value_rows (l : list num) : map value (rows (N := N) l) = l.
Proof.
  unfold rows. rewrite map_map. cbn. apply map_id.
Qed.

(** On a batch that is not empty, [min] returns the first argument itself when
    the candidate is not below it, and the row holding the candidate when it
    is. *)
Lemma py_min_batch (alpha : scalar N) (y : list num) :
  y <> [] ->
  py_min (alpha :: rows (map (nmul n08) y))
  = Return (if nltb (candidate_alpha (value alpha) y) (value alpha)
            then Another (Row (candidate_alpha (value alpha) y))
            else First).
Proof.
  intros Hy. rewrite candidate_alpha_least.
  set (items := rows (map (nmul n08) y)).
  assert (py_min (alpha :: items) = Return (min_scan (value alpha) First items))
    as ->.
  { subst items. destruct y as [|v y]; [congruence|]. destruct alpha; reflexivity. }
  f_equal.
  pose proof (least_below_iff items (value alpha)) as Hiff.
  pose proof (@min_scan_value _ items alpha (value alpha) First eq_refl) as Hval.
  subst items. rewrite map_value_rows in *.
  destruct (nltb (least (value alpha) (map (nmul n08) y)) (value alpha)) eqn:E.
  - destruct (min_scan _ _ _) as [|o] eqn:Hs; [exfalso; apply Hiff; auto|].
    apply min_scan_row in Hs. destruct Hs as [[=]|[v ->]].
    cbn in Hval. subst v. reflexivity.
  - destruct (min_scan _ _ _) as [|o] eqn:Hs; [reflexivity|].
    assert (false = true) by (apply Hiff; discriminate).
    discriminate.
Qed.

Lemma candidate_alpha_same (alpha : num) (y : list num) :
  nltb (candidate_alpha alpha y) alpha = false -> candidate_alpha alpha y = alpha.
Proof.
  rewrite candidate_alpha_least. intros E.
  destruct (least_lower (map (nmul n08) y) alpha) as [H|H]; [exact H|congruence].
Qed.

End UpdatePath.
End UpdatePath.

(** X27.  For a call [update(x, y)] on a batch that is not empty, let
    candidateAlpha be the number min(alpha, 0.8 y_1, ..., 0.8 y_n).  When
    candidateAlpha is strictly below alpha, the offsets become candidateAlpha
    and the model is handed the whole real history, re-warped under it.
    Otherwise candidateAlpha is alpha, the offsets stay, and the model is
    handed its own data followed by the new batch warped under alpha. *)
Theorem update_reprocesses_iff_alpha_decreases
  {N : Number} {L : StrictOrderLaws N} {kernel : Type}
  (self : WsabiLGP.t N kernel) (x : ndarray) (y : py_y)
  (x' : ndarray) (y' : list num) :
  _validate_and_transform_for_gpy_update x y = Return (x', y') ->
  y' <> [] ->
  let alpha := WsabiLGP.value (WsabiLGP._alpha self) in
  let candidateAlpha := WsabiLGP.candidate_alpha alpha y' in
  let self1 := WsabiLGP.with_real x' y' self in
  (nltb candidateAlpha alpha = true ->
     let self2 :=
       WsabiLGP.set_true_alpha (WsabiLGP.Row candidateAlpha)
         (WsabiLGP.set_alpha (WsabiLGP.Row candidateAlpha) self1) in
     WsabiLGP.update x y self
     = match concatenate (WsabiLGP._all_X self ++ [x']) with
       | Return all_X =>
           (Return tt,
            WsabiLGP.set_gp
              (GP.set_XY (WsabiLGP._gp self) all_X
                 (concat (map (WsabiLGP._warp self2)
                            (WsabiLGP._unwarped_Y self ++ [y']))))
              self2)
       | Raise e => (Raise e, self2)
       end)
  /\ (nltb candidateAlpha alpha = false ->
      candidateAlpha = alpha
      /\ WsabiLGP.update x y self
         = match concatenate [GP.X (WsabiLGP._gp self); x'] with
           | Return X' =>
               (Return tt,
                WsabiLGP.set_gp
                  (GP.set_XY (WsabiLGP._gp self) X'
                     (GP.Y (WsabiLGP._gp self) ++ WsabiLGP._warp self y'))
                  self1)
           | Raise e => (Raise e, self1)
           end).
Proof.
  intros Hv Hy alpha candidateAlpha self1.
  pose proof (UpdatePath.py_min_batch (WsabiLGP._alpha self) Hy) as Hmin.
  fold alpha in Hmin. fold candidateAlpha in Hmin.
  split; intros E; rewrite E in Hmin.
  - intros self2. rewrite WsabiFacts.update_eq, Hv. cbv zeta. rewrite Hmin.
    rewrite WsabiFacts.update_reprocess_eq. cbv zeta.
    cbn [WsabiLGP._unwarped_Y WsabiLGP._all_X WsabiLGP._gp WsabiLGP.with_real
         WsabiLGP.set_unwarped_Y WsabiLGP.set_all_X].
    assert (forall (f : list num -> list num) (l : list (list num)),
               WsabiLGP.concatenate_columns (N := N) (map f (l ++ [y']))
               = Return (concat (map f (l ++ [y'])))) as Hc.
    { intros f l. rewrite map_app. destruct (map f l); reflexivity. }
    rewrite Hc. reflexivity.
  - split; [apply UpdatePath.candidate_alpha_same; exact E|].
    rewrite WsabiFacts.update_eq, Hv. cbv zeta. rewrite Hmin.
    rewrite WsabiFacts.gp_update_eq
      by (eapply validate_again; [exact Hv|apply WsabiFacts.length_warp]).
    reflexivity.
Qed.

(** ** What the calls do to the offsets and the histories *)

Module Effects.
Import WsabiLGP WsabiFacts MinFacts.
Section Effects.
Context {N : Number} {kernel : Type}.
Abbreviation t := (WsabiLGP.t N kernel).

Lemma py_min_value (alpha : scalar N) (items : list (scalar N)) (res : min_result) :
  py_min (alpha :: items) = Return res ->
  value (picked alpha res) = least (value alpha) (map value items)
  /\ (res = First -> forall item, In item items -> nle (value alpha) (value item)).
Proof.
  destruct items as [|item items].
  - destruct alpha as [v|v]; cbn; [discriminate|]. intros [= <-].
    split; [reflexivity|discriminate].
  - intros H.
    assert (res = min_scan (value alpha) First (item :: items)) as ->
      by (destruct alpha; cbn in H |- *; congruence).
    split; [apply min_scan_value; reflexivity|].
    intros Hf. apply min_scan_first. exact Hf.
Qed.

(** The offsets and histories after [update], whatever its outcome. *)
Lemma update_effect (self : t) (x : ndarray) (y : py_y) (o : outcome unit) (self' : t) :
  update x y self = (o, self') ->
  self' = self
  \/ exists x' y',
      _validate_and_transform_for_gpy_update x y = Return (x', y')
      /\ _unwarped_Y self' = _unwarped_Y self ++ [y']
      /\ _all_X self' = _all_X self ++ [x']
      /\ _fantasy_X self' = _fantasy_X self
      /\ _fantasy_Y self' = _fantasy_Y self
      /\ value (_alpha self')
         = least (value (_alpha self)) (map (nmul n08) y')
      /\ (_alpha self' = _alpha self /\ _true_alpha self' = _true_alpha self
            /\ (forall v, In v y' -> nle (value (_alpha self)) (nmul n08 v))
          \/ _true_alpha self' = _alpha self').
Proof.
  rewrite update_eq.
  destruct (_validate_and_transform_for_gpy_update x y) as [[x' y']|e] eqn:Hv;
    [|intros [= _ <-]; left; reflexivity].
  cbv zeta. intros H. right. exists x', y'. split; [reflexivity|].
  destruct (py_min _) as [res|e] eqn:Hm.
  - destruct (py_min_value _ _ Hm) as [Hval Hfirst].
    unfold rows in Hval. rewrite map_map in Hval. cbn [value] in Hval.
    rewrite map_id in Hval.
    destruct res as [|new_min].
    + assert (forall v, In v y' -> nle (value (_alpha self)) (nmul n08 v)) as Hle.
      { intros v Hin.
        apply (Hfirst eq_refl (Row (nmul n08 v))).
        unfold rows. apply in_map. apply in_map. exact Hin. }
      unfold gp_update in H. cbn [picked] in Hval.
      destruct (GP.update _ _ _); injection H as _ <-; cbn;
        repeat split; auto.
    + rewrite update_reprocess_eq in H. cbv zeta in H. cbn [picked] in Hval.
      destruct (concatenate_columns _); [destruct (concatenate _)|];
        injection H as _ <-; cbn; repeat split; auto.
  - destruct y' as [|v y']; [|destruct (_alpha self); discriminate].
    injection H as _ <-. cbn. repeat split; auto.
    left. repeat split; auto. intros v [].
Qed.

(** The offsets and histories after [fantasise], whatever its outcome. *)
Lemma fantasise_effect (self : t) (x : ndarray) (y : py_y) (o : outcome unit) (self' : t) :
  fantasise x y self = (o, self') ->
  self' = self
  \/ exists x' y',
      _validate_and_transform_for_gpy_update x y = Return (x', y')
      /\ _unwarped_Y self' = _unwarped_Y self
      /\ _all_X self' = _all_X self
      /\ _fantasy_X self' = _fantasy_X self ++ [x']
      /\ _fantasy_Y self' = _fantasy_Y self ++ [y']
      /\ value (_alpha self')
         = least (value (_alpha self)) (map (nmul n08) y')
      /\ _true_alpha self' = _true_alpha self.
Proof.
  rewrite fantasise_eq.
  destruct (_validate_and_transform_for_gpy_update x y) as [[x' y']|e] eqn:Hv;
    [|intros [= _ <-]; left; reflexivity].
  cbv zeta. intros H. right. exists x', y'. split; [reflexivity|].
  destruct (py_min _) as [res|e] eqn:Hm.
  - destruct (py_min_value _ _ Hm) as [Hval _].
    unfold rows in Hval. rewrite map_map in Hval. cbn [value] in Hval.
    rewrite map_id in Hval.
    destruct res as [|new_min]; cbn [picked] in Hval.
    + unfold gp_update in H.
      destruct (GP.update _ _ _); injection H as _ <-; cbn;
        repeat split; auto.
    + rewrite fantasise_reprocess_eq in H. cbv zeta in H.
      destruct (concatenate_columns _); [destruct (concatenate _)|];
        injection H as _ <-; cbn; repeat split; auto.
  - destruct y' as [|v y']; [|destruct (_alpha self); discriminate].
    injection H as _ <-. cbn. repeat split; auto.
Qed.

(** The offsets and histories after [remove_fantasies]. *)
Lemma remove_fantasies_effect (self : t) (o : outcome unit) (self' : t) :
  remove_fantasies self = (o, self') ->
  _alpha self' = _true_alpha self
  /\ _true_alpha self' = _true_alpha self
  /\ _unwarped_Y self' = _unwarped_Y self
  /\ _all_X self' = _all_X self
  /\ (o = Return tt -> _fantasy_X self' = [] /\ _fantasy_Y self' = []).
Proof.
  rewrite remove_fantasies_eq. cbv zeta.
  destruct (concatenate_columns _); [destruct (concatenate _)|];
    intros [= <- <-]; cbn; repeat split; auto; discriminate.
Qed.

End Effects.
End Effects.

(** ** The offsets along a sequence of calls *)

Module Offsets.
Import WsabiLGP WsabiFacts MinFacts Effects.
Section Offsets.
Context {N : Number} {L : StrictOrderLaws N} {kernel : Type}.
Abbreviation t := (WsabiLGP.t N kernel).

Lemma value_times_08 (a : scalar N) : value (times_08 a) = nmul n08 (value a).
Proof. destruct a; reflexivity. Qed.

Lemma init_fields (gp : GP.t N kernel) (self : t) :
  __init__ gp = Return self ->
  _true_alpha self = _alpha self
  /\ _unwarped_Y self = [map (fun v => ndiv (nmul v v) n2) (GP.Y gp)]
  /\ _fantasy_X self = [] /\ _fantasy_Y self = []
  /\ exists m, value (_alpha self) = nmul n08 m
       /\ forall v, In v (GP.Y gp) -> nle m (ndiv (nmul v v) n2).
Proof.
  unfold __init__.
  set (unwarped := map (fun v => ndiv (nmul v v) n2) (GP.Y gp)).
  destruct (py_min (rows unwarped)) as [res|e] eqn:Hm; [|discriminate].
  cbn [bind]. intros [= <-]. cbn.
  repeat split; auto.
  rewrite value_times_08. eexists; split; [reflexivity|].
  assert (forall u, In u unwarped ->
            nle (value (picked (hd (Row n0) (rows unwarped)) res)) u) as Hall.
  { destruct unwarped as [|u0 rest]; [intros u []|].
    cbn [rows map hd] in *. fold (rows rest) in *.
    destruct (py_min_value _ _ Hm) as [Hval _]. rewrite Hval.
    unfold rows. rewrite map_map. cbn [value]. rewrite map_id.
    intros u [<-|Hin]; [|apply least_nle; exact Hin].
    eapply nle_lower; [apply least_lower|]. unfold nle. apply nltb_irrefl. }
  intros v Hv. apply Hall. subst unwarped.
  apply (in_map (fun v => ndiv (nmul v v) n2)). exact Hv.
Qed.

Lemma run_keeps_alpha_below_true (self : t) (c : call N) (o : outcome unit) (self' : t) :
  run c self = (o, self') -> alpha_below_true self -> alpha_below_true self'.
Proof.
  unfold alpha_below_true. destruct c as [x y|x y|]; cbn [run]; intros H Hinv.
  - apply update_effect in H.
    destruct H as [->|(x' & y' & _ & _ & _ & _ & _ & Hval & Hcase)]; [exact Hinv|].
    destruct Hcase as [[-> [-> _]]| ->]; [exact Hinv|apply lower_or_same_refl].
  - apply fantasise_effect in H.
    destruct H as [->|(x' & y' & _ & _ & _ & _ & _ & Hval & Ht)]; [exact Hinv|].
    rewrite Ht.
    rewrite Hval. eapply lower_or_same_trans; [apply least_lower|exact Hinv].
  - apply remove_fantasies_effect in H. destruct H as [-> [-> _]].
    apply lower_or_same_refl.
Qed.

Lemma reachable_alpha_below_true (gp : GP.t N kernel) (self : t) :
  reachable gp self -> alpha_below_true self.
Proof.
  induction 1 as [self Hinit|self c self' _ IH Hrun].
  - apply init_fields in Hinit. destruct Hinit as (Ht & _).
    unfold alpha_below_true. rewrite Ht. apply lower_or_same_refl.
  - eapply run_keeps_alpha_below_true; eassumption.
Qed.

Lemma updates_reachable (gp : GP.t N kernel) (self self' : t) :
  reachable gp self -> updates self self' -> reachable gp self'.
Proof.
  intros Hr. induction 1 as [|self self' x y self'' _ IH Hu]; [exact Hr|].
  eapply reachable_call with (c := Update x y); [apply IH; exact Hr|exact Hu].
Qed.

Lemma in_concat_snoc (l : list (list num)) (c : list num) (v : num) :
  In v (concat (l ++ [c])) -> In v (concat l) \/ In v c.
Proof.
  rewrite concat_app. cbn. rewrite app_nil_r. apply in_app_or.
Qed.

Lemma orderly_keeps_bounded (self : t) (c : call N) (self' : t) :
  run c self = (Return tt, self') -> orderly self c ->
  bounded self -> bounded self'.
Proof.
  intros Hrun Hord (Hreal & Hbelow & Hfant & Heq).
  assert (alpha_below_true self') as Hbelow'
    by (eapply run_keeps_alpha_below_true; eassumption).
  destruct c as [x y|x y|]; cbn [run orderly] in *.
  - specialize (Heq Hord). destruct Hord as [HfX HfY].
    apply update_effect in Hrun.
    destruct Hrun as [->|(x' & y' & _ & HuY & _ & HfX' & HfY' & Hval & Hcase)].
    { repeat split; auto. }
    assert (value (_true_alpha self') = value (_alpha self')) as Ht.
    { destruct Hcase as [(Ha & Ht & _)|Ht]; congruence. }
    repeat split.
    + intros u Hu. rewrite HuY in Hu. apply in_concat_snoc in Hu.
      rewrite Ht, Hval. destruct Hu as [Hu|Hu].
      * eapply nle_lower; [apply least_lower|]. rewrite Heq. apply Hreal; exact Hu.
      * apply least_nle. apply in_map. exact Hu.
    + exact Hbelow'.
    + rewrite HfY', HfY. intros f [].
    + intros _. destruct Hcase as [(Ha & Ht' & _)|Ht']; congruence.
  - apply fantasise_effect in Hrun.
    destruct Hrun as [->|(x' & y' & _ & HuY & _ & HfX' & HfY' & Hval & Ht)].
    { repeat split; auto. }
    repeat split.
    + rewrite HuY, Ht. exact Hreal.
    + exact Hbelow'.
    + intros f Hf. rewrite HfY' in Hf. apply in_concat_snoc in Hf.
      rewrite Hval. destruct Hf as [Hf|Hf].
      * eapply nle_lower; [apply least_lower|]. apply Hfant; exact Hf.
      * apply least_nle. apply in_map. exact Hf.
    + intros [HX _]. rewrite HfX' in HX. destruct (_fantasy_X self); discriminate.
  - apply remove_fantasies_effect in Hrun.
    destruct Hrun as (Ha & Ht & HuY & _ & Hclear).
    destruct (Hclear eq_refl) as [HX HY].
    repeat split.
    + rewrite HuY, Ht. exact Hreal.
    + exact Hbelow'.
    + rewrite HY. intros f [].
    + intros _. congruence.
Qed.

Lemma orderly_calls_bounded (self self' : t) :
  orderly_calls self self' -> bounded self -> bounded self'.
Proof.
  induction 1 as [|self self' c self'' _ IH Hord Hrun]; [auto|].
  intros Hb. eapply orderly_keeps_bounded; eauto.
Qed.

Lemma orderly_calls_construction (self self' : t) :
  orderly_calls self self' ->
  exists batches, _unwarped_Y self' = _unwarped_Y self ++ batches.
Proof.
  induction 1 as [self|self self' c self'' _ [batches IH] _ Hrun].
  - exists []. symmetry. apply app_nil_r.
  - destruct c as [x y|x y|]; cbn [run] in Hrun.
    + apply update_effect in Hrun.
      destruct Hrun as [->|(x' & y' & _ & HuY & _)]; [eauto|].
      exists (batches ++ [y']). rewrite HuY, IH, app_assoc. reflexivity.
    + apply fantasise_effect in Hrun.
      destruct Hrun as [->|(x' & y' & _ & HuY & _)]; [eauto|].
      exists batches. congruence.
    + apply remove_fantasies_effect in Hrun.
      destruct Hrun as (_ & _ & HuY & _). exists batches. congruence.
Qed.

End Offsets.
End Offsets.

(** C7.  From any state reached by calls that returned, every sequence of real
    updates leaves [_alpha] and [_true_alpha] where they were or strictly
    lower; and [remove_fantasies] leaves [_alpha] equal to [_true_alpha], which
    it does not change. *)
Theorem alpha_is_non_increasing
  {N : Number} {L : StrictOrderLaws N} {kernel : Type}
  (gp : GP.t N kernel) (self self' : WsabiLGP.t N kernel) :
  WsabiLGP.reachable gp self ->
  WsabiLGP.updates self self' ->
  (lower_or_same (WsabiLGP.value (WsabiLGP._alpha self'))
                 (WsabiLGP.value (WsabiLGP._alpha self))
   /\ lower_or_same (WsabiLGP.value (WsabiLGP._true_alpha self'))
                    (WsabiLGP.value (WsabiLGP._true_alpha self)))
  /\ (forall (o : outcome unit) (self'' : WsabiLGP.t N kernel),
        WsabiLGP.remove_fantasies self' = (o, self'') ->
        WsabiLGP._alpha self'' = WsabiLGP._true_alpha self''
        /\ WsabiLGP._true_alpha self'' = WsabiLGP._true_alpha self').
Proof.
  intros Hreach Hups. split.
  - induction Hups as [self|self self' x y self'' Hups IH Hu].
    + split; apply MinFacts.lower_or_same_refl.
    + destruct (IH Hreach) as [IHa IHt].
      pose proof (Offsets.reachable_alpha_below_true
                    (Offsets.updates_reachable Hreach Hups)) as Hbelow.
      unfold WsabiLGP.alpha_below_true in Hbelow.
      apply Effects.update_effect in Hu.
      destruct Hu as [->|(x' & y' & _ & _ & _ & _ & _ & Hval & Hcase)];
        [split; assumption|].
      assert (lower_or_same (WsabiLGP.value (WsabiLGP._alpha self''))
                            (WsabiLGP.value (WsabiLGP._alpha self'))) as Hstep
        by (rewrite Hval; apply MinFacts.least_lower).
      split.
      * eapply MinFacts.lower_or_same_trans; eassumption.
      * destruct Hcase as [(_ & Ht & _)|Ht]; rewrite Ht; [exact IHt|].
        eapply MinFacts.lower_or_same_trans; [exact Hstep|].
        eapply MinFacts.lower_or_same_trans; eassumption.
  - intros o self'' Hrm. apply Effects.remove_fantasies_effect in Hrm.
    destruct Hrm as (Ha & Ht & _). split; congruence.
Qed.

(** C3, as the code has it.  In every state reached from the construction by
    orderly calls (no update made over stored fantasy data), alpha is not above
    0.8 (Y^2 / 2) for any target Y the model held at construction, not above
    0.8 y for any observation y an update added, and not above 0.8 f for any
    fantasy observation f that is stored. *)
Theorem alpha_bounds_along_orderly_calls
  {N : Number} {L : StrictOrderLaws N} {S : ScalingLaw N} {kernel : Type}
  (gp : GP.t N kernel) (self : WsabiLGP.t N kernel) :
  WsabiLGP.orderly_reachable gp self ->
  let alpha := WsabiLGP.value (WsabiLGP._alpha self) in
  exists batches : list (list num),
    WsabiLGP._unwarped_Y self
    = map (fun Y => ndiv (nmul Y Y) n2) (GP.Y gp) :: batches
    /\ (forall Y, In Y (GP.Y gp) ->
          nle alpha (nmul n08 (ndiv (nmul Y Y) n2)))
    /\ (forall y, In y (concat batches) -> nle alpha (nmul n08 y))
    /\ (forall f, In f (concat (WsabiLGP._fantasy_Y self)) ->
          nle alpha (nmul n08 f)).
Proof.
  intros (self0 & Hinit & Hcalls) alpha.
  destruct (Offsets.init_fields _ Hinit)
    as (Ht0 & HuY0 & HfX0 & HfY0 & m & Hm & Hleast).
  assert (WsabiLGP.bounded self0) as Hb0.
  { unfold WsabiLGP.bounded, WsabiLGP.alpha_below_true.
    rewrite Ht0, HuY0, HfY0. cbn [concat]. rewrite app_nil_r.
    repeat split.
    - intros u Hu. apply in_map_iff in Hu. destruct Hu as (Y & <- & HY).
      rewrite Hm. unfold nle.
      destruct (nltb (nmul n08 (ndiv (nmul Y Y) n2)) (nmul n08 m)) eqn:E;
        [|reflexivity].
      apply n08_reflects in E. rewrite (Hleast Y HY) in E. discriminate.
    - apply MinFacts.lower_or_same_refl.
    - intros f []. }
  destruct (Offsets.orderly_calls_bounded Hcalls Hb0)
    as (Hreal & Hbelow & Hfant & _).
  destruct (Offsets.orderly_calls_construction Hcalls) as [batches Hbatches].
  rewrite HuY0 in Hbatches. cbn [app] in Hbatches.
  assert (forall u, In u (concat (WsabiLGP._unwarped_Y self)) ->
            nle alpha (nmul n08 u)) as Hall.
  { intros u Hu. eapply MinFacts.nle_lower; [exact Hbelow|]. apply Hreal; exact Hu. }
  exists batches. split; [exact Hbatches|]. rewrite Hbatches in Hall.
  cbn [concat] in Hall. repeat split.
  - intros Y HY. apply Hall. apply in_or_app. left.
    apply (in_map (fun Y => ndiv (nmul Y Y) n2)). exact HY.
  - intros y Hy. apply Hall. apply in_or_app. right. exact Hy.
  - exact Hfant.
Qed.

(** ** Warp consistency *)

Module Consistency.
Import WsabiLGP WsabiFacts.
Section Consistency.
Context {N : Number} {kernel : Type}.
Abbreviation t := (WsabiLGP.t N kernel).

Lemma bind_return {A : Type} (m : outcome A) : (a <- m ;; Return a) = m.
Proof. destruct m; reflexivity. Qed.

Lemma concatenate_pair (a b : ndarray) : concatenate [a; b] = concatenate2 a b.
Proof.
  cbn. rewrite bind_return. unfold concatenate2.
  destruct (shape a); reflexivity.
Qed.

Lemma concatenate_onto_snoc (l : list ndarray) (a b : ndarray) :
  concatenate_onto a (l ++ [b])
  = (acc <- concatenate_onto a l ;; concatenate2 acc b).
Proof.
  revert a; induction l as [|c l IH]; intros a; cbn.
  - apply bind_return.
  - destruct (concatenate2 a c); cbn; [apply IH|reflexivity].
Qed.

(** Concatenating one more array onto a concatenation that succeeded. *)
Lemma concatenate_snoc (l : list ndarray) (a b : ndarray) :
  concatenate l = Return a ->
  concatenate (l ++ [b]) = concatenate [a; b].
Proof.
  rewrite concatenate_pair.
  destruct l as [|c l]; [discriminate|]. cbn.
  destruct (shape c); [discriminate|].
  rewrite concatenate_onto_snoc. intros ->. reflexivity.
Qed.

Lemma concatenate_columns_return (l : list (list num)) (c : list num) :
  concatenate_columns (N := N) l = Return c -> c = concat l.
Proof. destruct l; cbn; congruence. Qed.

Lemma warp_concat (self : t) (l : list (list num)) :
  concat (map (_warp self) l) = _warp self (concat l).
Proof. unfold _warp. symmetry. apply concat_map. Qed.

Lemma warp_snoc (self : t) (l : list (list num)) (y : list num) :
  _warp self (concat (l ++ [y])) = _warp self (concat l) ++ _warp self y.
Proof.
  rewrite concat_app. cbn [concat]. rewrite app_nil_r. apply map_app.
Qed.

(** A call that returns keeps the model consistent with the histories, and
    makes it so when it re-sets the training data: unless it is an update made
    over stored fantasy data. *)
Lemma orderly_call_consistent (self : t) (c : call N) (self' : t) :
  run c self = (Return tt, self') ->
  orderly self c ->
  consistent self \/ c = RemoveFantasies \/ _alpha self' <> _alpha self ->
  consistent self'.
Proof.
  destruct c as [x y|x y|]; cbn [run orderly].
  - rewrite update_eq.
    destruct (_validate_and_transform_for_gpy_update x y) as [[x' y']|e] eqn:Hv;
      [|discriminate].
    cbv zeta. intros Hrun [HfX HfY] Hwhy.
    destruct (py_min _) as [[|new_min]|e]; [| |discriminate].
    + rewrite gp_update_eq in Hrun
        by (eapply validate_again; [exact Hv|apply length_warp]).
      destruct (concatenate [_; _]) as [X'|e] eqn:HX; [|discriminate].
      injection Hrun as <-.
      destruct Hwhy as [[HcX HcY]|[Hc|Hc]];
        [|discriminate|exfalso; apply Hc; reflexivity].
      rewrite HfX in HcX. rewrite HfY in HcY. rewrite app_nil_r in HcX, HcY.
      unfold consistent; cbn. rewrite HfX, HfY, !app_nil_r. split.
      * rewrite (concatenate_snoc _ _ HcX). exact HX.
      * rewrite HcY. symmetry. apply (warp_snoc self).
    + rewrite update_reprocess_eq in Hrun. cbv zeta in Hrun.
      destruct (concatenate_columns _) as [W|e] eqn:HW; [|discriminate].
      destruct (concatenate _) as [X'|e] eqn:HX; [|discriminate].
      injection Hrun as <-. cbn in HW, HX.
      apply concatenate_columns_return in HW.
      unfold consistent; cbn. rewrite HfX, HfY, !app_nil_r. split.
      * exact HX.
      * rewrite HW. apply (warp_concat (set_alpha new_min self)).
  - rewrite fantasise_eq.
    destruct (_validate_and_transform_for_gpy_update x y) as [[x' y']|e] eqn:Hv;
      [|discriminate].
    cbv zeta. intros Hrun _ Hwhy.
    destruct (py_min _) as [[|new_min]|e]; [| |discriminate].
    + rewrite gp_update_eq in Hrun
        by (eapply validate_again; [exact Hv|apply length_warp]).
      destruct (concatenate [_; _]) as [X'|e] eqn:HX; [|discriminate].
      injection Hrun as <-.
      destruct Hwhy as [[HcX HcY]|[Hc|Hc]];
        [|discriminate|exfalso; apply Hc; reflexivity].
      unfold consistent; cbn. split.
      * rewrite app_assoc, (concatenate_snoc _ _ HcX). exact HX.
      * rewrite HcY. symmetry. rewrite app_assoc. apply (warp_snoc self).
    + rewrite fantasise_reprocess_eq in Hrun. cbv zeta in Hrun.
      destruct (concatenate_columns _) as [W|e] eqn:HW; [|discriminate].
      destruct (concatenate _) as [X'|e] eqn:HX; [|discriminate].
      injection Hrun as <-. cbn in HW, HX.
      apply concatenate_columns_return in HW.
      unfold consistent; cbn. split.
      * exact HX.
      * rewrite HW, <- map_app. apply (warp_concat (set_alpha new_min self)).
  - rewrite remove_fantasies_eq. cbv zeta. intros Hrun _ _.
    destruct (concatenate_columns _) as [W|e] eqn:HW; [|discriminate].
    destruct (concatenate _) as [X'|e] eqn:HX; [|discriminate].
    injection Hrun as <-. apply concatenate_columns_return in HW.
    unfold consistent; cbn. rewrite !app_nil_r. split.
    + exact HX.
    + rewrite HW. apply (warp_concat (set_alpha (_true_alpha self) self)).
Qed.

End Consistency.
End Consistency.

(** X28.  A call that returns and is orderly (not an update
    made over stored fantasy data) leaves the training set of the underlying
    model equal to the warp, under the current alpha, of the real history
    followed by the fantasy history, provided the equality held before the
    call, or the call is [remove_fantasies], or the call changed alpha.  Hence
    the equality, once it holds, holds after every sequence of orderly calls. *)
Theorem warp_consistency_along_orderly_calls {N : Number} {kernel : Type} :
  (forall (self : WsabiLGP.t N kernel) (c : WsabiLGP.call N)
          (self' : WsabiLGP.t N kernel),
      WsabiLGP.run c self = (Return tt, self') ->
      WsabiLGP.orderly self c ->
      WsabiLGP.consistent self \/ c = WsabiLGP.RemoveFantasies
        \/ WsabiLGP._alpha self' <> WsabiLGP._alpha self ->
      WsabiLGP.consistent self')
  /\ (forall self self' : WsabiLGP.t N kernel,
        WsabiLGP.orderly_calls self self' ->
        WsabiLGP.consistent self -> WsabiLGP.consistent self').
Proof.
  split; [apply Consistency.orderly_call_consistent|].
  induction 1 as [|self self' c self'' _ IH Hord Hrun]; [auto|].
  intros Hc. eapply Consistency.orderly_call_consistent; eauto.
Qed.

(** ** The hessians of the posterior *)

Module Hessians.
Section Hessians.
Context {N : Number}.

Lemma einsum_ijkl_jm_m__ikl_eq (a b c : ndarray) (ni nj nk nl nm : nat) :
  shape a = [ni; nj; nk; nl] -> shape b = [nj; nm] -> shape c = [nm] ->
  einsum_ijkl_jm_m__ikl a b c
  = Return (tabulate [ni; nk; nl] (fun idx =>
      match idx with
      | [i; k; l] =>
          sum_upto nj (fun j => sum_upto nm (fun m =>
            nmul (nmul (get a [i; j; k; l]) (get b [j; m])) (get c [m])))
      | _ => n0
      end)).
Proof.
  intros Ha Hb Hc. unfold einsum_ijkl_jm_m__ikl.
  rewrite Ha, Hb, Hc, !Nat.eqb_refl. reflexivity.
Qed.

Lemma einsum_iljk_lm_im__ijk_eq (a b c : ndarray) (ni nl nj nk nm : nat) :
  shape a = [ni; nl; nj; nk] -> shape b = [nl; nm] -> shape c = [ni; nm] ->
  einsum_iljk_lm_im__ijk a b c
  = Return (tabulate [ni; nj; nk] (fun idx =>
      match idx with
      | [i; j; k] =>
          sum_upto nl (fun l => sum_upto nm (fun m =>
            nmul (nmul (get a [i; l; j; k]) (get b [l; m])) (get c [i; m])))
      | _ => n0
      end)).
Proof.
  intros Ha Hb Hc. unfold einsum_iljk_lm_im__ijk.
  rewrite Ha, Hb, Hc, !Nat.eqb_refl. reflexivity.
Qed.

Lemma einsum_ilj_lm_imk__ijk_eq (a b c : ndarray) (ni nl nj nk nm : nat) :
  shape a = [ni; nl; nj] -> shape b = [nl; nm] -> shape c = [ni; nm; nk] ->
  einsum_ilj_lm_imk__ijk a b c
  = Return (tabulate [ni; nj; nk] (fun idx =>
      match idx with
      | [i; j; k] =>
          sum_upto nl (fun l => sum_upto nm (fun m =>
            nmul (nmul (get a [i; l; j]) (get b [l; m])) (get c [i; m; k])))
      | _ => n0
      end)).
Proof.
  intros Ha Hb Hc. unfold einsum_ilj_lm_imk__ijk.
  rewrite Ha, Hb, Hc, !Nat.eqb_refl. reflexivity.
Qed.

Lemma amap2_eq (f : num -> num -> num) (a b : ndarray) :
  shape a = shape b ->
  amap2 f a b = Return (mk_ndarray (shape a) (map2 f (data a) (data b))).
Proof.
  intros H. unfold amap2. rewrite <- H, shape_eqb_refl. reflexivity.
Qed.

Lemma in_bounds3 (n d d' i j k : nat) :
  i < n -> j < d -> k < d' -> in_bounds [n; d; d'] [i; j; k].
Proof. cbn; tauto. Qed.

Lemma sum_upto_ext (n : nat) (f g : nat -> num) :
  (forall j, j < n -> f j = g j) -> sum_upto n f = sum_upto n g.
Proof.
  induction n as [|n IH]; intros H; cbn; [reflexivity|].
  rewrite IH, H by auto. reflexivity.
Qed.

Lemma sum_upto_scale {R : RingLaws N} (n : nat) (a : num) (f : nat -> num) :
  sum_upto n (fun j => nmul a (f j)) = nmul a (sum_upto n f).
Proof.
  induction n as [|n IH]; cbn.
  - symmetry. apply nmul_0_r.
  - rewrite IH. symmetry. apply nmul_add_distr_l.
Qed.

(** The targets [Y_D]: the column of the model as an array of one axis. *)
Lemma Y_D_shape (Y : list num) :
  shape (atleast_1d (squeeze (column_array Y))) = [length Y]
  /\ forall m, get (atleast_1d (squeeze (column_array Y))) [m] = nth m Y n0.
Proof.
  assert (forall m, m * 1 + 0 = m) as Hm by (intros; lia).
  unfold column_array, squeeze, atleast_1d, get; cbn [shape data filter].
  change (negb (1 =? 1)) with false. cbv iota.
  destruct (negb (length Y =? 1)) eqn:E; cbn [shape data offset prod fold_right].
  - split; [reflexivity|]. intros m. rewrite Hm. reflexivity.
  - apply negb_false_iff, Nat.eqb_eq in E. rewrite E. split; [reflexivity|].
    intros m. rewrite Hm. reflexivity.
Qed.

End Hessians.
End Hessians.

Module EngineFacts.
Import Hessians.
Section EngineFacts.
Context {N : Number} {kernel : Type}.
Context {gpy : GPy.Inference N kernel} {kg : KernelGradients N kernel}.

Lemma posterior_hessians_entries (self : GP.t N kernel) (x : ndarray) (n Nt d : nat) :
  GP.hessian_inputs self x n Nt d ->
  let H := GP._kernel_hessian self x in
  let J := GP._kernel_jacobian self x in
  let Kinv := GPy.woodbury_inv (GP._gpy_gp self) in
  let Kstar := GPy.K (GP.kern self) x (GP.X self) in
  let D := GP._diagonal_hessian self x in
  exists mean_hessian variance_hessian,
    GP.posterior_hessians self x = Return (mean_hessian, variance_hessian)
    /\ shape mean_hessian = [n; d; d]
    /\ shape variance_hessian = [n; d; d]
    /\ forall i j k, i < n -> j < d -> k < d ->
         get mean_hessian [i; j; k]
         = sum_upto Nt (fun l => sum_upto Nt (fun m =>
             nmul (nmul (get H [i; l; j; k]) (get Kinv [l; m]))
                  (nth m (GP.Y self) n0)))
         /\ get variance_hessian [i; j; k]
            = nsub (get D [i; j; k])
                   (nadd (GP.Q H J Kinv Kstar Nt i j k) (GP.Q H J Kinv Kstar Nt i k j)).
Proof.
  intros [Hx Hd HH HJ HK HKs HD HDwf HY] H J Kinv Kstar D.
  subst H J Kinv Kstar D.
  destruct (Y_D_shape (GP.Y self)) as [HYs HYg]. rewrite HY in HYs.
  unfold GP.posterior_hessians, flexible_array_dimensions. rewrite Hx.
  unfold validate_dimensions. rewrite Hx. cbn [rev app].
  rewrite <- Hd, Nat.eqb_refl. cbn [bind]. cbv zeta.
  assert (atleast_1d (GPy.K (GP.kern self) x (GP.X self))
          = GPy.K (GP.kern self) x (GP.X self)) as ->
    by (unfold atleast_1d; rewrite HKs; reflexivity).
  rewrite (einsum_ijkl_jm_m__ikl_eq _ _ _ HH HK HYs).
  rewrite (einsum_iljk_lm_im__ijk_eq _ _ _ HH HK HKs).
  rewrite (einsum_ilj_lm_imk__ijk_eq _ _ _ HJ HK HJ).
  cbn [bind].
  match goal with
  | |- context [amap2 nadd (tabulate ?sh ?f1) (tabulate ?sh ?f2)] =>
      set (half1 := tabulate sh f1); set (half2 := tabulate sh f2)
  end.
  pose proof (amap2_eq nadd half1 half2 eq_refl) as Ehalf.
  set (half := mk_ndarray _ _) in Ehalf. rewrite Ehalf. cbn [bind].
  assert (well_formed half) as Hhalf
    by (eapply amap2_well_formed; [exact Ehalf|apply tabulate_well_formed..]).
  unfold swapaxes_last2. cbn [shape half half1 tabulate swap_last2 rev app bind].
  match goal with
  | |- context [amap2 nadd half (tabulate ?sh ?f)] => set (swapped := tabulate sh f)
  end.
  pose proof (amap2_eq nadd half swapped eq_refl) as Eddh.
  set (ddh := mk_ndarray _ _) in Eddh. rewrite Eddh. cbn [bind].
  assert (well_formed ddh) as Hddh
    by (eapply amap2_well_formed; [exact Eddh|exact Hhalf|apply tabulate_well_formed]).
  assert (shape (GP._diagonal_hessian self x) = shape ddh) as HDd by (rewrite HD; reflexivity).
  pose proof (amap2_eq nsub _ _ HDd) as Evh.
  set (vh := mk_ndarray _ _) in Evh. rewrite Evh. cbn [bind].
  eexists. exists vh. split; [reflexivity|].
  split; [reflexivity|]. split; [subst vh; cbn [shape]; exact HD|].
  intros i j k Hi Hj Hk.
  pose proof (in_bounds3 Hi Hj Hk) as Hijk.
  pose proof (in_bounds3 Hi Hk Hj) as Hikj.
  split.
  - rewrite get_tabulate by exact Hijk.
    apply sum_upto_ext; intros l _. apply sum_upto_ext; intros m _.
    rewrite HYg. reflexivity.
  - assert (forall a b, a < d -> b < d ->
              get half [i; a; b]
              = GP.Q (GP._kernel_hessian self x) (GP._kernel_jacobian self x)
                  (GPy.woodbury_inv (GP._gpy_gp self))
                  (GPy.K (GP.kern self) x (GP.X self)) Nt i a b) as Hhalf_get.
    { intros a b Ha Hb.
      destruct (@get_amap2 _ _ _ _ _ [i; a; b] Ehalf (tabulate_well_formed _ _)
                  (tabulate_well_formed _ _) (in_bounds3 Hi Ha Hb))
        as [_ ->].
      subst half1 half2.
      rewrite !get_tabulate by (apply in_bounds3; assumption). reflexivity. }
    destruct (@get_amap2 _ _ _ _ _ [i; j; k] Evh HDwf Hddh) as [_ ->];
      [rewrite HD; apply in_bounds3; assumption|].
    f_equal.
    destruct (@get_amap2 _ _ _ _ _ [i; j; k] Eddh Hhalf (tabulate_well_formed _ _))
      as [_ ->]; [apply in_bounds3; assumption|].
    subst swapped. rewrite get_tabulate by (apply in_bounds3; assumption).
    cbn [swap_last2 rev app]. rewrite !Hhalf_get by assumption. reflexivity.
Qed.

End EngineFacts.
End EngineFacts.

(** ** Queries of a single point *)

Section SinglePoint.
Context {N : Number}.

Lemma flexible_eq {A : Type} (squeeze_result : A -> A)
  (func : ndarray -> outcome A) (x : ndarray) :
  flexible_array_dimensions squeeze_result func x
  = (r <- func (as_batch x) ;;
     Return (if single_point x then squeeze_result r else r)).
Proof.
  unfold flexible_array_dimensions, as_batch, single_point.
  destruct (shape x) as [|d [|d' sh]]; try reflexivity;
    destruct (func x); reflexivity.
Qed.

Lemma as_batch_is_batch (x : ndarray) :
  single_point (as_batch x) = false /\ as_batch (as_batch x) = as_batch x.
Proof.
  unfold as_batch, single_point.
  destruct x as [[|d [|d' sh]] xs]; cbn; auto.
Qed.

Lemma get_drop_axis0 (a : ndarray) (sh idx : list nat) :
  shape a = 1 :: sh -> get (drop_axis0 a) idx = get a (0 :: idx).
Proof.
  intros H. unfold get, drop_axis0. cbn [shape data]. rewrite H. reflexivity.
Qed.

End SinglePoint.

(** ** The queries, on a batch and on a single point *)

Module Queries.
Import Hessians EngineFacts.
Section Queries.
Context {N : Number} {kernel : Type}.
Context {gpy : GPy.Inference N kernel} {kg : KernelGradients N kernel}.

Lemma flexible_via_batch {A : Type} (squeeze_result : A -> A)
  (func : ndarray -> outcome A) (x : ndarray) :
  flexible_array_dimensions squeeze_result func x
  = (r <- flexible_array_dimensions squeeze_result func (as_batch x) ;;
     Return (if single_point x then squeeze_result r else r)).
Proof.
  rewrite !flexible_eq. destruct (as_batch_is_batch x) as [-> ->].
  destruct (func (as_batch x)); reflexivity.
Qed.

Lemma validate_dimensions_batch (x : ndarray) (n d : nat) :
  shape x = [n; d] -> validate_dimensions x d = Return tt.
Proof.
  intros H. unfold validate_dimensions. rewrite H. cbn. rewrite Nat.eqb_refl.
  reflexivity.
Qed.

Lemma posterior_mean_and_variance_batch (self : GP.t N kernel) (x : ndarray) (n d : nat) :
  GP.prediction_inputs self x n d ->
  GP.posterior_mean_and_variance self x
  = Return (mk_ndarray [n] (data (fst (GPy.predict (GP._gpy_gp self) x))),
            mk_ndarray [n] (data (snd (GPy.predict (GP._gpy_gp self) x)))).
Proof.
  intros [Hx Hd Hm Hv].
  unfold GP.posterior_mean_and_variance, flexible_array_dimensions. rewrite Hx.
  rewrite <- Hd, (validate_dimensions_batch _ Hx). cbn [bind].
  destruct (GPy.predict (GP._gpy_gp self) x) as [mean variance].
  cbn [fst snd] in *. unfold squeeze_last. rewrite Hm, Hv. reflexivity.
Qed.

Lemma posterior_jacobians_batch (self : GP.t N kernel) (x : ndarray) (n d : nat) :
  shape x = [n; d] -> d = GP.dimensions self ->
  GP.gradient_inputs self x n d ->
  GP.posterior_jacobians self x
  = Return (mk_ndarray [n; d]
              (data (fst (GPy.predictive_gradients (GP._gpy_gp self) x))),
            snd (GPy.predictive_gradients (GP._gpy_gp self) x)).
Proof.
  intros Hx Hd [Hm Hv].
  unfold GP.posterior_jacobians, flexible_array_dimensions. rewrite Hx.
  rewrite <- Hd, (validate_dimensions_batch _ Hx). cbn [bind].
  destruct (GPy.predictive_gradients (GP._gpy_gp self) x) as [mj vj].
  cbn [fst snd] in *. unfold squeeze_last. rewrite Hm. reflexivity.
Qed.

(** The entries of the hessians returned for any query, as the code computes
    them. *)
Lemma posterior_hessians_at_point (self : GP.t N kernel) (x : ndarray) (n Nt d : nat) :
  GP.hessian_inputs self (as_batch x) n Nt d ->
  let H := GP._kernel_hessian self (as_batch x) in
  let J := GP._kernel_jacobian self (as_batch x) in
  let Kinv := GPy.woodbury_inv (GP._gpy_gp self) in
  let Kstar := GPy.K (GP.kern self) (as_batch x) (GP.X self) in
  let D := GP._diagonal_hessian self (as_batch x) in
  exists mean_hessian variance_hessian,
    GP.posterior_hessians self x = Return (mean_hessian, variance_hessian)
    /\ (exists mh vh,
          GP.posterior_hessians self (as_batch x) = Return (mh, vh)
          /\ shape mh = [n; d; d] /\ shape vh = [n; d; d]
          /\ forall i j k, i < n -> j < d -> k < d ->
               at_point x mean_hessian i j k = get mh [i; j; k]
               /\ at_point x variance_hessian i j k = get vh [i; j; k])
    /\ forall i j k, i < n -> j < d -> k < d ->
         at_point x mean_hessian i j k
         = sum_upto Nt (fun l => sum_upto Nt (fun m =>
             nmul (nmul (get H [i; l; j; k]) (get Kinv [l; m]))
                  (nth m (GP.Y self) n0)))
         /\ at_point x variance_hessian i j k
            = nsub (get D [i; j; k])
                   (nadd (GP.Q H J Kinv Kstar Nt i j k) (GP.Q H J Kinv Kstar Nt i k j)).
Proof.
  intros Hin H J Kinv Kstar D.
  destruct (posterior_hessians_entries Hin) as (mh & vh & Hb & Hmh & Hvh & Hent).
  fold H J Kinv Kstar D in Hent.
  unfold GP.posterior_hessians in *. rewrite flexible_via_batch, Hb. cbn [bind].
  assert (forall i j k, i < n -> j < d -> k < d ->
            at_point x (fst (if single_point x then both drop_axis0 (mh, vh)
                             else (mh, vh))) i j k = get mh [i; j; k]
            /\ at_point x (snd (if single_point x then both drop_axis0 (mh, vh)
                                else (mh, vh))) i j k = get vh [i; j; k]) as Hat.
  { intros i j k Hi Hj Hk. unfold at_point.
    destruct (single_point x) eqn:Hs; [|split; reflexivity].
    assert (n = 1) as ->.
    { pose proof (GP.query_shape Hin) as Hxb. unfold as_batch, single_point in *.
      destruct (shape x) as [|d0 [|d1 sh]]; try discriminate.
      cbn in Hxb. congruence. }
    assert (i = 0) as -> by lia.
    cbn [both fst snd].
    rewrite (get_drop_axis0 _ _ Hmh), (get_drop_axis0 _ _ Hvh). split; reflexivity. }
  destruct (if single_point x then both drop_axis0 (mh, vh) else (mh, vh))
    as [mean_hessian variance_hessian] eqn:E.
  cbn [fst snd] in Hat.
  exists mean_hessian, variance_hessian. split; [reflexivity|]. split.
  - exists mh, vh. repeat split; auto; apply Hat; assumption.
  - intros i j k Hi Hj Hk.
    destruct (Hat i j k Hi Hj Hk) as [-> ->]. apply Hent; assumption.
Qed.

End Queries.
End Queries.

(** C5.  For every valid query [x] (a batch of n points, or a single point,
    n = 1), with J and H the jacobian and hessian of the cross-covariance K*
    between the query and the Nt training points, Kinv the inverse of the
    training covariance, Yd the training targets and diagonalHessian the
    hessian of the prior self-covariance, [posterior_hessians] returns
    meanHessian[i,k,l] = sum_j H[i,j,k,l] (Kinv Yd)[j] and
    varianceHessian[i,j,k] = diagonalHessian[i,j,k] - (Q[i,j,k] + Q[i,k,j]),
    with Q[i,j,k] = sum_{l,m} H[i,l,j,k] Kinv[l,m] K*[i,m]
    + sum_{l,m} J[i,l,j] Kinv[l,m] J[i,m,k]. *)
Theorem posterior_hessians_formulas
  {N : Number} {R : RingLaws N} {kernel : Type}
  {gpy : GPy.Inference N kernel} {kg : KernelGradients N kernel}
  (self : GP.t N kernel) (x : ndarray) (n Nt d : nat) :
  GP.hessian_inputs self (as_batch x) n Nt d ->
  let H := GP._kernel_hessian self (as_batch x) in
  let J := GP._kernel_jacobian self (as_batch x) in
  let Kinv := GPy.woodbury_inv (GP._gpy_gp self) in
  let Kstar := GPy.K (GP.kern self) (as_batch x) (GP.X self) in
  let diagonalHessian := GP._diagonal_hessian self (as_batch x) in
  let Yd := fun m => nth m (GP.Y self) n0 in
  let Kinv_Yd := fun j => sum_upto Nt (fun m => nmul (get Kinv [j; m]) (Yd m)) in
  let Q := GP.Q H J Kinv Kstar Nt in
  exists meanHessian varianceHessian,
    GP.posterior_hessians self x = Return (meanHessian, varianceHessian)
    /\ forall i k l, i < n -> k < d -> l < d ->
         at_point x meanHessian i k l
         = sum_upto Nt (fun j => nmul (get H [i; j; k; l]) (Kinv_Yd j))
         /\ at_point x varianceHessian i k l
            = nsub (get diagonalHessian [i; k; l]) (nadd (Q i k l) (Q i l k)).
Proof.
  intros Hin H J Kinv Kstar diagonalHessian Yd Kinv_Yd Q.
  destruct (Queries.posterior_hessians_at_point _ Hin)
    as (mh & vh & Hret & _ & Hent).
  exists mh, vh. split; [exact Hret|].
  intros i k l Hi Hk Hl. destruct (Hent i k l Hi Hk Hl) as [Hm Hv].
  split; [|exact Hv].
  rewrite Hm. apply Hessians.sum_upto_ext. intros j _.
  fold H Kinv. unfold Kinv_Yd.
  rewrite <- Hessians.sum_upto_scale.
  apply Hessians.sum_upto_ext. intros m _. apply nmul_assoc.
Qed.

(** ** Symmetry of the variance hessians *)

Module Symmetry.
Import Hessians EngineFacts Queries.
Section Symmetry.
Context {N : Number} {C : CommutativeLaws N} {kernel : Type}.
Context {gpy : GPy.Inference N kernel} {kg : KernelGradients N kernel}.









End Symmetry.
End Symmetry.


(** ** The warped mean and variance *)

Module WarpedMoments.
Import Queries.
Section WarpedMoments.
Context {N : Number} {kernel : Type} {gpy : GPy.Inference N kernel}.

Lemma map2_map_r (f : num -> num -> num) (g : num -> num) (l1 l2 : list num) :
  map2 f l1 (map g l2) = map2 (fun a b => f a (g b)) l1 l2.
Proof.
  revert l2; induction l1 as [|a l1 IH]; intros [|b l2]; cbn; try reflexivity.
  rewrite IH. reflexivity.
Qed.

(** The warped mean and variance on a batch. *)
Lemma posterior_mean_and_variance_of_batch
  (self : WsabiLGP.t N kernel) (x : ndarray) (n d : nat) :
  GP.prediction_inputs (WsabiLGP._gp self) x n d ->
  let alpha := WsabiLGP.value (WsabiLGP._alpha self) in
  let m := data (fst (GPy.predict (GP._gpy_gp (WsabiLGP._gp self)) x)) in
  let v := data (snd (GPy.predict (GP._gpy_gp (WsabiLGP._gp self)) x)) in
  WsabiLGP.posterior_mean_and_variance self x
  = Return
      (mk_ndarray [n] (map (fun mi => nadd alpha (ndiv (nmul mi mi) n2)) m),
       mk_ndarray [n] (map2 (fun vi mi => nmul vi (nmul mi mi)) v m)).
Proof.
  intros Hpred alpha m v.
  unfold WsabiLGP.posterior_mean_and_variance, flexible_array_dimensions.
  rewrite (GP.batch_shape Hpred).
  rewrite (posterior_mean_and_variance_batch Hpred). cbn [bind].
  unfold amap2, amap. cbn [shape data]. rewrite shape_eqb_refl. cbn [bind].
  f_equal. f_equal.
  - unfold WsabiLGP.add_scalar. cbn [shape data]. rewrite !map_map.
    destruct (WsabiLGP._alpha self); reflexivity.
  - rewrite map2_map_r. reflexivity.
Qed.

End WarpedMoments.
End WarpedMoments.

(** C4.  For every valid query [x] (a batch of n points, or a single point),
    with (m, v) the posterior mean and variance of the underlying engine at
    [x], [WsabiLGP.posterior_mean_and_variance] returns, element by element,
    mean = alpha + m^2 / 2 and variance = v m^2, in arrays of the shape of m
    and v. *)
Theorem warped_mean_and_variance
  {N : Number} {kernel : Type} {gpy : GPy.Inference N kernel}
  (self : WsabiLGP.t N kernel) (x : ndarray) (n d : nat) :
  GP.prediction_inputs (WsabiLGP._gp self) (as_batch x) n d ->
  let alpha := WsabiLGP.value (WsabiLGP._alpha self) in
  exists m v mean variance,
    GP.posterior_mean_and_variance (WsabiLGP._gp self) x = Return (m, v)
    /\ WsabiLGP.posterior_mean_and_variance self x = Return (mean, variance)
    /\ data mean = map (fun mi => nadd alpha (ndiv (nmul mi mi) n2)) (data m)
    /\ data variance
       = map2 (fun vi mi => nmul vi (nmul mi mi)) (data v) (data m)
    /\ shape mean = shape m
    /\ shape variance = shape v.
Proof.
  intros Hpred alpha.
  pose proof (Queries.posterior_mean_and_variance_batch Hpred) as He.
  pose proof (WarpedMoments.posterior_mean_and_variance_of_batch self Hpred) as Hw.
  cbv zeta in Hw. fold alpha in Hw.
  unfold GP.posterior_mean_and_variance in *.
  unfold WsabiLGP.posterior_mean_and_variance in *.
  rewrite (Queries.flexible_via_batch _ _ x), He.
  rewrite (Queries.flexible_via_batch _ _ x), Hw. cbn [bind].
  destruct (single_point x); cbn [both fst snd drop_axis0 shape data tl];
    do 4 eexists; repeat split; reflexivity.
Qed.

(** * Worked examples *)

(** ** On binary64: a model of one training point *)

Module Binary64Runs.
Import Binary64Examples.
Import WsabiLGP.

(** Alpha starts at 0.8 * (2^2 / 2) = 1.6. *)
Example construction :
  exists self0,
    __init__ gp = Return self0
    /\ _alpha self0 = Float64 (N := binary64) 0x1.999999999999ap+0%float
    /\ _unwarped_Y self0 = [[2%float]].
Proof. eexists. split; [vm_compute; reflexivity|]. split; reflexivity. Qed.

Example construction_of_self0 : __init__ gp = Return self0.
Proof. vm_compute. reflexivity. Qed.

Example update_of_self0 :
  update (arr [1; 1] [1%float]) (float_y 1%float) self0 = (Return tt, self1).
Proof. vm_compute. reflexivity. Qed.

(** A mismatch of point counts: one point, two observations. *)
Example update_mismatch :
  update (arr [1; 1] [1%float]) (array_y [2] [1%float; 2%float]) self0
  = (Raise (PointCountError 1 2), self0).
Proof. vm_compute. reflexivity. Qed.

(** An empty batch on an alpha that is a [numpy.float64]: [min] raises after
    the histories have been appended to. *)
Example update_with_no_point :
  exists self', update (arr [0; 1] []) (array_y [0] []) self0
                = (Raise TypeError, self')
                /\ _unwarped_Y self' = [[2%float]; []].
Proof. eexists. split; [vm_compute; reflexivity|reflexivity]. Qed.

(** An empty batch on an alpha that is an array of shape (1,): [min] returns
    its element, another object of the same value, and the whole history is
    re-warped and handed to the model. *)
Example update_with_no_point_resets_the_model :
  exists self self',
    __init__ gp2 = Return self
    /\ _alpha self = Row (N := binary64) 0x1.999999999999ap+0%float
    /\ GP.Y (_gp self) = [2%float; 3%float]
    /\ update (arr [0; 1] []) (array_y [0] []) self = (Return tt, self')
    /\ _alpha self' = Float64 (N := binary64) 0x1.999999999999ap+0%float
    /\ GP.Y (_gp self')
       = [0x1.c9f25c5bfedd8p-1%float; 0x1.3443cb52c2a85p+1%float].
Proof.
  eexists. eexists. split; [vm_compute; reflexivity|].
  split; [reflexivity|]. split; [reflexivity|].
  split; [vm_compute; reflexivity|]. split; reflexivity.
Qed.

End Binary64Runs.

(** C2.  The code re-warps the whole history on a call where candidateAlpha
    equals alpha: an update with a batch of no point.  On the model built on
    the targets 2 and 3, alpha is an array of shape (1,) holding 1.6.  The
    validator accepts the empty batch; min(alpha) is the element of alpha, of
    the same value but another object, so [new_min is not self._alpha] holds
    and [_update_alpha_and_reprocess_data] runs: the targets 2 and 3 of the
    model are replaced by the warps of 2^2 / 2 and 3^2 / 2 under 1.6, where
    appending the warped batch would have kept them. *)
Theorem update_with_no_point_reprocesses_under_the_same_alpha :
  exists self self' x' y',
    WsabiLGP.__init__ Binary64Examples.gp2 = Return self
    /\ _validate_and_transform_for_gpy_update
         (Binary64Examples.arr [0; 1] []) (Binary64Examples.array_y [0] [])
       = Return (x', y')
    /\ WsabiLGP.candidate_alpha (WsabiLGP.value (WsabiLGP._alpha self)) y'
       = WsabiLGP.value (WsabiLGP._alpha self)
    /\ nltb (WsabiLGP.candidate_alpha (WsabiLGP.value (WsabiLGP._alpha self)) y')
         (WsabiLGP.value (WsabiLGP._alpha self)) = false
    /\ WsabiLGP.update (Binary64Examples.arr [0; 1] [])
         (Binary64Examples.array_y [0] []) self = (Return tt, self')
    /\ WsabiLGP.value (WsabiLGP._alpha self')
       = WsabiLGP.value (WsabiLGP._alpha self)
    /\ WsabiLGP.value (WsabiLGP._true_alpha self')
       = WsabiLGP.value (WsabiLGP._true_alpha self)
    /\ GP.Y (WsabiLGP._gp self) ++ WsabiLGP._warp self y'
       = [2%float; 3%float]
    /\ GP.Y (WsabiLGP._gp self')
       = [0x1.c9f25c5bfedd8p-1%float; 0x1.3443cb52c2a85p+1%float]
    /\ GP.Y (WsabiLGP._gp self')
       <> GP.Y (WsabiLGP._gp self) ++ WsabiLGP._warp self y'.
Proof.
  eexists. eexists. eexists. eexists.
  split; [vm_compute; reflexivity|].
  split; [vm_compute; reflexivity|].
  split; [reflexivity|].
  split; [vm_compute; reflexivity|].
  split; [vm_compute; reflexivity|].
  split; [reflexivity|]. split; [reflexivity|].
  split; [reflexivity|]. split; [reflexivity|].
  intros HY.
  apply (f_equal (fun l => match l with
                           | v :: _ => PrimFloat.eqb v 2%float
                           | [] => false
                           end)) in HY.
  vm_compute in HY. discriminate HY.
Qed.

(** C1.  The code breaks warp consistency in the case the claim singles out.
    On the model built on the target 2, after the fantasy observation 3 at
    x = 1, the real update with the observation 1 at x = 2 lowers alpha from
    1.6 to 0.8: [_update_alpha_and_reprocess_data] hands the model the two
    real points only, while the fantasy history still holds the third.  The
    state is reached by calls that all returned, and the training set of the
    model is not the warp of the real history followed by the fantasy
    history. *)
Lemma warp_consistency_fails_after_update_over_fantasies :
  exists self0 self1 self2,
    WsabiLGP.__init__ Binary64Examples.gp = Return self0
    /\ WsabiLGP.fantasise (Binary64Examples.arr [1; 1] [1%float])
         (Binary64Examples.float_y 3%float) self0 = (Return tt, self1)
    /\ WsabiLGP.update (Binary64Examples.arr [1; 1] [2%float])
         (Binary64Examples.float_y 1%float) self1 = (Return tt, self2)
    /\ WsabiLGP.reachable Binary64Examples.gp self2
    /\ WsabiLGP._fantasy_Y self2 = [[3%float]]
    /\ size (GP.X (WsabiLGP._gp self2)) = 2
    /\ ~ WsabiLGP.consistent self2.
Proof.
  eexists. eexists. eexists.
  split; [vm_compute; reflexivity|].
  split; [vm_compute; reflexivity|].
  split; [vm_compute; reflexivity|].
  split.
  - eapply WsabiLGP.reachable_call
      with (c := WsabiLGP.Update (Binary64Examples.arr [1; 1] [2%float])
                   (Binary64Examples.float_y 1%float)).
    + eapply WsabiLGP.reachable_call
        with (c := WsabiLGP.Fantasise (Binary64Examples.arr [1; 1] [1%float])
                     (Binary64Examples.float_y 3%float)).
      * apply WsabiLGP.reachable_init. vm_compute; reflexivity.
      * vm_compute; reflexivity.
    + vm_compute; reflexivity.
  - split; [reflexivity|]. split; [reflexivity|].
    intros [HX _]. vm_compute in HX. discriminate HX.
Qed.

(** At construction already the model keeps the target 2 it was given, while
    the warp of the stored 2^2 / 2 under alpha = 1.6 is sqrt(0.8). *)
Lemma warp_consistency_fails_at_construction :
  exists self0,
    WsabiLGP.__init__ Binary64Examples.gp = Return self0
    /\ GP.Y (WsabiLGP._gp self0) = [2%float]
    /\ WsabiLGP._warp self0 (concat (WsabiLGP._unwarped_Y self0))
       = [0x1.c9f25c5bfedd8p-1%float]
    /\ ~ WsabiLGP.consistent self0.
Proof.
  eexists. split; [vm_compute; reflexivity|].
  split; [reflexivity|]. split; [vm_compute; reflexivity|].
  intros [_ HY].
  apply (f_equal (fun l => match l with
                           | v :: _ => PrimFloat.eqb v 2%float
                           | [] => false
                           end)) in HY.
  vm_compute in HY. discriminate HY.
Qed.

(** C3 fails on the code: the update at x = 1 with the observation y = 1
    lowers alpha to 0.8 y = 0.8, which is above 0.8 (y^2 / 2) = 0.4. *)
Lemma alpha_exceeds_the_half_squared_bound :
  WsabiLGP.reachable Binary64Examples.gp Binary64Examples.self1
  /\ WsabiLGP._unwarped_Y Binary64Examples.self1 = [[2%float]; [1%float]]
  /\ WsabiLGP.value (WsabiLGP._alpha Binary64Examples.self1)
     = 0x1.999999999999ap-1%float
  /\ nmul n08 (ndiv (nmul (Binary64Examples.f64 1) (Binary64Examples.f64 1)) n2)
     = 0x1.999999999999ap-2%float
  /\ ~ nle (N := binary64)
         (WsabiLGP.value (WsabiLGP._alpha Binary64Examples.self1))
         (nmul n08 (ndiv (nmul (Binary64Examples.f64 1) (Binary64Examples.f64 1)) n2)).
Proof.
  split.
  - eapply WsabiLGP.reachable_call
      with (c := WsabiLGP.Update (Binary64Examples.arr [1; 1] [1%float])
                   (Binary64Examples.float_y 1%float)).
    + apply WsabiLGP.reachable_init. exact Binary64Runs.construction_of_self0.
    + exact Binary64Runs.update_of_self0.
  - split; [reflexivity|]. split; [reflexivity|].
    split; [vm_compute; reflexivity|].
    unfold nle. vm_compute. discriminate.
Qed.

(** The slip next to it: an update made over fantasy data can leave
    [_true_alpha] above 0.8 times the new observation, and [remove_fantasies]
    then restores it.  After a fantasy observation 1, the real observation 1.5
    and [remove_fantasies], alpha is 1.6 again, and the warp of 1.5 is not a
    number. *)
Lemma remove_fantasies_restores_a_stale_offset :
  exists self',
    WsabiLGP.run_all
      [WsabiLGP.Fantasise (Binary64Examples.arr [1; 1] [1%float])
         (Binary64Examples.float_y 1%float);
       WsabiLGP.Update (Binary64Examples.arr [1; 1] [2%float])
         (Binary64Examples.float_y 0x1.8p+0%float);
       WsabiLGP.RemoveFantasies]
      Binary64Examples.self0
    = (Return tt, self')
    /\ WsabiLGP._unwarped_Y self' = [[2%float]; [0x1.8p+0%float]]
    /\ WsabiLGP._alpha self'
       = WsabiLGP.Float64 (N := binary64) 0x1.999999999999ap+0%float
    /\ map PrimFloat.is_nan (GP.Y (WsabiLGP._gp self')) = [false; true].
Proof.
  eexists. split; [vm_compute; reflexivity|].
  split; [reflexivity|]. split; [reflexivity|]. vm_compute. reflexivity.
Qed.

(** ** Instances of the theorems *)

Lemma point_count_mismatch_is_atomic_witness :
  WsabiLGP.update (Binary64Examples.arr [1; 1] [1%float])
    (Binary64Examples.array_y [2] [1%float; 2%float]) Binary64Examples.self0
  = (Raise (PointCountError 1 2), Binary64Examples.self0)
  /\ fst (WsabiLGP.update (Binary64Examples.arr [1; 1] [1%float])
            (Binary64Examples.float_y 1%float) Binary64Examples.self0)
     <> Raise (PointCountError 1 1).
Proof.
  split.
  - apply (proj1 (point_count_mismatch_is_atomic Binary64Examples.self0
                    (Binary64Examples.arr [1; 1] [1%float])
                    (Binary64Examples.array_y [2] [1%float; 2%float]))).
    vm_compute. discriminate.
  - apply (proj2 (point_count_mismatch_is_atomic Binary64Examples.self0
                    (Binary64Examples.arr [1; 1] [1%float])
                    (Binary64Examples.float_y 1%float))).
    vm_compute. reflexivity.
Defined.

Lemma validator_accepts_any_shape_of_y_witness :
  _validate_and_transform_for_gpy_update
    (Binary64Examples.arr [2; 1] [0%float; 1%float])
    (Binary64Examples.array_y [1; 2] [3%float; 4%float])
  = Return (Binary64Examples.arr [2; 1] [0%float; 1%float], [3%float; 4%float]).
Proof.
  apply (proj1 (validator_accepts_any_shape_of_y (N := binary64))
           (Binary64Examples.arr [2; 1] [0%float; 1%float])
           (Binary64Examples.array_y [1; 2] [3%float; 4%float])).
  vm_compute. reflexivity.
Defined.

Lemma update_reprocesses_iff_alpha_decreases_witness :
  WsabiLGP.candidate_alpha (N := binary64) 0x1.999999999999ap+0%float [1%float]
  = 0x1.999999999999ap-1%float
  /\ WsabiLGP.update (Binary64Examples.arr [1; 1] [1%float])
       (Binary64Examples.float_y 1%float) Binary64Examples.self0
     = (Return tt, Binary64Examples.self1)
  /\ WsabiLGP.candidate_alpha (N := binary64) 0x1.999999999999ap+0%float [3%float]
     = 0x1.999999999999ap+0%float.
Proof.
  pose proof (@update_reprocesses_iff_alpha_decreases binary64 binary64_order unit
                Binary64Examples.self0
                (Binary64Examples.arr [1; 1] [1%float])
                (Binary64Examples.float_y 1%float)
                (Binary64Examples.arr [1; 1] [1%float]) [1%float]
                eq_refl ltac:(discriminate)) as [Hlow _].
  pose proof (@update_reprocesses_iff_alpha_decreases binary64 binary64_order unit
                Binary64Examples.self0
                (Binary64Examples.arr [1; 1] [0%float])
                (Binary64Examples.float_y 3%float)
                (Binary64Examples.arr [1; 1] [0%float]) [3%float]
                eq_refl ltac:(discriminate)) as [_ Hsame].
  split; [vm_compute; reflexivity|]. split.
  - rewrite (Hlow ltac:(vm_compute; reflexivity)). vm_compute. reflexivity.
  - exact (proj1 (Hsame ltac:(vm_compute; reflexivity))).
Defined.

Lemma alpha_is_non_increasing_witness :
  WsabiLGP.reachable Binary64Examples.gp Binary64Examples.self0
  /\ WsabiLGP.updates Binary64Examples.self0 Binary64Examples.self1
  /\ lower_or_same (N := binary64)
       (WsabiLGP.value (WsabiLGP._alpha Binary64Examples.self1))
       (WsabiLGP.value (WsabiLGP._alpha Binary64Examples.self0))
  /\ lower_or_same (N := binary64)
       (WsabiLGP.value (WsabiLGP._true_alpha Binary64Examples.self1))
       (WsabiLGP.value (WsabiLGP._true_alpha Binary64Examples.self0)).
Proof.
  assert (WsabiLGP.reachable Binary64Examples.gp Binary64Examples.self0) as Hr
    by (apply WsabiLGP.reachable_init; vm_compute; reflexivity).
  assert (WsabiLGP.updates Binary64Examples.self0 Binary64Examples.self1) as Hu.
  { eapply WsabiLGP.updates_more; [apply WsabiLGP.updates_none|].
    exact Binary64Runs.update_of_self0. }
  split; [exact Hr|]. split; [exact Hu|].
  exact (proj1 (alpha_is_non_increasing (L := binary64_order) Hr Hu)).
Defined.

Lemma warp_consistency_along_orderly_calls_witness :
  WsabiLGP.remove_fantasies Binary64Examples.self0
  = (Return tt, Binary64Examples.self0_rewarped)
  /\ WsabiLGP.fantasise (Binary64Examples.arr [1; 1] [1%float])
       (Binary64Examples.float_y 3%float) Binary64Examples.self0_rewarped
     = (Return tt, Binary64Examples.self0_fantasised)
  /\ WsabiLGP.consistent Binary64Examples.self0_rewarped
  /\ WsabiLGP.consistent Binary64Examples.self0_fantasised.
Proof.
  assert (WsabiLGP.remove_fantasies Binary64Examples.self0
          = (Return tt, Binary64Examples.self0_rewarped)) as Hremove
    by (vm_compute; reflexivity).
  assert (WsabiLGP.fantasise (Binary64Examples.arr [1; 1] [1%float])
            (Binary64Examples.float_y 3%float) Binary64Examples.self0_rewarped
          = (Return tt, Binary64Examples.self0_fantasised)) as Hfantasise
    by (vm_compute; reflexivity).
  assert (WsabiLGP.consistent Binary64Examples.self0_rewarped) as Hc.
  { apply (proj1 (@warp_consistency_along_orderly_calls binary64 unit)
             Binary64Examples.self0 (@WsabiLGP.RemoveFantasies binary64)
             Binary64Examples.self0_rewarped Hremove I).
    right. left. reflexivity. }
  split; [exact Hremove|]. split; [exact Hfantasise|]. split; [exact Hc|].
  apply (proj2 (@warp_consistency_along_orderly_calls binary64 unit)
           Binary64Examples.self0_rewarped Binary64Examples.self0_fantasised);
    [|exact Hc].
  eapply WsabiLGP.orderly_more
    with (c := WsabiLGP.Fantasise (Binary64Examples.arr [1; 1] [1%float])
                 (Binary64Examples.float_y 3%float));
    [apply WsabiLGP.orderly_none|exact I|exact Hfantasise].
Defined.

(** ** On the reals: the same model, and collaborators for one query *)

Module RealRuns.
Import RealExamples.
Import WsabiLGP.

Example construction_on_the_reals : __init__ gp = Return self0.
Proof. reflexivity. Qed.

Example fantasise_of_self0 :
  fantasise (arr [1; 1] [1%R]) (float_y 1%R) self0
  = (Return tt, self0_fantasised).
Proof.
  rewrite WsabiFacts.fantasise_eq. cbn.
  destruct (Rlt_dec (8 / 10 * 1) (8 / 10 * (2 * 2 / 2))) as [H|H];
    [reflexivity|exfalso; apply H; lra].
Qed.

Example construction_of_warped : __init__ engine = Return warped.
Proof. reflexivity. Qed.

Lemma hessian_inputs_of_query :
  GP.hessian_inputs (gpy := inference) (kg := gradients)
    engine (as_batch query) 1 1 2.
Proof. constructor; reflexivity. Qed.

Lemma prediction_inputs_of_query :
  GP.prediction_inputs (gpy := inference) engine (as_batch query) 1 2.
Proof. constructor; reflexivity. Qed.

Lemma gradient_inputs_of_query :
  GP.gradient_inputs (gpy := inference) engine (as_batch query) 1 2.
Proof. constructor; reflexivity. Qed.



Lemma kernel_hessian_symmetric :
  symmetric4
    (GP._kernel_hessian (kg := gradients) engine (as_batch query)) 1 1 2.
Proof.
  intros i l j k Hi Hl Hj Hk.
  assert (i = 0) as -> by lia. assert (l = 0) as -> by lia.
  destruct j as [|[|j]], k as [|[|k]]; try lia; reflexivity.
Qed.

End RealRuns.

Lemma alpha_bounds_along_orderly_calls_witness :
  WsabiLGP.orderly_reachable RealExamples.gp RealExamples.self0_fantasised
  /\ (forall f : R,
        In f (concat (WsabiLGP._fantasy_Y RealExamples.self0_fantasised)) ->
        nle (N := real)
          (WsabiLGP.value (WsabiLGP._alpha RealExamples.self0_fantasised))
          (8 / 10 * f)%R)
  /\ nle (N := real)
       (WsabiLGP.value (WsabiLGP._alpha RealExamples.self0_fantasised))
       (8 / 10 * (2 * 2 / 2))%R.
Proof.
  assert (WsabiLGP.orderly_reachable RealExamples.gp RealExamples.self0_fantasised)
    as Hreach.
  { exists RealExamples.self0. split; [reflexivity|].
    eapply WsabiLGP.orderly_more
      with (c := WsabiLGP.Fantasise (RealExamples.arr [1; 1] [1%R])
                   (RealExamples.float_y 1%R));
      [apply WsabiLGP.orderly_none|exact I|exact RealRuns.fantasise_of_self0]. }
  split; [exact Hreach|].
  destruct (@alpha_bounds_along_orderly_calls real real_order real_scaling unit
              RealExamples.gp RealExamples.self0_fantasised Hreach)
    as (batches & _ & Hconstruction & _ & Hfantasy).
  split; [exact Hfantasy|].
  apply (Hconstruction 2%R). left. reflexivity.
Defined.

Lemma warped_mean_and_variance_witness :
  exists m v mean variance,
    GP.posterior_mean_and_variance (gpy := RealExamples.inference)
      RealExamples.engine RealExamples.query = Return (m, v)
    /\ WsabiLGP.posterior_mean_and_variance (gpy := RealExamples.inference)
         RealExamples.warped RealExamples.query = Return (mean, variance)
    /\ data mean
       = map (fun mi => (8 / 10 * (2 * 2 / 2) + mi * mi / 2)%R) (data m)
    /\ data variance = map2 (fun vi mi => (vi * (mi * mi))%R) (data v) (data m)
    /\ shape mean = shape m
    /\ shape variance = shape v.
Proof.
  exact (@warped_mean_and_variance real unit RealExamples.inference
           RealExamples.warped RealExamples.query 1 2
           RealRuns.prediction_inputs_of_query).
Defined.

Lemma posterior_hessians_formulas_witness :
  exists meanHessian varianceHessian,
    GP.posterior_hessians (gpy := RealExamples.inference)
      (kg := RealExamples.gradients) RealExamples.engine RealExamples.query
    = Return (meanHessian, varianceHessian)
    /\ at_point RealExamples.query meanHessian 0 0 1 = (2 * (7 * 2))%R.
Proof.
  destruct (@posterior_hessians_formulas real real_ring unit
              RealExamples.inference RealExamples.gradients
              RealExamples.engine RealExamples.query 1 1 2
              RealRuns.hessian_inputs_of_query)
    as (mh & vh & Hret & Hent).
  exists mh, vh. split; [exact Hret|].
  destruct (Hent 0 0 1) as [Hm _]; try lia.
  rewrite Hm. cbn. unfold get. cbn. ring.
Defined.



(** * Further properties of the code *)

(** ** The validator and [GP.update] *)

Section ValidatorMore.
Context {N : Number}.

Lemma atleast_2d_shape (x : ndarray) :
  exists m d sh, shape (atleast_2d x) = m :: d :: sh.
Proof.
  unfold atleast_2d. destruct x as [[|d [|d' sh]] xs]; cbn; eauto.
Qed.

Lemma atleast_2d_data (x : ndarray) : data (atleast_2d x) = data x.
Proof.
  unfold atleast_2d. destruct x as [[|d [|d' sh]] xs]; reflexivity.
Qed.

Lemma atleast_2d_of_rank_2 (x : ndarray) (m d : nat) (sh : list nat) :
  shape x = m :: d :: sh -> atleast_2d x = x.
Proof.
  unfold atleast_2d. intros ->. reflexivity.
Qed.

Lemma validate_return (x : ndarray) (y : py_y) (x' : ndarray) (y' : list num) :
  _validate_and_transform_for_gpy_update x y = Return (x', y') ->
  x' = atleast_2d x /\ y' = data (as_ndarray y) /\ size_axis0 x' = length y'.
Proof.
  rewrite validate_eq.
  destruct (x_points x =? y_points y) eqn:E; [|discriminate].
  apply Nat.eqb_eq in E. intros [= <- <-]. auto.
Qed.

Lemma concatenate2_shapes (a b : ndarray) (n m : nat) (sh sh' : list nat) :
  shape a = n :: sh -> shape b = m :: sh' ->
  concatenate2 a b
  = if shape_eqb sh sh'
    then Return (mk_ndarray (n + m :: sh) (data a ++ data b))
    else Raise ShapeError.
Proof.
  unfold concatenate2. intros -> ->. reflexivity.
Qed.

End ValidatorMore.

(** X1.  What the validator returns is in the form GPy expects, and is a fixed
    point of the validator: [x] has at least two axes and as many rows as [y]
    has entries, no element of either has changed, and validating the pair
    again returns it as it is. *)
Theorem validator_output_is_a_fixed_point {N : Number}
  (x : ndarray) (y : py_y) (x' : ndarray) (y' : list num) :
  _validate_and_transform_for_gpy_update x y = Return (x', y') ->
  2 <= length (shape x')
  /\ size_axis0 x' = length y'
  /\ data x' = data x
  /\ y' = data (as_ndarray y)
  /\ _validate_and_transform_for_gpy_update x' (YArray (column_array y'))
     = Return (x', y').
Proof.
  intros Hv. destruct (validate_return _ _ Hv) as (Hx & Hy & Hn).
  repeat split.
  - rewrite Hx. destruct (atleast_2d_shape x) as (m & d & sh & ->). cbn. lia.
  - exact Hn.
  - rewrite Hx. apply atleast_2d_data.
  - exact Hy.
  - eapply validate_again; [exact Hv|reflexivity].
Qed.

(** X2.  An [x] of fewer than two axes is one point, whatever its length: it
    is accepted with a [y] of exactly one element, as the row [1, d], and
    refused with any other [y], also with one that has as many elements as
    [x]. *)
Theorem an_x_of_one_axis_is_one_point {N : Number} (x : ndarray) (y : py_y) :
  length (shape x) <= 1 ->
  _validate_and_transform_for_gpy_update x y
  = if y_points y =? 1
    then Return (mk_ndarray [1; hd 1 (shape x)] (data x), data (as_ndarray y))
    else Raise (PointCountError 1 (y_points y)).
Proof.
  intros Hr. rewrite validate_eq. unfold x_points, atleast_2d.
  destruct x as [[|d [|d' sh]] xs]; cbn in Hr |- *; try lia;
    destruct (y_points y) as [|[|p]]; reflexivity.
Qed.

(** X3.  [GP.update] appends: on a model whose inputs have the shape
    [n :: sh], it returns exactly when the point counts agree and the batch,
    as a 2D array, has the trailing shape [sh]; the new inputs are then the old
    rows followed by the rows of the batch, the new targets the old targets
    followed by [y], and the kernel and the dimensionality are kept.  A batch of
    another width is refused by [np.concatenate], not by a check of the
    dimensionality. *)
Theorem gp_update_appends_the_batch {N : Number} {kernel : Type}
  (self : GP.t N kernel) (x : ndarray) (y : py_y) (n : nat) (sh : list nat) :
  shape (GP.X self) = n :: sh ->
  GP.update self x y
  = if x_points x =? y_points y then
      if shape_eqb sh (tl (shape (atleast_2d x))) then
        Return
          (GP.mk
             (GPy.mk_gp (GPy.input_dim (GP._gpy_gp self)) (GP.kern self)
                (mk_ndarray (n + x_points x :: sh) (data (GP.X self) ++ data x))
                (GP.Y self ++ data (as_ndarray y)))
             (GP.dimensions self))
      else Raise ShapeError
    else Raise (PointCountError (x_points x) (y_points y)).
Proof.
  intros HX. unfold GP.update. rewrite validate_eq.
  destruct (x_points x =? y_points y); [|reflexivity].
  cbn [bind]. rewrite Consistency.concatenate_pair.
  destruct (atleast_2d_shape x) as (m & d & sh' & Hx).
  rewrite (concatenate2_shapes _ _ HX Hx).
  unfold x_points, size_axis0. rewrite Hx. cbn [hd tl].
  destruct (shape_eqb sh (d :: sh')); [|reflexivity].
  cbn [bind]. rewrite atleast_2d_data. reflexivity.
Qed.

(** X4.  Two calls of [GP.update] are one call on the concatenated batch: the
    outcome is the same model, or an exception in both cases. *)
Theorem gp_update_in_one_batch_or_two {N : Number} {kernel : Type}
  (self : GP.t N kernel) (x1 x2 : ndarray) (y1 y2 : py_y)
  (x1' x2' x12 : ndarray) (y1' y2' : list num) :
  _validate_and_transform_for_gpy_update x1 y1 = Return (x1', y1') ->
  _validate_and_transform_for_gpy_update x2 y2 = Return (x2', y2') ->
  concatenate [x1'; x2'] = Return x12 ->
  (gp1 <- GP.update self x1 y1 ;; GP.update gp1 x2 y2)
  = GP.update self x12 (YArray (column_array (y1' ++ y2'))).
Proof.
  intros Hv1 Hv2 H12.
  destruct (validate_return _ _ Hv1) as (Hx1 & _ & Hn1).
  destruct (validate_return _ _ Hv2) as (Hx2 & _ & Hn2).
  destruct (atleast_2d_shape x1) as (m1 & d1 & s1 & Hs1). rewrite <- Hx1 in Hs1.
  destruct (atleast_2d_shape x2) as (m2 & d2 & s2 & Hs2). rewrite <- Hx2 in Hs2.
  rewrite Consistency.concatenate_pair, (concatenate2_shapes _ _ Hs1 Hs2) in H12.
  destruct (shape_eqb (d1 :: s1) (d2 :: s2)) eqn:E; [|discriminate].
  apply shape_eqb_eq in E. injection H12 as <-.
  unfold size_axis0 in Hn1, Hn2. rewrite Hs1 in Hn1. rewrite Hs2 in Hn2.
  cbn [hd] in Hn1, Hn2.
  assert (_validate_and_transform_for_gpy_update
            (mk_ndarray (m1 + m2 :: d1 :: s1) (data x1' ++ data x2'))
            (YArray (column_array (y1' ++ y2')))
          = Return (mk_ndarray (m1 + m2 :: d1 :: s1) (data x1' ++ data x2'),
                    y1' ++ y2')) as Hv12.
  { rewrite validate_eq. unfold x_points, y_points, size, size_axis0.
    cbn. rewrite length_app, <- Hn1, <- Hn2, Nat.eqb_refl. reflexivity. }
  unfold GP.update. rewrite Hv1, Hv12. cbn [bind].
  rewrite !Consistency.concatenate_pair.
  destruct (shape (GP.X self)) as [|n sh] eqn:HX.
  { unfold concatenate2. rewrite HX. reflexivity. }
  rewrite (concatenate2_shapes _ _ HX Hs1).
  rewrite (concatenate2_shapes _ (mk_ndarray _ _) HX eq_refl).
  destruct (shape_eqb sh (d1 :: s1)) eqn:Esh; [|reflexivity].
  cbn [bind]. rewrite Hv2. cbn [bind].
  rewrite Consistency.concatenate_pair.
  unfold GP.X, GP.set_XY. cbn [GP._gpy_gp GPy.set_XY GPy.X].
  rewrite (concatenate2_shapes (mk_ndarray _ _) _ eq_refl Hs2).
  rewrite <- E, Esh. cbn [bind data].
  unfold GP.Y, GP.set_XY. cbn.
  rewrite <- !app_assoc, Nat.add_assoc. reflexivity.
Qed.

(** ** What every call keeps *)

Module HistoryFacts.
Import WsabiLGP WsabiFacts History.
Section HistoryFacts.
Context {N : Number} {kernel : Type}.
Abbreviation t := (WsabiLGP.t N kernel).

Lemma gp_update_frame (gp gp' : GP.t N kernel) (x : ndarray) (y : py_y) :
  GP.update gp x y = Return gp' -> gp_frame gp' = gp_frame gp.
Proof.
  unfold GP.update.
  destruct (_validate_and_transform_for_gpy_update x y) as [[x' y']|e];
    [|discriminate].
  cbn [bind]. destruct (concatenate _); [|discriminate].
  cbn [bind]. intros [= <-]. reflexivity.
Qed.

Lemma real_part_eq (self self' : t) :
  _true_alpha self' = _true_alpha self ->
  _unwarped_Y self' = _unwarped_Y self ->
  _all_X self' = _all_X self ->
  dimensions self' = dimensions self ->
  gp_frame (_gp self') = gp_frame (_gp self) ->
  real_part self' = real_part self.
Proof.
  unfold real_part. intros -> -> -> -> ->. reflexivity.
Qed.

Lemma real_part_fields (self self' : t) :
  real_part self' = real_part self ->
  _true_alpha self' = _true_alpha self
  /\ _unwarped_Y self' = _unwarped_Y self
  /\ _all_X self' = _all_X self
  /\ dimensions self' = dimensions self
  /\ gp_frame (_gp self') = gp_frame (_gp self).
Proof.
  unfold real_part. intros H. repeat split; congruence.
Qed.

(** [fantasise] leaves the real part of the object as it is, whatever its
    outcome. *)
Lemma fantasise_real_part (x : ndarray) (y : py_y) (self : t) :
  real_part (snd (fantasise x y self)) = real_part self.
Proof.
  rewrite fantasise_eq.
  destruct (_validate_and_transform_for_gpy_update x y) as [[x' y']|e];
    [|reflexivity].
  cbv zeta. destruct (py_min _) as [[|new_min]|e]; [| |reflexivity].
  - unfold gp_update. cbn [_gp with_fantasy set_fantasy_Y set_fantasy_X].
    destruct (GP.update _ _ _) as [gp'|e] eqn:E; [|reflexivity].
    apply real_part_eq; try reflexivity.
    apply (gp_update_frame _ _ _ E).
  - rewrite fantasise_reprocess_eq. cbv zeta.
    destruct (concatenate_columns _); [|reflexivity].
    destruct (concatenate _); reflexivity.
Qed.

(** [remove_fantasies] too. *)
Lemma remove_fantasies_real_part (self : t) :
  real_part (snd (remove_fantasies self)) = real_part self.
Proof.
  rewrite remove_fantasies_eq. cbv zeta.
  destruct (concatenate_columns _); [|reflexivity].
  destruct (concatenate _); reflexivity.
Qed.

(** The dimensionality and the kernel after any call. *)
Lemma run_frame (c : call N) (self : t) :
  dimensions (snd (run c self)) = dimensions self
  /\ gp_frame (_gp (snd (run c self))) = gp_frame (_gp self).
Proof.
  assert (forall s s' : t, real_part s' = real_part s ->
            dimensions s' = dimensions s /\ gp_frame (_gp s') = gp_frame (_gp s))
    as Hpart.
  { intros s s' H. apply real_part_fields in H. tauto. }
  destruct c as [x y|x y|]; cbn [run].
  - rewrite update_eq.
    destruct (_validate_and_transform_for_gpy_update x y) as [[x' y']|e];
      [|auto].
    cbv zeta. destruct (py_min _) as [[|new_min]|e]; [| |auto].
    + unfold gp_update. cbn [_gp with_real set_unwarped_Y set_all_X].
      destruct (GP.update _ _ _) as [gp'|e] eqn:E; [|auto].
      split; [reflexivity|]. apply (gp_update_frame _ _ _ E).
    + rewrite update_reprocess_eq. cbv zeta.
      destruct (concatenate_columns _); [|auto].
      destruct (concatenate _); auto.
  - apply Hpart, fantasise_real_part.
  - apply Hpart, remove_fantasies_real_part.
Qed.

(** A property every call keeps is kept by every list of calls. *)
Lemma after_keeps (P : t -> Prop) :
  (forall c self, P self -> P (snd (run c self))) ->
  forall calls self, P self -> P (after calls self).
Proof.
  intros Hstep. induction calls as [|c calls IH]; intros self HP; cbn.
  - exact HP.
  - apply IH, Hstep, HP.
Qed.

Lemma starts_with_refl {A : Type} (l : list A) : starts_with l l.
Proof. exists []. symmetry. apply app_nil_r. Qed.

Lemma starts_with_snoc {A : Type} (p l : list A) (a : A) :
  starts_with p l -> starts_with p (l ++ [a]).
Proof.
  intros [rest ->]. exists (rest ++ [a]). symmetry. apply app_assoc.
Qed.

(** The real history after any call: as it was, or one batch longer. *)
Lemma run_real_history (c : call N) (self : t) :
  (_all_X (snd (run c self)) = _all_X self
   /\ _unwarped_Y (snd (run c self)) = _unwarped_Y self)
  \/ exists x' y',
       size_axis0 x' = length y'
       /\ _all_X (snd (run c self)) = _all_X self ++ [x']
       /\ _unwarped_Y (snd (run c self)) = _unwarped_Y self ++ [y'].
Proof.
  destruct c as [x y|x y|]; cbn [run].
  - destruct (update x y self) as [o self'] eqn:E. cbn [snd].
    apply Effects.update_effect in E.
    destruct E as [->|(x' & y' & Hv & HY & HX & _)]; [left; auto|].
    right. exists x', y'. apply validate_return in Hv. tauto.
  - left. pose proof (real_part_fields (fantasise_real_part x y self)). tauto.
  - left. pose proof (real_part_fields (remove_fantasies_real_part self)). tauto.
Qed.

(** The fantasy history after any call: as it was, one batch longer, or
    empty. *)
Lemma run_fantasy_history (c : call N) (self : t) :
  (_fantasy_X (snd (run c self)) = _fantasy_X self
   /\ _fantasy_Y (snd (run c self)) = _fantasy_Y self)
  \/ (exists x' y',
        size_axis0 x' = length y'
        /\ _fantasy_X (snd (run c self)) = _fantasy_X self ++ [x']
        /\ _fantasy_Y (snd (run c self)) = _fantasy_Y self ++ [y'])
  \/ (_fantasy_X (snd (run c self)) = [] /\ _fantasy_Y (snd (run c self)) = []).
Proof.
  destruct c as [x y|x y|]; cbn [run].
  - destruct (update x y self) as [o self'] eqn:E. cbn [snd].
    apply Effects.update_effect in E.
    destruct E as [->|(x' & y' & _ & _ & _ & HX & HY & _)]; left; auto.
  - destruct (fantasise x y self) as [o self'] eqn:E. cbn [snd].
    apply Effects.fantasise_effect in E.
    destruct E as [->|(x' & y' & Hv & _ & _ & HX & HY & _)]; [left; auto|].
    right. left. exists x', y'. apply validate_return in Hv. tauto.
  - rewrite remove_fantasies_eq. cbv zeta.
    destruct (concatenate_columns _); [|left; auto].
    destruct (concatenate _); [right; right|left]; auto.
Qed.

Lemma run_keeps_aligned (c : call N) (self : t) :
  aligned self -> aligned (snd (run c self)).
Proof.
  intros [Hr Hf]. split.
  - destruct (run_real_history c self) as [[-> ->]|(x' & y' & Hn & -> & ->)];
      [exact Hr|].
    apply Forall2_app; [exact Hr|]. constructor; [exact Hn|constructor].
  - destruct (run_fantasy_history c self)
      as [[-> ->]|[(x' & y' & Hn & -> & ->)|[-> ->]]];
      [exact Hf| |constructor].
    apply Forall2_app; [exact Hf|]. constructor; [exact Hn|constructor].
Qed.

(** [remove_fantasies] reads the real part of the object only. *)
Lemma remove_fantasies_reads_the_real_part (self self' : t) (after_it : t) :
  real_part self' = real_part self ->
  remove_fantasies self = (Return tt, after_it) ->
  remove_fantasies self' = (Return tt, after_it).
Proof.
  intros Hpart. rewrite !remove_fantasies_eq. cbv zeta.
  apply real_part_fields in Hpart. destruct Hpart as (Ht & HY & HX & Hd & Hg).
  unfold _warp. cbn [_alpha set_alpha]. rewrite Ht, HY, HX.
  destruct (concatenate_columns _) as [W|e]; [|discriminate].
  destruct (concatenate _) as [X|e]; [|discriminate].
  intros [= <-]. f_equal.
  destruct self as [[[i k X0 Y0] d0] d a ta uY aX fX fY].
  destruct self' as [[[i' k' X0' Y0'] d0'] d' a' ta' uY' aX' fX' fY'].
  unfold gp_frame in Hg. cbn in *. injection Hg as -> -> ->. subst. reflexivity.
Qed.

End HistoryFacts.
End HistoryFacts.

(** X5.  No call changes the kernel or the dimensionality of the warped model
    or of its GP: they are after any calls, returned or raised, what they were
    at the start. *)
Theorem kernel_and_dimensions_never_change {N : Number} {kernel : Type}
  (self : WsabiLGP.t N kernel) (calls : list (WsabiLGP.call N)) :
  WarpedGP.kernel (History.after calls self) = WarpedGP.kernel self
  /\ WsabiLGP.dimensions (History.after calls self) = WsabiLGP.dimensions self
  /\ GP.dimensions (WsabiLGP._gp (History.after calls self))
     = GP.dimensions (WsabiLGP._gp self).
Proof.
  revert self. induction calls as [|c calls IH]; intros self; cbn; [auto|].
  destruct (IH (snd (WsabiLGP.run c self))) as (Hk & Hd & Hg).
  destruct (HistoryFacts.run_frame c self) as [Hd' Hf].
  unfold History.gp_frame in Hf. injection Hf as Hg' Hk' _.
  unfold WarpedGP.kernel in *. repeat split; congruence.
Qed.

(** X6.  The real history only grows: after any calls, returned or raised, the
    batches of points and of observations stored at the start are still the
    first ones stored, in their order. *)
Theorem the_real_history_only_grows {N : Number} {kernel : Type}
  (self : WsabiLGP.t N kernel) (calls : list (WsabiLGP.call N)) :
  History.starts_with (WsabiLGP._all_X self)
    (WsabiLGP._all_X (History.after calls self))
  /\ History.starts_with (WsabiLGP._unwarped_Y self)
       (WsabiLGP._unwarped_Y (History.after calls self)).
Proof.
  apply (HistoryFacts.after_keeps
           (fun s => History.starts_with (WsabiLGP._all_X self) (WsabiLGP._all_X s)
                     /\ History.starts_with (WsabiLGP._unwarped_Y self)
                          (WsabiLGP._unwarped_Y s))).
  - intros c s [HX HY].
    destruct (HistoryFacts.run_real_history c s)
      as [[-> ->]|(x' & y' & _ & -> & ->)]; [auto|].
    split; apply HistoryFacts.starts_with_snoc; assumption.
  - split; apply HistoryFacts.starts_with_refl.
Qed.

(** X7.  The histories stay aligned: on a model that holds as many targets as
    points, the constructed object stores with every batch of points as many
    observations as the batch has points, and so does the object after any
    calls, returned or raised. *)
Theorem histories_stay_aligned {N : Number} {kernel : Type}
  (gp : GP.t N kernel) (self : WsabiLGP.t N kernel)
  (calls : list (WsabiLGP.call N)) :
  size_axis0 (GP.X gp) = length (GP.Y gp) ->
  WsabiLGP.__init__ gp = Return self ->
  History.aligned self /\ History.aligned (History.after calls self).
Proof.
  intros Hn Hinit.
  assert (History.aligned self) as Ha.
  { unfold WsabiLGP.__init__ in Hinit.
    destruct (WsabiLGP.py_min _); [|discriminate].
    cbn [bind] in Hinit. injection Hinit as <-.
    split; cbn; [|constructor].
    constructor; [|constructor]. rewrite length_map. exact Hn. }
  split; [exact Ha|].
  apply (HistoryFacts.after_keeps History.aligned); [|exact Ha].
  intros c s. apply HistoryFacts.run_keeps_aligned.
Qed.

(** X8.  [remove_fantasies] is idempotent: a second call right after the first
    has the outcome of the first and leaves the object the first left. *)
Theorem remove_fantasies_twice_is_once {N : Number} {kernel : Type}
  (self : WsabiLGP.t N kernel) :
  WsabiLGP.remove_fantasies (snd (WsabiLGP.remove_fantasies self))
  = WsabiLGP.remove_fantasies self.
Proof.
  rewrite (WsabiFacts.remove_fantasies_eq self). cbv zeta.
  destruct (WsabiLGP.concatenate_columns _) as [W|e] eqn:EW.
  - destruct (concatenate _) as [X|e] eqn:EX; cbn [snd];
      rewrite WsabiFacts.remove_fantasies_eq; cbv zeta;
      unfold WsabiLGP._warp in *; cbn in *; rewrite EW, EX; reflexivity.
  - cbn [snd]. rewrite WsabiFacts.remove_fantasies_eq; cbv zeta.
    unfold WsabiLGP._warp in *; cbn in *. rewrite EW. reflexivity.
Qed.

(** X9.  Fantasies are undone: if [remove_fantasies] returns on an object, it
    returns after any calls of [fantasise] on it, returned or raised, and
    leaves the very object it would have left without them. *)
Theorem remove_fantasies_undoes_the_fantasies {N : Number} {kernel : Type}
  (self restored : WsabiLGP.t N kernel) (batches : list (ndarray * py_y)) :
  WsabiLGP.remove_fantasies self = (Return tt, restored) ->
  WsabiLGP.remove_fantasies
    (History.after (History.fantasies batches) self)
  = (Return tt, restored).
Proof.
  intros Hrm.
  eapply HistoryFacts.remove_fantasies_reads_the_real_part; [|exact Hrm].
  clear Hrm restored. revert self.
  induction batches as [|[x y] batches IH]; intros self; cbn; [reflexivity|].
  rewrite IH. apply HistoryFacts.fantasise_real_part.
Qed.

(** ** A batch that numpy refuses *)

Module Refused.
Import WsabiLGP WsabiFacts History.
Section Refused.
Context {N : Number} {kernel : Type}.
Abbreviation t := (WsabiLGP.t N kernel).

Lemma concatenate_onto_app (l r : list ndarray) (a : ndarray) :
  concatenate_onto a (l ++ r)
  = (acc <- concatenate_onto a l ;; concatenate_onto acc r).
Proof.
  revert a; induction l as [|c l IH]; intros a; cbn; [reflexivity|].
  destruct (concatenate2 a c); cbn; [apply IH|reflexivity].
Qed.

(** A list of arrays that does not concatenate does not with more arrays
    after it. *)
Lemma concatenate_app_raises (a : ndarray) (l r : list ndarray) (e : exn) :
  concatenate (a :: l) = Raise e ->
  concatenate ((a :: l) ++ r) = Raise ShapeError.
Proof.
  cbn. destruct (shape a); [reflexivity|].
  rewrite concatenate_onto_app. intros H.
  rewrite H. cbn. apply concatenate_onto_raises in H. congruence.
Qed.

Lemma py_min_returns (alpha : scalar N) (v : num) (ys : list num) :
  py_min (alpha :: rows (v :: ys))
  = Return (min_scan (value alpha) First (rows (v :: ys))).
Proof. destruct alpha; reflexivity. Qed.

(** [remove_fantasies] raises numpy's error when the stored points do not
    concatenate. *)
Lemma remove_fantasies_raises (self : t) (e : exn) :
  concatenate (_all_X self) = Raise e ->
  fst (remove_fantasies self) = Raise ShapeError.
Proof.
  intros H. rewrite remove_fantasies_eq. cbv zeta. rewrite H.
  destruct (concatenate_columns _) eqn:E; cbn.
  - apply concatenate_raises in H. congruence.
  - apply Failures.concatenate_columns_raises in E. congruence.
Qed.

Lemma after_real_history (calls : list (call N)) (self : t) :
  starts_with (_all_X self) (_all_X (after calls self))
  /\ starts_with (_unwarped_Y self) (_unwarped_Y (after calls self)).
Proof.
  apply (HistoryFacts.after_keeps
           (fun s => starts_with (_all_X self) (_all_X s)
                     /\ starts_with (_unwarped_Y self) (_unwarped_Y s))).
  - intros c s [HX HY].
    destruct (HistoryFacts.run_real_history c s)
      as [[-> ->]|(x' & y' & _ & -> & ->)]; [auto|].
    split; apply HistoryFacts.starts_with_snoc; assumption.
  - split; apply HistoryFacts.starts_with_refl.
Qed.

End Refused.
End Refused.

(** X10.  A batch that numpy refuses stays in the history.  When the points of
    [x] have another trailing shape than the points stored, [update] raises
    numpy's error after it has appended the batch to the real history; from
    then on the stored points do not concatenate, and [remove_fantasies] raises
    that error after any further calls. *)
Theorem a_refused_batch_stays_in_the_history {N : Number} {kernel : Type}
  (self : WsabiLGP.t N kernel) (x : ndarray) (y : py_y)
  (x' all_X : ndarray) (y' : list num) (n n' m : nat) (sh sh' : list nat) :
  _validate_and_transform_for_gpy_update x y = Return (x', y') ->
  y' <> [] ->
  concatenate (WsabiLGP._all_X self) = Return all_X ->
  shape all_X = n :: sh ->
  shape (GP.X (WsabiLGP._gp self)) = n' :: sh ->
  shape x' = m :: sh' ->
  sh' <> sh ->
  exists self',
    WsabiLGP.update x y self = (Raise ShapeError, self')
    /\ WsabiLGP._all_X self' = WsabiLGP._all_X self ++ [x']
    /\ WsabiLGP._unwarped_Y self' = WsabiLGP._unwarped_Y self ++ [y']
    /\ forall calls,
         fst (WsabiLGP.remove_fantasies (History.after calls self'))
         = Raise ShapeError.
Proof.
  intros Hv Hy Hall Hshape HX Hx Hne.
  assert (shape_eqb sh sh' = false) as Hsh.
  { destruct (shape_eqb sh sh') eqn:E; [|reflexivity].
    apply shape_eqb_eq in E. congruence. }
  assert (concatenate (WsabiLGP._all_X self ++ [x']) = Raise ShapeError) as Hbad.
  { rewrite (Consistency.concatenate_snoc _ _ Hall), Consistency.concatenate_pair.
    rewrite (concatenate2_shapes _ _ Hshape Hx), Hsh. reflexivity. }
  assert (forall self' : WsabiLGP.t N kernel,
            WsabiLGP._all_X self' = WsabiLGP._all_X self ++ [x'] ->
            forall calls,
              fst (WsabiLGP.remove_fantasies (History.after calls self'))
              = Raise ShapeError) as Hlater.
  { intros self' HX' calls.
    destruct (Refused.after_real_history calls self') as [[rest Hrest] _].
    apply Refused.remove_fantasies_raises with (e := ShapeError).
    rewrite Hrest, HX'.
    destruct (WsabiLGP._all_X self) as [|a l]; [discriminate|].
    apply Refused.concatenate_app_raises with (e := ShapeError).
    exact Hbad. }
  rewrite WsabiFacts.update_eq, Hv. cbv zeta.
  destruct y' as [|v ys]; [congruence|].
  change (map (nmul n08) (v :: ys)) with (nmul n08 v :: map (nmul n08) ys).
  rewrite Refused.py_min_returns.
  destruct (WsabiLGP.min_scan _ _ _) as [|new_min].
  - rewrite WsabiFacts.gp_update_eq
      by (eapply validate_again; [exact Hv|apply WsabiFacts.length_warp]).
    cbn [WsabiLGP._gp WsabiLGP.with_real WsabiLGP.set_unwarped_Y
         WsabiLGP.set_all_X].
    rewrite Consistency.concatenate_pair, (concatenate2_shapes _ _ HX Hx), Hsh.
    eexists. split; [reflexivity|]. split; [reflexivity|].
    split; [reflexivity|]. apply Hlater. reflexivity.
  - rewrite WsabiFacts.update_reprocess_eq. cbv zeta.
    cbn [WsabiLGP._unwarped_Y WsabiLGP._all_X WsabiLGP.with_real
         WsabiLGP.set_unwarped_Y WsabiLGP.set_all_X].
    rewrite Hbad.
    destruct (WsabiLGP.concatenate_columns _) eqn:E.
    + eexists. split; [reflexivity|]. split; [reflexivity|].
      split; [reflexivity|]. apply Hlater. reflexivity.
    + rewrite map_app in E. destruct (map _ (WsabiLGP._unwarped_Y self));
        discriminate.
Qed.

(** ** The construction *)

Module Construction.
Import WsabiLGP History MinFacts.
Section Construction.
Context {N : Number} {kernel : Type}.

(** [min] over the rows of a column of more than one row returns a row, which
    holds the least element. *)
Lemma py_min_rows (u w : num) (rest : list num) :
  exists res,
    py_min (rows (u :: w :: rest)) = Return res
    /\ picked (Row u) res = Row (least u (w :: rest)).
Proof.
  cbn [rows map py_min]. eexists. split; [reflexivity|]. cbn [value].
  pose proof (@min_scan_value N (Row w :: map Row rest) (Row u) u First eq_refl)
    as Hval.
  change (map value (Row w :: map Row rest))
    with (map value (rows (w :: rest))) in Hval.
  rewrite UpdatePath.map_value_rows in Hval.
  destruct (min_scan u First (Row w :: map Row rest)) as [|o] eqn:Hs.
  - cbn [picked value] in *. congruence.
  - apply (min_scan_row (w :: rest)) in Hs.
    destruct Hs as [[=]|[v ->]]. cbn [picked value] in *. congruence.
Qed.

End Construction.
End Construction.

(** X11.  The construction.  An argument that is neither a [GP] nor a GPy model
    is refused with the [ValueError] of [WarpedGP.__init__]; a GPy model builds
    what its wrapper builds.  A model without targets is refused with the
    [TypeError] of [min].  Otherwise the object holds the model as it is, both
    offsets equal to 0.8 times the least of Y^2 / 2 (a [numpy.float64] for a
    model of one target, an array of shape (1,) for more), the history
    [[Y^2 / 2]] and [[X]], and no fantasy. *)
Theorem construction_needs_a_target_and_sets_alpha {N : Number} {kernel : Type} :
  WarpedGP.new (@WarpedGP.IsNeither N kernel) = @WarpedGP.ArgumentError N kernel
  /\ (forall gpy_gp : GPy.gp N kernel,
        WarpedGP.new (WarpedGP.IsGPy gpy_gp)
        = WarpedGP.new (WarpedGP.IsGP (GP.__init__ gpy_gp)))
  /\ (forall gp : GP.t N kernel,
        GP.Y gp = [] ->
        WarpedGP.new (WarpedGP.IsGP gp) = @WarpedGP.Failed N kernel TypeError)
  /\ (forall (gp : GP.t N kernel) (v : num) (Y' : list num),
        GP.Y gp = v :: Y' ->
        let least :=
          nmul n08
            (WsabiLGP.least (History.half_square v) (map History.half_square Y')) in
        let alpha :=
          match Y' with
          | [] => WsabiLGP.Float64 least
          | _ => WsabiLGP.Row least
          end in
        WarpedGP.new (WarpedGP.IsGP gp)
        = WarpedGP.Built
            (WsabiLGP.mk gp (GP.dimensions gp) alpha alpha
               [map History.half_square (v :: Y')] [GP.X gp] [] [])).
Proof.
  split; [reflexivity|]. split; [reflexivity|]. split.
  - intros gp HY. unfold WarpedGP.new, WarpedGP.__init__, WsabiLGP.__init__.
    rewrite HY. reflexivity.
  - intros gp v Y' HY least alpha.
    unfold WarpedGP.new, WarpedGP.__init__, WsabiLGP.__init__. rewrite HY.
    change (map (fun v0 : num => ndiv (nmul v0 v0) n2) (v :: Y'))
      with (History.half_square v :: map History.half_square Y').
    destruct Y' as [|w Y']; [reflexivity|].
    cbn [map] in *.
    destruct (Construction.py_min_rows (History.half_square v)
                (History.half_square w) (map History.half_square Y'))
      as (res & Hres & Hpick).
    rewrite Hres. cbn [bind WsabiLGP.rows map hd].
    rewrite Hpick. reflexivity.
Qed.

(** ** The two paths of [fantasise], and a batch of no point *)

(** X12.  For a call [fantasise(x, y)] on a batch that is not empty, let
    candidateAlpha be the number min(alpha, 0.8 y_1, ..., 0.8 y_n).  When
    candidateAlpha is strictly below alpha, alpha becomes candidateAlpha, the
    true alpha stays, and the model is handed the real history followed by the
    fantasy history, the new batch included, re-warped under candidateAlpha.
    Otherwise candidateAlpha is alpha, which stays, and the model is handed its
    own data followed by the new batch warped under alpha. *)
Theorem fantasise_reprocesses_iff_alpha_decreases
  {N : Number} {L : StrictOrderLaws N} {kernel : Type}
  (self : WsabiLGP.t N kernel) (x : ndarray) (y : py_y)
  (x' : ndarray) (y' : list num) :
  _validate_and_transform_for_gpy_update x y = Return (x', y') ->
  y' <> [] ->
  let alpha := WsabiLGP.value (WsabiLGP._alpha self) in
  let candidateAlpha := WsabiLGP.candidate_alpha alpha y' in
  let self1 := WsabiLGP.with_fantasy x' y' self in
  (nltb candidateAlpha alpha = true ->
     let self2 := WsabiLGP.set_alpha (WsabiLGP.Row candidateAlpha) self1 in
     WsabiLGP.fantasise x y self
     = match concatenate
               (WsabiLGP._all_X self ++ WsabiLGP._fantasy_X self ++ [x']) with
       | Return all_X =>
           (Return tt,
            WsabiLGP.set_gp
              (GP.set_XY (WsabiLGP._gp self) all_X
                 (concat (map (WsabiLGP._warp self2)
                            (WsabiLGP._unwarped_Y self
                             ++ WsabiLGP._fantasy_Y self ++ [y']))))
              self2)
       | Raise e => (Raise e, self2)
       end)
  /\ (nltb candidateAlpha alpha = false ->
      candidateAlpha = alpha
      /\ WsabiLGP.fantasise x y self
         = match concatenate [GP.X (WsabiLGP._gp self); x'] with
           | Return X' =>
               (Return tt,
                WsabiLGP.set_gp
                  (GP.set_XY (WsabiLGP._gp self) X'
                     (GP.Y (WsabiLGP._gp self) ++ WsabiLGP._warp self y'))
                  self1)
           | Raise e => (Raise e, self1)
           end).
Proof.
  intros Hv Hy alpha candidateAlpha self1.
  pose proof (UpdatePath.py_min_batch (WsabiLGP._alpha self) Hy) as Hmin.
  fold alpha in Hmin. fold candidateAlpha in Hmin.
  split; intros E; rewrite E in Hmin.
  - intros self2. rewrite WsabiFacts.fantasise_eq, Hv. cbv zeta. rewrite Hmin.
    rewrite WsabiFacts.fantasise_reprocess_eq. cbv zeta.
    cbn [WsabiLGP._unwarped_Y WsabiLGP._all_X WsabiLGP._gp WsabiLGP.with_fantasy
         WsabiLGP._fantasy_X WsabiLGP._fantasy_Y
         WsabiLGP.set_fantasy_Y WsabiLGP.set_fantasy_X].
    assert (forall (f : list num -> list num) (l l' : list (list num)),
               WsabiLGP.concatenate_columns (N := N)
                 (map f l ++ map f (l' ++ [y']))
               = Return (concat (map f (l ++ l' ++ [y'])))) as Hc.
    { intros f l l'. rewrite <- map_app.
      destruct (map f (l ++ l' ++ [y'])) eqn:El; [|reflexivity].
      apply map_eq_nil in El. destruct l, l'; discriminate. }
    rewrite Hc. reflexivity.
  - split; [apply UpdatePath.candidate_alpha_same; exact E|].
    rewrite WsabiFacts.fantasise_eq, Hv. cbv zeta. rewrite Hmin.
    rewrite WsabiFacts.gp_update_eq
      by (eapply validate_again; [exact Hv|apply WsabiFacts.length_warp]).
    reflexivity.
Qed.


(** ** The warp and its inverse, on the reals *)

Module RealWarp.
Import WsabiLGP History.
Section RealWarp.
Context {kernel : Type}.
Abbreviation t := (WsabiLGP.t real kernel).

Lemma lower_or_same_le (a b : R) : lower_or_same (N := real) a b -> (a <= b)%R.
Proof.
  intros [->|H]; [lra|]. cbn in H. destruct (Rlt_dec a b); [lra|discriminate].
Qed.

(** The construction establishes the bounds that orderly calls keep. *)
Lemma init_bounded (gp : GP.t real kernel) (self : t) :
  __init__ gp = Return self -> bounded self.
Proof.
  intros Hinit.
  destruct (Offsets.init_fields _ Hinit)
    as (Ht0 & HuY0 & HfX0 & HfY0 & m & Hm & Hleast).
  unfold bounded, alpha_below_true, no_fantasies.
  rewrite Ht0, HuY0, HfY0. cbn [concat]. rewrite app_nil_r.
  repeat split.
  - intros u Hu. apply in_map_iff in Hu. destruct Hu as (Y & <- & HY).
    rewrite Hm. apply real_nle. specialize (Hleast Y HY).
    apply real_nle in Hleast. cbn in *. lra.
  - apply MinFacts.lower_or_same_refl.
  - intros f [].
Qed.

(** Alpha is not above 0.8 times any stored observation, real or fantasy. *)
Lemma orderly_reachable_below (gp : GP.t real kernel) (self : t) (u : R) :
  orderly_reachable gp self ->
  In u (concat (_unwarped_Y self ++ _fantasy_Y self)) ->
  (value (_alpha self) <= 8 / 10 * u)%R.
Proof.
  intros (self0 & Hinit & Hcalls) Hu.
  destruct (Offsets.orderly_calls_bounded Hcalls (init_bounded _ Hinit))
    as (Hreal & Hbelow & Hfant & _).
  rewrite concat_app in Hu. apply in_app_or in Hu. destruct Hu as [Hu|Hu].
  - apply lower_or_same_le in Hbelow.
    specialize (Hreal u Hu). apply real_nle in Hreal. cbn in Hreal. lra.
  - specialize (Hfant u Hu). apply real_nle in Hfant. exact Hfant.
Qed.

(** Half the square of the warp, plus alpha. *)
Lemma unwarp_warp (self : t) (ys : list R) :
  (forall u, In u ys -> (value (_alpha self) <= u)%R) ->
  map (fun w => nadd (value (_alpha self)) (ndiv (nmul w w) n2)) (_warp self ys)
  = ys.
Proof.
  intros Hall. unfold _warp. rewrite map_map. cbn.
  rewrite <- (map_id ys) at 2. apply map_ext_in. intros u Hu.
  specialize (Hall u Hu). rewrite sqrt_sqrt by lra. lra.
Qed.


End RealWarp.
End RealWarp.

(** X14.  On the reals, along orderly calls, every stored observation that is
    not negative has a warp: alpha is not above it, so the square root is
    taken of a number that is not negative, and half the square of its warp
    plus alpha is the observation again. *)
Theorem nonnegative_observations_have_a_warp {kernel : Type}
  (gp : GP.t real kernel) (self : WsabiLGP.t real kernel) (u : R) :
  WsabiLGP.orderly_reachable gp self ->
  In u (concat (WsabiLGP._unwarped_Y self ++ WsabiLGP._fantasy_Y self)) ->
  (0 <= u)%R ->
  (WsabiLGP.value (WsabiLGP._alpha self) <= u)%R
  /\ map (fun w => (WsabiLGP.value (WsabiLGP._alpha self) + w * w / 2)%R)
       (WsabiLGP._warp self [u])
     = [u].
Proof.
  intros Hreach Hu Hpos.
  pose proof (RealWarp.orderly_reachable_below _ Hreach Hu) as Hle.
  assert (WsabiLGP.value (WsabiLGP._alpha self) <= u)%R as Hau by lra.
  split; [exact Hau|].
  apply (RealWarp.unwarp_warp self [u]). intros v [<-|[]]. exact Hau.
Qed.

(** X15.  On the reals, where the engine reproduces its targets, the warped
    model reproduces the observations: when the model is consistent with the
    histories, alpha is not above any stored observation, and GPy's mean at
    the query is the column of targets of the model, the warped posterior mean
    is the column of the stored observations. *)
Theorem the_warped_mean_reproduces_the_observations
  {kernel : Type} {gpy : GPy.Inference real kernel}
  (self : WsabiLGP.t real kernel) (x : ndarray) (n d : nat) :
  GP.prediction_inputs (WsabiLGP._gp self) (as_batch x) n d ->
  WsabiLGP.consistent self ->
  (forall u,
     In u (concat (WsabiLGP._unwarped_Y self ++ WsabiLGP._fantasy_Y self)) ->
     (WsabiLGP.value (WsabiLGP._alpha self) <= u)%R) ->
  data (fst (GPy.predict (GP._gpy_gp (WsabiLGP._gp self)) (as_batch x)))
  = GP.Y (WsabiLGP._gp self) ->
  exists mean variance,
    WsabiLGP.posterior_mean_and_variance self x = Return (mean, variance)
    /\ data mean
       = concat (WsabiLGP._unwarped_Y self ++ WsabiLGP._fantasy_Y self).
Proof.
  intros Hpred [_ HY] Hall Hmean.
  pose proof (WarpedMoments.posterior_mean_and_variance_of_batch self Hpred) as Hw.
  cbv zeta in Hw. rewrite Hmean, HY in Hw.
  rewrite (RealWarp.unwarp_warp self _ Hall) in Hw.
  unfold WsabiLGP.posterior_mean_and_variance in *.
  rewrite (Queries.flexible_via_batch _ _ x), Hw. cbn [bind].
  destruct (single_point x); cbn [both fst snd drop_axis0 shape data tl];
    do 2 eexists; split; reflexivity.
Qed.


(** ** A clean object, and what [remove_fantasies] restores *)

Module Restore.
Import WsabiLGP WsabiFacts History.
Section Restore.
Context {N : Number} {kernel : Type}.
Abbreviation t := (WsabiLGP.t N kernel).

(** On an object without fantasies, whose alpha is the true alpha and whose
    model is consistent with the history, which is not empty,
    [remove_fantasies] changes nothing. *)
Lemma remove_fantasies_clean (self : t) :
  clean self -> remove_fantasies self = (Return tt, self).
Proof.
  intros (Hne & [HfX HfY] & Ha & [HX HY]).
  rewrite HfX, HfY, !app_nil_r in *.
  rewrite remove_fantasies_eq. cbv zeta. rewrite HX.
  assert (_warp (set_alpha (_true_alpha self) self) = _warp self) as ->
    by (unfold _warp; cbn; rewrite Ha; reflexivity).
  destruct (_unwarped_Y self) as [|b bs] eqn:EY.
  - congruence.
  - rewrite <- EY in *.
    assert (concatenate_columns (map (_warp self) (_unwarped_Y self))
            = Return (concat (map (_warp self) (_unwarped_Y self)))) as ->
      by (rewrite EY; reflexivity).
    rewrite Consistency.warp_concat, <- HY. f_equal.
    destruct self as [[[i k X0 Y0] d0] d a ta uY aX fX fY].
    cbn in *. subst. reflexivity.
Qed.

End Restore.
End Restore.

(** X17.  [remove_fantasies] leaves a clean object whenever it returns, and
    [update] keeps a clean object clean: no fantasy is stored, alpha is the
    true alpha, and the model holds the real history warped under it. *)
Theorem clean_objects_stay_clean {N : Number} {kernel : Type} :
  (forall self self' : WsabiLGP.t N kernel,
      WsabiLGP.remove_fantasies self = (Return tt, self') ->
      History.clean self')
  /\ (forall (self self' : WsabiLGP.t N kernel) (x : ndarray) (y : py_y),
        History.clean self ->
        WsabiLGP.update x y self = (Return tt, self') ->
        History.clean self').
Proof.
  split.
  - intros self self' Hrm.
    assert (WsabiLGP.consistent self') as Hc.
    { apply (@Consistency.orderly_call_consistent N kernel self
               (@WsabiLGP.RemoveFantasies N) self' Hrm I).
      right. left. reflexivity. }
    rewrite WsabiFacts.remove_fantasies_eq in Hrm. cbv zeta in Hrm.
    destruct (WsabiLGP.concatenate_columns _) as [W|e] eqn:EW; [|discriminate].
    destruct (concatenate _) as [X|e]; [|discriminate].
    injection Hrm as <-.
    repeat split; try reflexivity; try apply Hc.
    cbn. intros Hnil. rewrite Hnil in EW. discriminate.
  - intros self self' x y (Hne & Hf & Ha & Hc) Hu.
    assert (WsabiLGP.consistent self') as Hc'.
    { apply (@Consistency.orderly_call_consistent N kernel self
               (WsabiLGP.Update x y) self' Hu Hf).
      left. exact Hc. }
    apply Effects.update_effect in Hu.
    destruct Hu as [->|(x' & y' & _ & HY & _ & HfX & HfY & _ & Hcase)].
    { repeat split; try assumption; apply Hf || apply Hc. }
    destruct Hf as [HfX0 HfY0].
    repeat split; try apply Hc'.
    + rewrite HY. destruct (WsabiLGP._unwarped_Y self); discriminate.
    + congruence.
    + congruence.
    + destruct Hcase as [(Ha' & Ht' & _)|Ht']; congruence.
Qed.

(** X18.  Fantasies leave no trace: on a clean object, any calls of
    [fantasise], returned or raised, followed by [remove_fantasies] give back
    the object as it was, field by field. *)
Theorem fantasies_leave_no_trace {N : Number} {kernel : Type}
  (self : WsabiLGP.t N kernel) (batches : list (ndarray * py_y)) :
  History.clean self ->
  WsabiLGP.remove_fantasies
    (History.after (History.fantasies batches) self)
  = (Return tt, self).
Proof.
  intros Hclean.
  eapply HistoryFacts.remove_fantasies_reads_the_real_part;
    [|apply Restore.remove_fantasies_clean; exact Hclean].
  clear. revert self.
  induction batches as [|[x y] batches IH]; intros self; cbn; [reflexivity|].
  rewrite IH. apply HistoryFacts.fantasise_real_part.
Qed.

(** ** The shapes of what the queries return *)

(** X19.  The queries of [GP] return arrays of the documented shapes, GPy and
    the kernel gradients returning theirs: the mean and the variance have the
    shape of [x] without its last axis, the two jacobians the shape of [x], and
    the two hessians the shape of [x] with one more axis of the length of the
    last. *)
Theorem the_queries_return_the_documented_shapes
  {N : Number} {kernel : Type}
  {gpy : GPy.Inference N kernel} {kg : KernelGradients N kernel}
  (self : GP.t N kernel) (x : ndarray) (n Nt d : nat) :
  GP.prediction_inputs self (as_batch x) n d ->
  GP.gradient_inputs self (as_batch x) n d ->
  GP.hessian_inputs self (as_batch x) n Nt d ->
  exists m v mj vj mh vh,
    GP.posterior_mean_and_variance self x = Return (m, v)
    /\ GP.posterior_jacobians self x = Return (mj, vj)
    /\ GP.posterior_hessians self x = Return (mh, vh)
    /\ shape m = removelast (shape x) /\ shape v = removelast (shape x)
    /\ shape mj = shape x /\ shape vj = shape x
    /\ shape mh = shape x ++ [d] /\ shape vh = shape x ++ [d].
Proof.
  intros Hpred Hgrad Hhess.
  pose proof (GP.batch_shape Hpred) as Hx.
  pose proof (Queries.posterior_mean_and_variance_batch Hpred) as Hmv.
  pose proof (Queries.posterior_jacobians_batch Hx (GP.batch_dimensions Hpred)
                Hgrad) as Hj.
  destruct (EngineFacts.posterior_hessians_entries Hhess)
    as (mh & vh & Hh & Hmh & Hvh & _).
  pose proof (GP.variance_jacobian_shape Hgrad) as Hvj.
  unfold GP.posterior_mean_and_variance, GP.posterior_jacobians,
    GP.posterior_hessians in *.
  rewrite (Queries.flexible_via_batch _ _ x), Hmv.
  rewrite (Queries.flexible_via_batch _ _ x), Hj.
  rewrite (Queries.flexible_via_batch _ _ x), Hh.
  cbn [bind].
  unfold as_batch, single_point in *.
  destruct (shape x) as [|d0 [|d1 [|d2 sh]]] eqn:Es;
    cbn [shape] in Hx; rewrite ?Es in Hx; try discriminate;
    injection Hx as <- <-;
    do 6 eexists; repeat split;
    cbn [both fst snd drop_axis0 shape tl removelast app];
    try rewrite Hvj; try rewrite Hmh; try rewrite Hvh; reflexivity.
Qed.

(** X20.  The hessian of the posterior mean is symmetric in its two
    dimensions, the hessian of the cross-covariance that [kernel_gradients]
    supplies being symmetric in its own. *)
Theorem the_mean_hessian_is_symmetric
  {N : Number} {kernel : Type}
  {gpy : GPy.Inference N kernel} {kg : KernelGradients N kernel}
  (self : GP.t N kernel) (x : ndarray) (n Nt d : nat) :
  GP.hessian_inputs self (as_batch x) n Nt d ->
  symmetric4 (GP._kernel_hessian self (as_batch x)) n Nt d ->
  exists meanHessian varianceHessian,
    GP.posterior_hessians self x = Return (meanHessian, varianceHessian)
    /\ forall i j k, i < n -> j < d -> k < d ->
         at_point x meanHessian i j k = at_point x meanHessian i k j.
Proof.
  intros Hin HH.
  destruct (Queries.posterior_hessians_at_point _ Hin)
    as (mh & vh & Hret & _ & Hent).
  exists mh, vh. split; [exact Hret|].
  intros i j k Hi Hj Hk.
  destruct (Hent i j k Hi Hj Hk) as [-> _].
  destruct (Hent i k j Hi Hk Hj) as [-> _].
  apply Hessians.sum_upto_ext. intros l Hl.
  apply Hessians.sum_upto_ext. intros m _.
  rewrite (HH i l j k Hi Hl Hj Hk). reflexivity.
Qed.

(** ** One batch, or two *)

Module Batches.
Import WsabiLGP WsabiFacts History.
Section Batches.
Context {N : Number} {L : StrictOrderLaws N} {kernel : Type}.
Abbreviation t := (WsabiLGP.t N kernel).

(** [np.concatenate] is associative. *)
Lemma concatenate2_assoc (acc a b ab : ndarray) :
  concatenate2 a b = Return ab ->
  (acc' <- concatenate2 acc a ;; concatenate2 acc' b) = concatenate2 acc ab.
Proof.
  unfold concatenate2 at 1.
  destruct (shape a) as [|m1 s1] eqn:Ha; [discriminate|].
  destruct (shape b) as [|m2 s2] eqn:Hb; [discriminate|].
  destruct (shape_eqb s1 s2) eqn:E; [|discriminate].
  apply shape_eqb_eq in E. subst s2. intros [= <-].
  destruct (shape acc) as [|n sh] eqn:Hacc.
  { unfold concatenate2. rewrite Hacc. reflexivity. }
  rewrite (concatenate2_shapes _ _ Hacc Ha).
  rewrite (concatenate2_shapes _ (mk_ndarray _ _) Hacc eq_refl).
  destruct (shape_eqb sh s1) eqn:E; [|reflexivity].
  cbn [bind]. rewrite (concatenate2_shapes (mk_ndarray _ _) _ eq_refl Hb), E.
  cbn [data]. rewrite <- app_assoc, Nat.add_assoc. reflexivity.
Qed.

(** Two last arrays of a list may be concatenated beforehand. *)
Lemma concatenate_merge_last (l : list ndarray) (a b ab : ndarray) :
  concatenate [a; b] = Return ab ->
  concatenate (l ++ [a; b]) = concatenate (l ++ [ab]).
Proof.
  intros Hab. destruct l as [|c l].
  - cbn [app]. rewrite Hab.
    rewrite Consistency.concatenate_pair in Hab. unfold concatenate2 in Hab.
    destruct (shape a); [discriminate|]. destruct (shape b); [discriminate|].
    destruct (shape_eqb _ _); [|discriminate]. injection Hab as <-. reflexivity.
  - rewrite Consistency.concatenate_pair in Hab.
    cbn. destruct (shape c); [reflexivity|].
    rewrite !Refused.concatenate_onto_app.
    destruct (concatenate_onto c l) as [acc|e]; [|reflexivity].
    cbn [bind concatenate_onto].
    rewrite <- (@concatenate2_assoc acc a b ab Hab).
    destruct (concatenate2 acc a) as [acc'|e]; [|reflexivity].
    cbn [bind]. destruct (concatenate2 acc' b); reflexivity.
Qed.

(** The batch made of two accepted batches is accepted. *)
Lemma validate_concatenated (x1 x2 : ndarray) (y1 y2 : py_y)
  (x1' x2' x12 : ndarray) (y1' y2' : list num) :
  _validate_and_transform_for_gpy_update x1 y1 = Return (x1', y1') ->
  _validate_and_transform_for_gpy_update x2 y2 = Return (x2', y2') ->
  concatenate [x1'; x2'] = Return x12 ->
  _validate_and_transform_for_gpy_update x12 (YArray (column_array (y1' ++ y2')))
  = Return (x12, y1' ++ y2').
Proof.
  intros Hv1 Hv2 H12.
  destruct (validate_return _ _ Hv1) as (Hx1 & _ & Hn1).
  destruct (validate_return _ _ Hv2) as (Hx2 & _ & Hn2).
  destruct (atleast_2d_shape x1) as (m1 & d1 & s1 & Hs1). rewrite <- Hx1 in Hs1.
  destruct (atleast_2d_shape x2) as (m2 & d2 & s2 & Hs2). rewrite <- Hx2 in Hs2.
  rewrite Consistency.concatenate_pair, (concatenate2_shapes _ _ Hs1 Hs2) in H12.
  destruct (shape_eqb (d1 :: s1) (d2 :: s2)); [|discriminate].
  injection H12 as <-.
  unfold size_axis0 in Hn1, Hn2. rewrite Hs1 in Hn1. rewrite Hs2 in Hn2.
  cbn [hd] in Hn1, Hn2.
  rewrite validate_eq. unfold x_points, y_points, size, size_axis0.
  cbn. rewrite length_app, <- Hn1, <- Hn2, Nat.eqb_refl. reflexivity.
Qed.

(** The two paths of [update] on a batch that is not empty. *)
Lemma update_paths (self : t) (x : ndarray) (y : py_y)
  (x' : ndarray) (y' : list num) :
  _validate_and_transform_for_gpy_update x y = Return (x', y') ->
  y' <> [] ->
  let c := candidate_alpha (value (_alpha self)) y' in
  update x y self
  = if nltb c (value (_alpha self)) then
      let self2 :=
        set_true_alpha (Row c) (set_alpha (Row c) (with_real x' y' self)) in
      match concatenate (_all_X self ++ [x']) with
      | Return all_X =>
          (Return tt,
           set_gp
             (GP.set_XY (_gp self) all_X
                (_warp self2 (concat (_unwarped_Y self ++ [y']))))
             self2)
      | Raise e => (Raise e, self2)
      end
    else
      match concatenate [GP.X (_gp self); x'] with
      | Return X' =>
          (Return tt,
           set_gp (GP.set_XY (_gp self) X' (GP.Y (_gp self) ++ _warp self y'))
             (with_real x' y' self))
      | Raise e => (Raise e, with_real x' y' self)
      end.
Proof.
  intros Hv Hy c.
  pose proof (UpdatePath.py_min_batch (_alpha self) Hy) as Hmin. fold c in Hmin.
  rewrite update_eq, Hv. cbv zeta. rewrite Hmin.
  destruct (nltb c (value (_alpha self))).
  - rewrite update_reprocess_eq. cbv zeta.
    cbn [_unwarped_Y _all_X _gp with_real set_unwarped_Y set_all_X].
    assert (forall (f : list num -> list num) (l : list (list num)),
               concatenate_columns (N := N) (map f (l ++ [y']))
               = Return (concat (map f (l ++ [y'])))) as Hc.
    { intros f l. rewrite map_app. destruct (map f l); reflexivity. }
    rewrite Hc, Consistency.warp_concat. reflexivity.
  - rewrite gp_update_eq
      by (eapply validate_again; [exact Hv|apply length_warp]).
    reflexivity.
Qed.

Lemma candidate_alpha_app (alpha : num) (y1 y2 : list num) :
  candidate_alpha alpha (y1 ++ y2)
  = candidate_alpha (candidate_alpha alpha y1) y2.
Proof. unfold candidate_alpha. apply fold_left_app. Qed.

Lemma concat_two_last (l : list (list num)) (a b : list num) :
  concat ((l ++ [a]) ++ [b]) = concat (l ++ [a ++ b]).
Proof.
  rewrite !concat_app. cbn. rewrite !app_nil_r. symmetry. apply app_assoc.
Qed.

End Batches.
End Batches.

(** X21.  Two updates are one update of the concatenated batch.  When two
    calls of [update] on batches that are not empty return one after the other,
    the one call on the two batches concatenated returns as well, and leaves
    the same model and the same offsets; its object differs from the object
    after the two calls only in that the histories hold the two batches as
    one. *)
Theorem update_in_one_batch_or_two
  {N : Number} {L : StrictOrderLaws N} {kernel : Type}
  (self s1 s2 : WsabiLGP.t N kernel) (x1 x2 : ndarray) (y1 y2 : py_y)
  (x1' x2' x12 : ndarray) (y1' y2' : list num) :
  _validate_and_transform_for_gpy_update x1 y1 = Return (x1', y1') ->
  y1' <> [] ->
  _validate_and_transform_for_gpy_update x2 y2 = Return (x2', y2') ->
  y2' <> [] ->
  concatenate [x1'; x2'] = Return x12 ->
  WsabiLGP.update x1 y1 self = (Return tt, s1) ->
  WsabiLGP.update x2 y2 s1 = (Return tt, s2) ->
  WsabiLGP.update x12 (YArray (column_array (y1' ++ y2'))) self
  = (Return tt,
     WsabiLGP.set_unwarped_Y (WsabiLGP._unwarped_Y self ++ [y1' ++ y2'])
       (WsabiLGP.set_all_X (WsabiLGP._all_X self ++ [x12]) s2))
  /\ WsabiLGP._all_X s2 = WsabiLGP._all_X self ++ [x1'; x2']
  /\ WsabiLGP._unwarped_Y s2 = WsabiLGP._unwarped_Y self ++ [y1'; y2'].
Proof.
  intros Hv1 Hy1 Hv2 Hy2 H12 Hu1 Hu2.
  assert (_validate_and_transform_for_gpy_update x12
            (YArray (column_array (y1' ++ y2')))
          = Return (x12, y1' ++ y2')) as Hv12
    by (eapply Batches.validate_concatenated; eassumption).
  assert (y1' ++ y2' <> []) as Hy12 by (destruct y1'; [congruence|discriminate]).
  rewrite (@Batches.update_paths N L kernel self x1 y1 x1' y1' Hv1 Hy1) in Hu1.
  rewrite (@Batches.update_paths N L kernel s1 x2 y2 x2' y2' Hv2 Hy2) in Hu2.
  rewrite (@Batches.update_paths N L kernel self _ _ _ _ Hv12 Hy12).
  cbv zeta in *. rewrite Batches.candidate_alpha_app.
  set (a := WsabiLGP.value (WsabiLGP._alpha self)) in *.
  set (c1 := WsabiLGP.candidate_alpha a y1') in *.
  assert (forall l : list ndarray,
            concatenate ((l ++ [x1']) ++ [x2']) = concatenate (l ++ [x12]))
    as Hmerge.
  { intros l. rewrite <- app_assoc. apply Batches.concatenate_merge_last, H12. }
  destruct (nltb c1 a) eqn:E1.
  - destruct (concatenate (WsabiLGP._all_X self ++ [x1'])) as [AX1|e] eqn:EA1;
      [|discriminate].
    injection Hu1 as <-.
    cbn [WsabiLGP._alpha WsabiLGP.value WsabiLGP.set_gp WsabiLGP.set_true_alpha
         WsabiLGP.set_alpha WsabiLGP.with_real WsabiLGP.set_unwarped_Y
         WsabiLGP.set_all_X WsabiLGP._all_X WsabiLGP._unwarped_Y WsabiLGP._gp]
      in Hu2.
    set (c12 := WsabiLGP.candidate_alpha c1 y2') in *.
    destruct (nltb c12 c1) eqn:E2.
    + rewrite (nltb_trans _ _ _ E2 E1).
      rewrite Hmerge in Hu2.
      destruct (concatenate (WsabiLGP._all_X self ++ [x12])) as [AX|e];
        [|discriminate].
      injection Hu2 as <-.
      rewrite Batches.concat_two_last. unfold WsabiLGP._warp. cbn.
      rewrite <- !app_assoc. repeat split; reflexivity.
    + assert (c12 = c1) as Hc
        by (apply UpdatePath.candidate_alpha_same; exact E2).
      rewrite Hc, E1.
      rewrite Consistency.concatenate_pair in Hu2.
      unfold GP.X, GP.set_XY in Hu2. cbn [GP._gpy_gp GPy.set_XY GPy.X] in Hu2.
      rewrite <- Consistency.concatenate_pair in Hu2.
      rewrite <- (Consistency.concatenate_snoc _ _ EA1), Hmerge in Hu2.
      destruct (concatenate (WsabiLGP._all_X self ++ [x12])) as [AX|e];
        [|discriminate].
      injection Hu2 as <-.
      rewrite <- Batches.concat_two_last. unfold WsabiLGP._warp, GP.Y. cbn.
      rewrite (concat_app (_ ++ [y1']) [y2']). cbn [concat].
      rewrite app_nil_r, map_app, <- !app_assoc. repeat split; reflexivity.
  - assert (c1 = a) as Hc by (apply UpdatePath.candidate_alpha_same; exact E1).
    rewrite Hc in *. clear Hc E1 c1.
    destruct (concatenate [GP.X (WsabiLGP._gp self); x1']) as [X1|e] eqn:EX1;
      [|discriminate].
    injection Hu1 as <-.
    cbn [WsabiLGP._alpha WsabiLGP.value WsabiLGP.set_gp WsabiLGP.set_true_alpha
         WsabiLGP.set_alpha WsabiLGP.with_real WsabiLGP.set_unwarped_Y
         WsabiLGP.set_all_X WsabiLGP._all_X WsabiLGP._unwarped_Y WsabiLGP._gp]
      in Hu2.
    fold a in Hu2.
    set (c12 := WsabiLGP.candidate_alpha a y2') in *.
    destruct (nltb c12 a) eqn:E2.
    + rewrite Hmerge in Hu2.
      destruct (concatenate (WsabiLGP._all_X self ++ [x12])) as [AX|e];
        [|discriminate].
      injection Hu2 as <-.
      rewrite Batches.concat_two_last. unfold WsabiLGP._warp. cbn.
      rewrite <- !app_assoc. repeat split; reflexivity.
    + rewrite Consistency.concatenate_pair in Hu2.
      unfold GP.X, GP.set_XY in Hu2. cbn [GP._gpy_gp GPy.set_XY GPy.X] in Hu2.
      rewrite Consistency.concatenate_pair in EX1 |- *.
      rewrite Consistency.concatenate_pair in H12.
      rewrite <- (@Batches.concatenate2_assoc N (GP.X (WsabiLGP._gp self))
                    x1' x2' x12 H12).
      fold (GP.X (WsabiLGP._gp self)) in EX1. rewrite EX1. cbn [bind].
      destruct (concatenate2 X1 x2') as [X2|e]; [|discriminate].
      injection Hu2 as <-.
      unfold WsabiLGP._warp, GP.Y. cbn.
      rewrite map_app, <- !app_assoc. repeat split; reflexivity.
Qed.

(** ** The offsets are attained *)

Module Attained.
Import WsabiLGP WsabiFacts History MinFacts Effects.
Section Attained.
Context {N : Number} {kernel : Type}.
Abbreviation t := (WsabiLGP.t N kernel).

(** The running minimum is the first value or one of the items. *)
Lemma least_in (items : list num) (cur : num) :
  least cur items = cur \/ In (least cur items) items.
Proof.
  unfold least.
  revert cur; induction items as [|v items IH]; intros cur; cbn; [auto|].
  destruct (nltb v cur).
  - destruct (IH v) as [H|H]; [right; left; symmetry; exact H|right; right; exact H].
  - destruct (IH cur) as [H|H]; [left; exact H|right; right; exact H].
Qed.

Lemma in_scaled (y : list num) (c : num) :
  In c (map (nmul n08) y) -> exists v, In v y /\ c = nmul n08 v.
Proof.
  intros H. apply in_map_iff in H. destruct H as (v & <- & Hv). eauto.
Qed.

Lemma in_concat_more (l l' : list (list num)) (u : num) :
  In u (concat l) -> In u (concat (l ++ l')).
Proof.
  intros H. rewrite concat_app. apply in_or_app. left; exact H.
Qed.

Lemma in_concat_last (l : list (list num)) (y : list num) (u : num) :
  In u y -> In u (concat (l ++ [y])).
Proof.
  intros H. rewrite concat_app. apply in_or_app. right. cbn.
  rewrite app_nil_r. exact H.
Qed.

Lemma init_attained (gp : GP.t N kernel) (self : t) :
  __init__ gp = Return self -> attained self /\ settled self.
Proof.
  unfold __init__.
  change (map (fun v : num => ndiv (nmul v v) n2) (GP.Y gp))
    with (map half_square (GP.Y gp)).
  destruct (GP.Y gp) as [|v [|w Y']]; cbn [map].
  - discriminate.
  - cbn. intros [= <-]. unfold attained, settled. cbn.
    repeat split; eauto.
  - destruct (Construction.py_min_rows (half_square v) (half_square w)
                (map half_square Y')) as (res & Hres & Hpick).
    rewrite Hres. cbn [bind rows map hd]. rewrite Hpick. intros [= <-].
    unfold attained, settled. cbn [_alpha _true_alpha _unwarped_Y _fantasy_Y
                                    value times_08 concat app].
    rewrite !app_nil_r.
    assert (In (least (half_square v) (half_square w :: map half_square Y'))
              (half_square v :: half_square w :: map half_square Y')) as Hin.
    { destruct (least_in (half_square w :: map half_square Y') (half_square v))
        as [->|H]; [left; reflexivity|right; exact H]. }
    repeat split; eauto.
Qed.

Lemma orderly_keeps_attained (self : t) (c : call N) (self' : t) :
  run c self = (Return tt, self') -> orderly self c ->
  attained self /\ settled self -> attained self' /\ settled self'.
Proof.
  intros Hrun Hord [[(ut & Hut & Ht) (ua & Hua & Ha)] Hs].
  destruct c as [x y|x y|]; cbn [run orderly] in *.
  - specialize (Hs Hord). destruct Hord as [HfX HfY].
    apply update_effect in Hrun.
    destruct Hrun as [->|(x' & y' & _ & HuY & _ & HfX' & HfY' & Hval & Hcase)].
    { split; [split; eauto|]. intros _. exact Hs. }
    rewrite HfY, app_nil_r in Hua.
    assert (exists u, In u (concat (_unwarped_Y self'))
                      /\ value (_alpha self') = nmul n08 u) as Hnew.
    { rewrite Hval, HuY.
      destruct (least_in (map (nmul n08) y') (value (_alpha self))) as [->|Hin].
      - exists ua. split; [apply in_concat_more; exact Hua|exact Ha].
      - apply in_scaled in Hin. destruct Hin as (v & Hv & ->).
        exists v. split; [apply in_concat_last; exact Hv|reflexivity]. }
    assert (_alpha self' = _true_alpha self') as Heq
      by (destruct Hcase as [(Ha' & Ht' & _)|Ht']; congruence).
    split; [split|intros _; exact Heq].
    + rewrite <- Heq. exact Hnew.
    + rewrite HfY', HfY, app_nil_r. exact Hnew.
  - apply fantasise_effect in Hrun.
    destruct Hrun as [->|(x' & y' & _ & HuY & _ & HfX' & HfY' & Hval & Ht')].
    { split; [split; eauto|exact Hs]. }
    split; [split|].
    + rewrite HuY, Ht'. eauto.
    + rewrite Hval, HuY, HfY', app_assoc.
      destruct (least_in (map (nmul n08) y') (value (_alpha self))) as [->|Hin].
      * exists ua. split; [apply in_concat_more; exact Hua|exact Ha].
      * apply in_scaled in Hin. destruct Hin as (v & Hv & ->).
        exists v. split; [apply in_concat_last; exact Hv|reflexivity].
    + intros [HX _]. rewrite HfX' in HX. destruct (_fantasy_X self); discriminate.
  - apply remove_fantasies_effect in Hrun.
    destruct Hrun as (Ha' & Ht' & HuY & _ & Hclear).
    destruct (Hclear eq_refl) as [_ HfY'].
    split; [split|intros _; congruence].
    + rewrite HuY, Ht'. eauto.
    + rewrite HuY, HfY', app_nil_r, Ha'. eauto.
Qed.

(** The real history and alpha after [update] on an accepted batch, whatever
    its outcome. *)
Lemma accepted_update (self self' : t) (x : ndarray) (y : py_y)
  (x' : ndarray) (y' : list num) (o : outcome unit) :
  _validate_and_transform_for_gpy_update x y = Return (x', y') ->
  update x y self = (o, self') ->
  _unwarped_Y self' = _unwarped_Y self ++ [y']
  /\ value (_alpha self') = least (value (_alpha self)) (map (nmul n08) y').
Proof.
  intros Hv Hrun. rewrite update_eq, Hv in Hrun. cbv zeta in Hrun.
  destruct (py_min _) as [res|e] eqn:Hm.
  - destruct (py_min_value _ _ Hm) as [Hval _].
    unfold rows in Hval. rewrite map_map in Hval. cbn [value] in Hval.
    rewrite map_id in Hval.
    destruct res as [|new_min]; cbn [picked] in Hval.
    + unfold gp_update in Hrun.
      destruct (GP.update _ _ _); injection Hrun as _ <-; cbn; auto.
    + rewrite update_reprocess_eq in Hrun. cbv zeta in Hrun.
      destruct (concatenate_columns _); [destruct (concatenate _)|];
        injection Hrun as _ <-; cbn; auto.
  - destruct y' as [|v y']; [|destruct (_alpha self); discriminate].
    injection Hrun as _ <-. cbn. auto.
Qed.

Lemma orderly_reachable_attained (gp : GP.t N kernel) (self : t) :
  orderly_reachable gp self -> attained self.
Proof.
  intros (self0 & Hinit & Hcalls).
  apply init_attained in Hinit.
  assert (attained self /\ settled self) as [H _]; [|exact H].
  induction Hcalls as [|self0 self1 c self2 _ IH Hord Hrun]; [exact Hinit|].
  eapply orderly_keeps_attained; eauto.
Qed.

End Attained.
End Attained.

(** X22.  The offsets are attained.  In every state reached from the
    construction by orderly calls, the true alpha is 0.8 times an observation
    of the real history, and alpha is 0.8 times an observation of the real or
    of the fantasy history: [min] returns one of its arguments. *)
Theorem the_offsets_are_attained {N : Number} {kernel : Type}
  (gp : GP.t N kernel) (self : WsabiLGP.t N kernel) :
  WsabiLGP.orderly_reachable gp self ->
  (exists u, In u (concat (WsabiLGP._unwarped_Y self))
             /\ WsabiLGP.value (WsabiLGP._true_alpha self) = nmul n08 u)
  /\ (exists u, In u (concat (WsabiLGP._unwarped_Y self
                              ++ WsabiLGP._fantasy_Y self))
                /\ WsabiLGP.value (WsabiLGP._alpha self) = nmul n08 u).
Proof.
  intros Hreach. exact (Attained.orderly_reachable_attained Hreach).
Qed.

(** X23.  On the reals, observations that are not negative give a warped mean
    that is not negative: along orderly calls, when no stored observation is
    negative, alpha is not negative, and neither is the warped posterior mean
    at any point of a valid query. *)
Theorem nonnegative_observations_give_a_nonnegative_mean
  {kernel : Type} {gpy : GPy.Inference real kernel}
  (gp : GP.t real kernel) (self : WsabiLGP.t real kernel)
  (x : ndarray) (n d : nat) :
  WsabiLGP.orderly_reachable gp self ->
  (forall u,
     In u (concat (WsabiLGP._unwarped_Y self ++ WsabiLGP._fantasy_Y self)) ->
     (0 <= u)%R) ->
  GP.prediction_inputs (WsabiLGP._gp self) (as_batch x) n d ->
  (0 <= WsabiLGP.value (WsabiLGP._alpha self))%R
  /\ exists mean variance,
       WsabiLGP.posterior_mean_and_variance self x = Return (mean, variance)
       /\ Forall (fun mu => (0 <= mu)%R) (data mean).
Proof.
  intros Hreach Hpos Hpred.
  destruct (Attained.orderly_reachable_attained Hreach)
    as [_ (u & Hu & Ha)].
  assert (0 <= WsabiLGP.value (WsabiLGP._alpha self))%R as Halpha.
  { rewrite Ha. specialize (Hpos u Hu). cbn. lra. }
  split; [exact Halpha|].
  pose proof (WarpedMoments.posterior_mean_and_variance_of_batch self Hpred) as Hw.
  cbv zeta in Hw.
  unfold WsabiLGP.posterior_mean_and_variance in *.
  rewrite (Queries.flexible_via_batch _ _ x), Hw. cbn [bind].
  assert (forall l : list R,
            Forall (fun mu => (0 <= mu)%R)
              (map (fun mi : R =>
                      nadd (Number := real) (WsabiLGP.value (WsabiLGP._alpha self))
                        (ndiv (Number := real) (nmul (Number := real) mi mi) n2))
                 l)) as Hmean.
  { intros l. apply Forall_forall. intros mu Hmu. apply in_map_iff in Hmu.
    destruct Hmu as (mi & <- & _). cbn. pose proof (Rle_0_sqr mi) as Hsq.
    unfold Rsqr in Hsq. lra. }
  destruct (single_point x); cbn [both fst snd drop_axis0 shape data tl];
    do 2 eexists; split; try reflexivity; apply Hmean.
Qed.

(** X24.  On the reals, a negative observation that lowers alpha has no warp:
    when a batch that [update] accepts holds a negative observation u with
    0.8 u below alpha, the object [update] leaves stores an observation of the
    batch that is strictly below the new alpha, so that [_warp] takes the
    square root of a negative number (not a number, in numpy). *)
Theorem a_negative_observation_has_no_warp {kernel : Type}
  (self self' : WsabiLGP.t real kernel) (x : ndarray) (y : py_y)
  (x' : ndarray) (y' : list R) (o : outcome unit) (u : R) :
  _validate_and_transform_for_gpy_update x y = Return (x', y') ->
  WsabiLGP.update x y self = (o, self') ->
  In u y' -> (u < 0)%R ->
  (8 / 10 * u < WsabiLGP.value (WsabiLGP._alpha self))%R ->
  exists v,
    In v y'
    /\ In v (concat (WsabiLGP._unwarped_Y self'))
    /\ (v < WsabiLGP.value (WsabiLGP._alpha self'))%R.
Proof.
  intros Hv Hrun Hu Hneg Hlow.
  destruct (Attained.accepted_update _ _ _ Hv Hrun) as [HuY Hval].
  pose proof (MinFacts.least_nle (L := real_order) (map (nmul n08) y')
                (WsabiLGP.value (WsabiLGP._alpha self)) (nmul n08 u)
                (in_map _ _ _ Hu)) as Hle.
  apply real_nle in Hle.
  destruct (@Attained.least_in real (map (nmul (Number := real) n08) y')
              (WsabiLGP.value (WsabiLGP._alpha self))) as [Heq|Hin].
  { rewrite Heq in Hle. cbn in Hle. lra. }
  apply (@Attained.in_scaled real) in Hin. destruct Hin as (v & Hvin & Hv08).
  exists v. repeat split.
  - exact Hvin.
  - rewrite HuY. apply (@Attained.in_concat_last real). exact Hvin.
  - rewrite Hval, Hv08. rewrite Hv08 in Hle. cbn in *. lra.
Qed.

(** ** Calls that cannot fail *)

Module Uniform.
Import WsabiLGP WsabiFacts History.
Section Uniform.
Context {N : Number} {kernel : Type}.
Abbreviation t := (WsabiLGP.t N kernel).

Lemma concatenate2_returned (a b c : ndarray) (n : nat) (sh : list nat) :
  concatenate2 a b = Return c -> shape a = n :: sh ->
  trailing sh b /\ trailing sh c.
Proof.
  unfold concatenate2. intros H Ha. rewrite Ha in H.
  destruct (shape b) as [|m sh'] eqn:Hb; [discriminate|].
  destruct (shape_eqb sh sh') eqn:E; [|discriminate].
  apply shape_eqb_eq in E. subst sh'. injection H as <-.
  split; [exists m; exact Hb|eexists; reflexivity].
Qed.

Lemma concatenate2_returns (a b : ndarray) (sh : list nat) :
  trailing sh a -> trailing sh b ->
  exists c, concatenate2 a b = Return c /\ trailing sh c.
Proof.
  intros [n Ha] [m Hb]. rewrite (concatenate2_shapes _ _ Ha Hb), shape_eqb_refl.
  eexists. split; [reflexivity|]. eexists; reflexivity.
Qed.

Lemma concatenate_onto_returns (l : list ndarray) (a : ndarray) (sh : list nat) :
  trailing sh a -> Forall (trailing sh) l ->
  exists c, concatenate_onto a l = Return c /\ trailing sh c.
Proof.
  revert a; induction l as [|b l IH]; intros a Ha Hl; cbn.
  - eauto.
  - inversion Hl as [|? ? Hb Hl']; subst.
    destruct (concatenate2_returns Ha Hb) as (c & -> & Hc). cbn.
    apply IH; assumption.
Qed.

(** Arrays of one trailing shape concatenate. *)
Lemma concatenate_returns (l : list ndarray) (sh : list nat) :
  l <> [] -> Forall (trailing sh) l ->
  exists c, concatenate l = Return c /\ trailing sh c.
Proof.
  destruct l as [|a l]; [congruence|]. intros _ Hl.
  inversion Hl as [|? ? Ha Hl']; subst. cbn.
  destruct Ha as [n Ha]. rewrite Ha.
  apply concatenate_onto_returns; [exists n; exact Ha|exact Hl'].
Qed.

(** An array that concatenates after arrays of one trailing shape has it. *)
Lemma concatenate_snoc_returned (l : list ndarray) (x c : ndarray)
  (sh : list nat) :
  l <> [] -> Forall (trailing sh) l ->
  concatenate (l ++ [x]) = Return c ->
  trailing sh x /\ trailing sh c.
Proof.
  intros Hne Hl H.
  destruct (concatenate_returns Hne Hl) as (a & Ha & [n Hsh]).
  rewrite (Consistency.concatenate_snoc _ _ Ha), Consistency.concatenate_pair in H.
  exact (concatenate2_returned _ _ H Hsh).
Qed.

Lemma snoc_not_nil {A : Type} (l : list A) (a : A) : l ++ [a] <> [].
Proof. destruct l; discriminate. Qed.

Lemma init_uniform (gp : GP.t N kernel) (self : t) (n : nat) (sh : list nat) :
  __init__ gp = Return self -> shape (GP.X gp) = n :: sh -> uniform sh self.
Proof.
  unfold __init__. destruct (py_min _); [|discriminate].
  cbn [bind]. intros [= <-] HX. unfold uniform. cbn.
  repeat split; try discriminate.
  - exists n; exact HX.
  - constructor; [exists n; exact HX|constructor].
Qed.

Lemma run_keeps_uniform (c : call N) (self self' : t) (sh : list nat) :
  run c self = (Return tt, self') -> uniform sh self -> uniform sh self'.
Proof.
  intros Hrun ([n HX] & Hall & HneX & HneY).
  pose proof Hall as Hall'. apply Forall_app in Hall'. destruct Hall' as [HaX HfX].
  destruct c as [x y|x y|]; cbn [run] in Hrun.
  - rewrite update_eq in Hrun.
    destruct (_validate_and_transform_for_gpy_update x y) as [[x' y']|e] eqn:Hv;
      [|discriminate].
    cbv zeta in Hrun.
    destruct (py_min _) as [[|new_min]|e]; [| |discriminate].
    + rewrite gp_update_eq in Hrun
        by (eapply validate_again; [exact Hv|apply length_warp]).
      destruct (concatenate [_; _]) as [X'|e] eqn:EX; [|discriminate].
      injection Hrun as <-.
      rewrite Consistency.concatenate_pair in EX.
      destruct (concatenate2_returned _ _ EX HX) as [Hx' HX'].
      unfold uniform. cbn. repeat split.
      * exact HX'.
      * apply Forall_app. split; [|exact HfX].
        apply Forall_app. split; [exact HaX|]. constructor; [exact Hx'|constructor].
      * apply snoc_not_nil.
      * apply snoc_not_nil.
    + rewrite update_reprocess_eq in Hrun. cbv zeta in Hrun.
      destruct (concatenate_columns _); [|discriminate].
      destruct (concatenate _) as [X'|e] eqn:EX; [|discriminate].
      injection Hrun as <-. cbn in EX.
      destruct (concatenate_snoc_returned _ HneX HaX EX) as [Hx' HX'].
      unfold uniform. cbn. repeat split.
      * exact HX'.
      * apply Forall_app. split; [|exact HfX].
        apply Forall_app. split; [exact HaX|]. constructor; [exact Hx'|constructor].
      * apply snoc_not_nil.
      * apply snoc_not_nil.
  - rewrite fantasise_eq in Hrun.
    destruct (_validate_and_transform_for_gpy_update x y) as [[x' y']|e] eqn:Hv;
      [|discriminate].
    cbv zeta in Hrun.
    destruct (py_min _) as [[|new_min]|e]; [| |discriminate].
    + rewrite gp_update_eq in Hrun
        by (eapply validate_again; [exact Hv|apply length_warp]).
      destruct (concatenate [_; _]) as [X'|e] eqn:EX; [|discriminate].
      injection Hrun as <-.
      rewrite Consistency.concatenate_pair in EX.
      destruct (concatenate2_returned _ _ EX HX) as [Hx' HX'].
      unfold uniform. cbn. repeat split; try assumption.
      rewrite app_assoc. apply Forall_app. split; [exact Hall|].
      constructor; [exact Hx'|constructor].
    + rewrite fantasise_reprocess_eq in Hrun. cbv zeta in Hrun.
      destruct (concatenate_columns _); [|discriminate].
      destruct (concatenate _) as [X'|e] eqn:EX; [|discriminate].
      injection Hrun as <-. cbn in EX. rewrite app_assoc in EX.
      assert (_all_X self ++ _fantasy_X self <> []) as Hne
        by (destruct (_all_X self); [congruence|discriminate]).
      destruct (concatenate_snoc_returned _ Hne Hall EX) as [Hx' HX'].
      unfold uniform. cbn. repeat split; try assumption.
      rewrite app_assoc. apply Forall_app. split; [exact Hall|].
      constructor; [exact Hx'|constructor].
  - rewrite remove_fantasies_eq in Hrun. cbv zeta in Hrun.
    destruct (concatenate_columns _); [|discriminate].
    destruct (concatenate _) as [X'|e] eqn:EX; [|discriminate].
    injection Hrun as <-.
    destruct (concatenate_returns HneX HaX) as (X'' & EX' & HX').
    rewrite EX in EX'. injection EX' as <-.
    unfold uniform. cbn. rewrite app_nil_r. repeat split; assumption.
Qed.

Lemma reachable_uniform (gp : GP.t N kernel) (self : t) (n : nat) (sh : list nat) :
  reachable gp self -> shape (GP.X gp) = n :: sh -> uniform sh self.
Proof.
  intros Hr HX. induction Hr as [self Hinit|self c self' _ IH Hrun].
  - eapply init_uniform; eassumption.
  - eapply run_keeps_uniform; eassumption.
Qed.

Lemma concatenate_columns_returns (l : list (list num)) :
  l <> [] -> concatenate_columns l = Return (concat l).
Proof. destruct l; [congruence|reflexivity]. Qed.

End Uniform.
End Uniform.

(** X25.  After calls that all returned, [remove_fantasies] cannot fail: in
    every state reached from the construction on a model whose inputs have at
    least one axis, it returns. *)
Theorem remove_fantasies_returns_after_calls_that_returned
  {N : Number} {kernel : Type}
  (gp : GP.t N kernel) (self : WsabiLGP.t N kernel) (n : nat) (sh : list nat) :
  WsabiLGP.reachable gp self ->
  shape (GP.X gp) = n :: sh ->
  exists self', WsabiLGP.remove_fantasies self = (Return tt, self').
Proof.
  intros Hr HX.
  destruct (Uniform.reachable_uniform Hr HX) as (_ & Hall & HneX & HneY).
  apply Forall_app in Hall. destruct Hall as [HaX _].
  destruct (Uniform.concatenate_returns HneX HaX) as (X & EX & _).
  rewrite WsabiFacts.remove_fantasies_eq. cbv zeta.
  rewrite Uniform.concatenate_columns_returns, EX
    by (destruct (WsabiLGP._unwarped_Y self); [congruence|discriminate]).
  eexists. reflexivity.
Qed.

(** X26.  After calls that all returned, a batch in the right form cannot
    fail: when the validator accepts a batch that is not empty and whose points
    have the trailing shape of the inputs of the model passed to the
    constructor, [update] returns, and so does [fantasise]. *)
Theorem a_batch_in_the_right_form_is_taken
  {N : Number} {kernel : Type}
  (gp : GP.t N kernel) (self : WsabiLGP.t N kernel)
  (x : ndarray) (y : py_y) (x' : ndarray) (y' : list num)
  (n m : nat) (sh : list nat) :
  WsabiLGP.reachable gp self ->
  shape (GP.X gp) = n :: sh ->
  _validate_and_transform_for_gpy_update x y = Return (x', y') ->
  y' <> [] ->
  shape x' = m :: sh ->
  (exists self', WsabiLGP.update x y self = (Return tt, self'))
  /\ (exists self', WsabiLGP.fantasise x y self = (Return tt, self')).
Proof.
  intros Hr HX Hv Hy Hx'.
  destruct (Uniform.reachable_uniform Hr HX) as (HgX & Hall & HneX & HneY).
  pose proof Hall as Hall'. apply Forall_app in Hall'. destruct Hall' as [HaX HfX].
  assert (History.trailing sh x') as Htx by (exists m; exact Hx').
  assert (exists X', concatenate [GP.X (WsabiLGP._gp self); x'] = Return X')
    as [X' EX'].
  { rewrite Consistency.concatenate_pair.
    destruct (Uniform.concatenate2_returns HgX Htx) as (c & Hc & _). eauto. }
  assert (forall l, l <> [] -> Forall (History.trailing sh) l ->
            exists X, concatenate (l ++ [x']) = Return X) as Hsnoc.
  { intros l Hne Hl.
    destruct (Uniform.concatenate_returns (l := l ++ [x']) (sh := sh))
      as (X & EX & _); [apply Uniform.snoc_not_nil| |eauto].
    apply Forall_app. split; [exact Hl|]. constructor; [exact Htx|constructor]. }
  rewrite WsabiFacts.update_eq, WsabiFacts.fantasise_eq, Hv. cbv zeta.
  destruct y' as [|v ys]; [congruence|].
  change (map (nmul n08) (v :: ys)) with (nmul n08 v :: map (nmul n08) ys).
  rewrite Refused.py_min_returns.
  destruct (WsabiLGP.min_scan _ _ _) as [|new_min].
  - rewrite !WsabiFacts.gp_update_eq
      by (eapply validate_again; [exact Hv|apply WsabiFacts.length_warp]).
    cbn [WsabiLGP._gp WsabiLGP.with_real WsabiLGP.with_fantasy
         WsabiLGP.set_unwarped_Y WsabiLGP.set_all_X
         WsabiLGP.set_fantasy_Y WsabiLGP.set_fantasy_X].
    rewrite EX'. split; eexists; reflexivity.
  - rewrite WsabiFacts.update_reprocess_eq, WsabiFacts.fantasise_reprocess_eq.
    cbv zeta.
    cbn [WsabiLGP._unwarped_Y WsabiLGP._all_X WsabiLGP._fantasy_X
         WsabiLGP._fantasy_Y WsabiLGP.with_real WsabiLGP.with_fantasy
         WsabiLGP.set_unwarped_Y WsabiLGP.set_all_X
         WsabiLGP.set_fantasy_Y WsabiLGP.set_fantasy_X].
    destruct (Hsnoc _ HneX HaX) as [X1 EX1].
    assert (WsabiLGP._all_X self ++ WsabiLGP._fantasy_X self <> []) as Hne
      by (destruct (WsabiLGP._all_X self); [congruence|discriminate]).
    destruct (Hsnoc _ Hne Hall) as [X2 EX2]. rewrite <- app_assoc in EX2.
    rewrite EX1, EX2.
    rewrite !Uniform.concatenate_columns_returns;
      [split; eexists; reflexivity| |];
      intros Hnil; apply (f_equal (@length _)) in Hnil;
      rewrite ?length_app, ?length_map, ?length_app in Hnil;
      cbn in Hnil; lia.
Qed.

(** ** Instances of the further properties *)

Lemma validator_output_is_a_fixed_point_witness :
  _validate_and_transform_for_gpy_update
    (Binary64Examples.arr [2] [0%float; 1%float]) (Binary64Examples.float_y 3%float)
  = Return (Binary64Examples.arr [1; 2] [0%float; 1%float], [3%float])
  /\ _validate_and_transform_for_gpy_update
       (Binary64Examples.arr [1; 2] [0%float; 1%float])
       (YArray (column_array (N := binary64) [3%float]))
     = Return (Binary64Examples.arr [1; 2] [0%float; 1%float], [3%float]).
Proof.
  assert (_validate_and_transform_for_gpy_update
            (Binary64Examples.arr [2] [0%float; 1%float])
            (Binary64Examples.float_y 3%float)
          = Return (Binary64Examples.arr [1; 2] [0%float; 1%float], [3%float]))
    as Hv by (vm_compute; reflexivity).
  split; [exact Hv|].
  exact (proj2 (proj2 (proj2 (proj2
           (@validator_output_is_a_fixed_point binary64 _ _ _ _ Hv))))).
Defined.

Lemma an_x_of_one_axis_is_one_point_witness :
  _validate_and_transform_for_gpy_update
    (Binary64Examples.arr [3] [0%float; 1%float; 2%float])
    (Binary64Examples.array_y [3] [4%float; 5%float; 6%float])
  = Raise (PointCountError 1 3).
Proof.
  rewrite (@an_x_of_one_axis_is_one_point binary64
             (Binary64Examples.arr [3] [0%float; 1%float; 2%float])
             (Binary64Examples.array_y [3] [4%float; 5%float; 6%float])
             ltac:(cbn; lia)).
  reflexivity.
Defined.

Lemma gp_update_appends_the_batch_witness :
  GP.update Binary64Examples.gp (Binary64Examples.arr [1; 1] [1%float])
    (Binary64Examples.float_y 3%float)
  = Return (Binary64Examples.model [0%float; 1%float] [2%float; 3%float]).
Proof.
  rewrite (@gp_update_appends_the_batch binary64 unit Binary64Examples.gp
             (Binary64Examples.arr [1; 1] [1%float])
             (Binary64Examples.float_y 3%float) 1 [1] eq_refl).
  reflexivity.
Defined.

Lemma gp_update_in_one_batch_or_two_witness :
  (gp1 <- GP.update Binary64Examples.gp (Binary64Examples.arr [1; 1] [1%float])
            (Binary64Examples.float_y 3%float) ;;
   GP.update gp1 (Binary64Examples.arr [1; 1] [2%float])
     (Binary64Examples.float_y 4%float))
  = GP.update Binary64Examples.gp
      (Binary64Examples.arr [2; 1] [1%float; 2%float])
      (YArray (column_array (N := binary64) [3%float; 4%float])).
Proof.
  exact (@gp_update_in_one_batch_or_two binary64 unit Binary64Examples.gp
           (Binary64Examples.arr [1; 1] [1%float])
           (Binary64Examples.arr [1; 1] [2%float])
           (Binary64Examples.float_y 3%float) (Binary64Examples.float_y 4%float)
           (Binary64Examples.arr [1; 1] [1%float])
           (Binary64Examples.arr [1; 1] [2%float])
           (Binary64Examples.arr [2; 1] [1%float; 2%float])
           [3%float] [4%float] eq_refl eq_refl eq_refl).
Defined.

Lemma histories_stay_aligned_witness :
  History.aligned Binary64Examples.self0
  /\ History.aligned
       (History.after
          [WsabiLGP.Update (Binary64Examples.arr [1; 1] [1%float])
             (Binary64Examples.array_y [2] [1%float; 2%float]);
           WsabiLGP.Fantasise (Binary64Examples.arr [1; 1] [1%float])
             (Binary64Examples.float_y 3%float)]
          Binary64Examples.self0).
Proof.
  exact (@histories_stay_aligned binary64 unit Binary64Examples.gp
           Binary64Examples.self0 _ eq_refl Binary64Runs.construction_of_self0).
Defined.

Lemma remove_fantasies_undoes_the_fantasies_witness :
  WsabiLGP.remove_fantasies
    (History.after
       (History.fantasies
          [(Binary64Examples.arr [1; 1] [1%float], Binary64Examples.float_y 3%float)])
       Binary64Examples.self0)
  = (Return tt, Binary64Examples.self0_rewarped).
Proof.
  apply (@remove_fantasies_undoes_the_fantasies binary64 unit
           Binary64Examples.self0 Binary64Examples.self0_rewarped).
  vm_compute. reflexivity.
Defined.

Lemma a_refused_batch_stays_in_the_history_witness :
  exists self',
    WsabiLGP.update (Binary64Examples.arr [1; 2] [1%float; 1%float])
      (Binary64Examples.float_y 3%float) Binary64Examples.self0
    = (Raise ShapeError, self')
    /\ WsabiLGP._all_X self'
       = [Binary64Examples.arr [1; 1] [0%float];
          Binary64Examples.arr [1; 2] [1%float; 1%float]]
    /\ WsabiLGP._unwarped_Y self' = [[2%float]; [3%float]]
    /\ forall calls,
         fst (WsabiLGP.remove_fantasies (History.after calls self'))
         = Raise ShapeError.
Proof.
  apply (@a_refused_batch_stays_in_the_history binary64 unit
           Binary64Examples.self0
           (Binary64Examples.arr [1; 2] [1%float; 1%float])
           (Binary64Examples.float_y 3%float)
           (Binary64Examples.arr [1; 2] [1%float; 1%float])
           (Binary64Examples.arr [1; 1] [0%float]) [3%float] 1 1 1 [1] [2]);
    try reflexivity; discriminate.
Defined.

Lemma fantasise_reprocesses_iff_alpha_decreases_witness :
  WsabiLGP.candidate_alpha (N := binary64) 0x1.999999999999ap+0%float [3%float]
  = 0x1.999999999999ap+0%float
  /\ WsabiLGP.fantasise (Binary64Examples.arr [1; 1] [1%float])
       (Binary64Examples.float_y 3%float) Binary64Examples.self0_rewarped
     = (Return tt, Binary64Examples.self0_fantasised).
Proof.
  pose proof (@fantasise_reprocesses_iff_alpha_decreases binary64 binary64_order
                unit Binary64Examples.self0_rewarped
                (Binary64Examples.arr [1; 1] [1%float])
                (Binary64Examples.float_y 3%float)
                (Binary64Examples.arr [1; 1] [1%float]) [3%float]
                eq_refl ltac:(discriminate)) as [_ Hsame].
  destruct (Hsame ltac:(vm_compute; reflexivity)) as [Hc Hf].
  split; [exact Hc|]. rewrite Hf. vm_compute. reflexivity.
Defined.


Lemma nonnegative_observations_have_a_warp_witness :
  (WsabiLGP.value (WsabiLGP._alpha RealExamples.self0_fantasised) <= 1)%R
  /\ map (fun w =>
            (WsabiLGP.value (WsabiLGP._alpha RealExamples.self0_fantasised)
             + w * w / 2)%R)
       (WsabiLGP._warp RealExamples.self0_fantasised [1%R])
     = [1%R].
Proof.
  apply (@nonnegative_observations_have_a_warp unit RealExamples.gp
           RealExamples.self0_fantasised 1%R).
  - exists RealExamples.self0. split; [reflexivity|].
    eapply WsabiLGP.orderly_more
      with (c := WsabiLGP.Fantasise (RealExamples.arr [1; 1] [1%R])
                   (RealExamples.float_y 1%R));
      [apply WsabiLGP.orderly_none|exact I|exact RealRuns.fantasise_of_self0].
  - cbn. right. left. reflexivity.
  - lra.
Defined.

Lemma the_warped_mean_reproduces_the_observations_witness :
  exists mean variance,
    WsabiLGP.posterior_mean_and_variance (gpy := RealExamples.interpolation)
      RealExamples.self0_rewarped (RealExamples.arr [1; 1] [0%R])
    = Return (mean, variance)
    /\ data mean = [(2 * 2 / 2)%R].
Proof.
  apply (@the_warped_mean_reproduces_the_observations unit
           RealExamples.interpolation RealExamples.self0_rewarped
           (RealExamples.arr [1; 1] [0%R]) 1 1).
  - constructor; reflexivity.
  - split; reflexivity.
  - cbn. intros u [<-|[]]. lra.
  - reflexivity.
Defined.


Lemma fantasies_leave_no_trace_witness :
  WsabiLGP.remove_fantasies
    (History.after
       (History.fantasies
          [(Binary64Examples.arr [1; 1] [1%float], Binary64Examples.float_y 3%float);
           (Binary64Examples.arr [1; 1] [2%float], Binary64Examples.float_y 1%float)])
       Binary64Examples.self0_rewarped)
  = (Return tt, Binary64Examples.self0_rewarped).
Proof.
  apply (@fantasies_leave_no_trace binary64 unit Binary64Examples.self0_rewarped).
  repeat split; try (vm_compute; reflexivity). discriminate.
Defined.

Lemma the_queries_return_the_documented_shapes_witness :
  exists m v mj vj mh vh,
    GP.posterior_mean_and_variance (gpy := RealExamples.inference)
      RealExamples.engine RealExamples.query = Return (m, v)
    /\ GP.posterior_jacobians (gpy := RealExamples.inference)
         RealExamples.engine RealExamples.query = Return (mj, vj)
    /\ GP.posterior_hessians (gpy := RealExamples.inference)
         (kg := RealExamples.gradients)
         RealExamples.engine RealExamples.query = Return (mh, vh)
    /\ shape m = [] /\ shape v = []
    /\ shape mj = [2] /\ shape vj = [2]
    /\ shape mh = [2; 2] /\ shape vh = [2; 2].
Proof.
  exact (@the_queries_return_the_documented_shapes real unit
           RealExamples.inference RealExamples.gradients
           RealExamples.engine RealExamples.query 1 1 2
           RealRuns.prediction_inputs_of_query
           RealRuns.gradient_inputs_of_query
           RealRuns.hessian_inputs_of_query).
Defined.

Lemma the_mean_hessian_is_symmetric_witness :
  exists meanHessian varianceHessian,
    GP.posterior_hessians (gpy := RealExamples.inference)
      (kg := RealExamples.gradients)
      RealExamples.engine RealExamples.query
    = Return (meanHessian, varianceHessian)
    /\ forall i j k, i < 1 -> j < 2 -> k < 2 ->
         at_point RealExamples.query meanHessian i j k
         = at_point RealExamples.query meanHessian i k j.
Proof.
  exact (@the_mean_hessian_is_symmetric real unit
           RealExamples.inference RealExamples.gradients
           RealExamples.engine RealExamples.query 1 1 2
           RealRuns.hessian_inputs_of_query
           RealRuns.kernel_hessian_symmetric).
Defined.

Lemma update_in_one_batch_or_two_witness :
  let s2 :=
    snd (WsabiLGP.update (Binary64Examples.arr [1; 1] [2%float])
           (Binary64Examples.float_y 3%float) Binary64Examples.self1) in
  WsabiLGP.update (Binary64Examples.arr [2; 1] [1%float; 2%float])
    (YArray (column_array (N := binary64) [1%float; 3%float]))
    Binary64Examples.self0
  = (Return tt,
     WsabiLGP.set_unwarped_Y (N := binary64) [[2%float]; [1%float; 3%float]]
       (WsabiLGP.set_all_X
          [Binary64Examples.arr [1; 1] [0%float];
           Binary64Examples.arr [2; 1] [1%float; 2%float]] s2))
  /\ WsabiLGP._all_X s2
     = [Binary64Examples.arr [1; 1] [0%float];
        Binary64Examples.arr [1; 1] [1%float];
        Binary64Examples.arr [1; 1] [2%float]]
  /\ WsabiLGP._unwarped_Y s2 = [[2%float]; [1%float]; [3%float]].
Proof.
  exact (@update_in_one_batch_or_two binary64 binary64_order unit
           Binary64Examples.self0 Binary64Examples.self1
           (snd (WsabiLGP.update (Binary64Examples.arr [1; 1] [2%float])
                   (Binary64Examples.float_y 3%float) Binary64Examples.self1))
           (Binary64Examples.arr [1; 1] [1%float])
           (Binary64Examples.arr [1; 1] [2%float])
           (Binary64Examples.float_y 1%float) (Binary64Examples.float_y 3%float)
           (Binary64Examples.arr [1; 1] [1%float])
           (Binary64Examples.arr [1; 1] [2%float])
           (Binary64Examples.arr [2; 1] [1%float; 2%float])
           [1%float] [3%float]
           eq_refl ltac:(discriminate) eq_refl ltac:(discriminate) eq_refl
           Binary64Runs.update_of_self0
           ltac:(vm_compute; reflexivity)).
Defined.

Lemma the_offsets_are_attained_witness :
  (exists u, In u (concat (WsabiLGP._unwarped_Y Binary64Examples.self1))
             /\ WsabiLGP.value (WsabiLGP._true_alpha Binary64Examples.self1)
                = nmul n08 u)
  /\ (exists u, In u (concat (WsabiLGP._unwarped_Y Binary64Examples.self1
                              ++ WsabiLGP._fantasy_Y Binary64Examples.self1))
                /\ WsabiLGP.value (WsabiLGP._alpha Binary64Examples.self1)
                   = nmul n08 u).
Proof.
  apply (@the_offsets_are_attained binary64 unit Binary64Examples.gp
           Binary64Examples.self1).
  exists Binary64Examples.self0.
  split; [exact Binary64Runs.construction_of_self0|].
  eapply WsabiLGP.orderly_more
    with (c := WsabiLGP.Update (Binary64Examples.arr [1; 1] [1%float])
                 (Binary64Examples.float_y 1%float));
    [apply WsabiLGP.orderly_none|split; reflexivity
    |exact Binary64Runs.update_of_self0].
Defined.

Lemma nonnegative_observations_give_a_nonnegative_mean_witness :
  (0 <= WsabiLGP.value (WsabiLGP._alpha RealExamples.self0))%R
  /\ exists mean variance,
       WsabiLGP.posterior_mean_and_variance (gpy := RealExamples.interpolation)
         RealExamples.self0 (RealExamples.arr [1; 1] [0%R])
       = Return (mean, variance)
       /\ Forall (fun mu => (0 <= mu)%R) (data mean).
Proof.
  apply (@nonnegative_observations_give_a_nonnegative_mean unit
           RealExamples.interpolation RealExamples.gp RealExamples.self0
           (RealExamples.arr [1; 1] [0%R]) 1 1).
  - exists RealExamples.self0. split; [reflexivity|apply WsabiLGP.orderly_none].
  - cbn. intros u [<-|[]]. lra.
  - constructor; reflexivity.
Defined.

Lemma a_negative_observation_has_no_warp_witness :
  exists v,
    In v [(-1)%R]
    /\ In v (concat
               (WsabiLGP._unwarped_Y
                  (snd (WsabiLGP.update (RealExamples.arr [1; 1] [1%R])
                          (RealExamples.float_y (-1)%R) RealExamples.self0))))
    /\ Rlt v
         (WsabiLGP.value
            (WsabiLGP._alpha
               (snd (WsabiLGP.update (RealExamples.arr [1; 1] [1%R])
                       (RealExamples.float_y (-1)%R) RealExamples.self0)))).
Proof.
  apply (@a_negative_observation_has_no_warp unit RealExamples.self0
           (snd (WsabiLGP.update (RealExamples.arr [1; 1] [1%R])
                   (RealExamples.float_y (-1)%R) RealExamples.self0))
           (RealExamples.arr [1; 1] [1%R]) (RealExamples.float_y (-1)%R)
           (RealExamples.arr [1; 1] [1%R]) [(-1)%R]
           (fst (WsabiLGP.update (RealExamples.arr [1; 1] [1%R])
                   (RealExamples.float_y (-1)%R) RealExamples.self0))
           (-1)%R).
  - reflexivity.
  - apply surjective_pairing.
  - left. reflexivity.
  - lra.
  - cbn. lra.
Defined.

Lemma remove_fantasies_returns_after_calls_that_returned_witness :
  exists self',
    WsabiLGP.remove_fantasies Binary64Examples.self1 = (Return tt, self').
Proof.
  apply (@remove_fantasies_returns_after_calls_that_returned binary64 unit
           Binary64Examples.gp Binary64Examples.self1 1 [1]).
  - eapply WsabiLGP.reachable_call
      with (c := WsabiLGP.Update (Binary64Examples.arr [1; 1] [1%float])
                   (Binary64Examples.float_y 1%float)).
    + apply WsabiLGP.reachable_init. exact Binary64Runs.construction_of_self0.
    + exact Binary64Runs.update_of_self0.
  - reflexivity.
Defined.

Lemma a_batch_in_the_right_form_is_taken_witness :
  (exists self',
      WsabiLGP.update (Binary64Examples.arr [1; 1] [2%float])
        (Binary64Examples.float_y 3%float) Binary64Examples.self1
      = (Return tt, self'))
  /\ (exists self',
        WsabiLGP.fantasise (Binary64Examples.arr [1; 1] [2%float])
          (Binary64Examples.float_y 3%float) Binary64Examples.self1
        = (Return tt, self')).
Proof.
  apply (@a_batch_in_the_right_form_is_taken binary64 unit
           Binary64Examples.gp Binary64Examples.self1
           (Binary64Examples.arr [1; 1] [2%float])
           (Binary64Examples.float_y 3%float)
           (Binary64Examples.arr [1; 1] [2%float]) [3%float] 1 1 [1]).
  - eapply WsabiLGP.reachable_call
      with (c := WsabiLGP.Update (Binary64Examples.arr [1; 1] [1%float])
                   (Binary64Examples.float_y 1%float)).
    + apply WsabiLGP.reachable_init. exact Binary64Runs.construction_of_self0.
    + exact Binary64Runs.update_of_self0.
  - reflexivity.
  - reflexivity.
  - discriminate.
  - reflexivity.
Defined.
